(** * Org membership workflow of [OrgsServerController.ts]

    A shallow embedding of the server-side organisation controller:
    the admin check, the join-request lifecycle (request, accept,
    decline), member removal with its proposal clean-up, the restricted
    read and the lookup by id.

    Documents are records; the Mongoose arrays are lists in array order;
    the two stored collections keyed by id are finite maps.  A request
    handler is a computation over a state that holds the documents hanging
    off the Express request ([req.user], [req.org], [req.profile]), the
    stored collections, the clock, the results the external services will
    give, and the log of what has been done so far. *)

From stdpp Require Import gmap strings list fin_maps.
From Stdlib Require Import ZArith.

Local Open Scope string_scope.
Local Open Scope Z_scope.

(** ** Documents *)

(** A populated user reference as it sits inside an org or a proposal
    team: the identity plus the selected display field. *)
Record UserRef := mkUserRef {
  ref_id : string;
  ref_displayName : string
}.

(** An org reference as it sits inside a user's [orgs*] arrays. *)
Record OrgRef := mkOrgRef {
  oref_id : string;
  oref_name : string
}.

Record User := mkUser {
  u_id : string;
  u_displayName : string;
  u_roles : list string;
  u_orgsAdmin : list OrgRef;
  u_orgsMember : list OrgRef;
  u_orgsPending : list OrgRef
}.

(** Values stored under the top-level keys of an org document. *)
Inductive JsVal :=
| VNull
| VStr (s : string)
| VStrs (l : list string)
| VUser (u : UserRef)
| VUsers (l : list UserRef).

(** [o_others] stands for the schema paths of the org model that the
    controller never names ([OrgModel.ts] is outside the controller). *)
Record Org := mkOrg {
  o_id : string;
  o_name : string;
  o_website : string;
  o_orgImageURL : string;
  o_capabilities : list string;
  o_owner : option UserRef;
  o_admins : list UserRef;
  o_members : list UserRef;
  o_joinRequests : list UserRef;
  o_others : gmap string JsVal
}.

Record Opportunity := mkOpportunity {
  opportunityTypeCd : string;
  deadline : Z            (* milliseconds since the epoch, [getTime()] *)
}.

Record Phase := mkPhase { team : list UserRef }.

Record Phases := mkPhases {
  inception : Phase;
  proto : Phase;
  implementation : Phase
}.

Record Proposal := mkProposal {
  p_id : string;
  p_org : string;
  p_opportunity : Opportunity;
  p_phases : Phases;
  p_status : string
}.

(** [user.toObject({ depopulate: true })] and the cast Mongoose performs
    when a document is pushed onto an array of references. *)
Definition userRef (u : User) : UserRef :=
  {| ref_id := u_id u; ref_displayName := u_displayName u |}.

Definition orgRef (o : Org) : OrgRef :=
  {| oref_id := o_id o; oref_name := o_name o |}.

(** Field assignments ([doc.field = value]). *)
Definition set_orgsAdmin (v : list OrgRef) (u : User) : User :=
  mkUser (u_id u) (u_displayName u) (u_roles u) v (u_orgsMember u) (u_orgsPending u).
Definition set_orgsMember (v : list OrgRef) (u : User) : User :=
  mkUser (u_id u) (u_displayName u) (u_roles u) (u_orgsAdmin u) v (u_orgsPending u).
Definition set_orgsPending (v : list OrgRef) (u : User) : User :=
  mkUser (u_id u) (u_displayName u) (u_roles u) (u_orgsAdmin u) (u_orgsMember u) v.

Definition set_admins (v : list UserRef) (o : Org) : Org :=
  mkOrg (o_id o) (o_name o) (o_website o) (o_orgImageURL o) (o_capabilities o)
        (o_owner o) v (o_members o) (o_joinRequests o) (o_others o).
Definition set_members (v : list UserRef) (o : Org) : Org :=
  mkOrg (o_id o) (o_name o) (o_website o) (o_orgImageURL o) (o_capabilities o)
        (o_owner o) (o_admins o) v (o_joinRequests o) (o_others o).
Definition set_joinRequests (v : list UserRef) (o : Org) : Org :=
  mkOrg (o_id o) (o_name o) (o_website o) (o_orgImageURL o) (o_capabilities o)
        (o_owner o) (o_admins o) (o_members o) v (o_others o).

Definition set_phases (v : Phases) (x : Proposal) : Proposal :=
  mkProposal (p_id x) (p_org x) (p_opportunity x) v (p_status x).
Definition set_inception_team (v : list UserRef) (x : Proposal) : Proposal :=
  set_phases (mkPhases (mkPhase v) (proto (p_phases x)) (implementation (p_phases x))) x.
Definition set_proto_team (v : list UserRef) (x : Proposal) : Proposal :=
  set_phases (mkPhases (inception (p_phases x)) (mkPhase v) (implementation (p_phases x))) x.
Definition set_implementation_team (v : list UserRef) (x : Proposal) : Proposal :=
  set_phases (mkPhases (inception (p_phases x)) (proto (p_phases x)) (mkPhase v)) x.
Definition set_status (s : string) (x : Proposal) : Proposal :=
  mkProposal (p_id x) (p_org x) (p_opportunity x) (p_phases x) s.

(** ** JavaScript array and object primitives *)

(** [Array.prototype.indexOf]: position of the first strictly equal
    element, [-1] when there is none. *)
Fixpoint indexOfFrom (x : string) (l : list string) (i : Z) : Z :=
  match l with
  | [] => -1
  | y :: r => if bool_decide (y = x) then i else indexOfFrom x r (i + 1)
  end.

Definition indexOf (l : list string) (x : string) : Z := indexOfFrom x l 0.

(** [Array.prototype.push]. *)
Definition push {A} (l : list A) (x : A) : list A := l ++ [x].

(** A plain object: a finite map from keys to values. *)
Abbreviation JsObj := (gmap string JsVal) (only parsing).

(** [_.pick(object, paths)]: the object made of the listed properties
    that [object] has; [_.pick(null, paths)] is the empty object. *)
Fixpoint pickFrom (object : JsObj) (paths : list string) : JsObj :=
  match paths with
  | [] => ∅
  | k :: rest =>
      match object !! k with
      | Some v => <[k := v]> (pickFrom object rest)
      | None => pickFrom object rest
      end
  end.

Definition pick (object : option JsObj) (paths : list string) : JsObj :=
  match object with
  | Some obj => pickFrom obj paths
  | None => ∅
  end.

(** The own top-level properties of an org document. *)
Definition optUser (o : option UserRef) : JsVal :=
  match o with Some u => VUser u | None => VNull end.

Definition orgObject (o : Org) : JsObj :=
  <["_id" := VStr (o_id o)]>
  (<["name" := VStr (o_name o)]>
  (<["website" := VStr (o_website o)]>
  (<["orgImageURL" := VStr (o_orgImageURL o)]>
  (<["capabilities" := VStrs (o_capabilities o)]>
  (<["owner" := optUser (o_owner o)]>
  (<["admins" := VUsers (o_admins o)]>
  (<["members" := VUsers (o_members o)]>
  (<["joinRequests" := VUsers (o_joinRequests o)]>
  (o_others o))))))))).

(** ** The admin check *)

(** [isUserAdmin(org, user)]; a null or undefined argument is [None]. *)
Definition isUserAdmin (org : option Org) (user : option User) : bool :=
  match user, org with
  | Some user, Some org =>
      if indexOf (u_roles user) "admin" >=? 0 then true
      else if indexOf (map ref_id (o_admins org)) (u_id user) >=? 0 then true
      else false
  | _, _ => false
  end.

(** ** The world a handler runs in *)

(** A thrown value or a rejected promise. *)
Inductive Err :=
| TypeError                  (* property access on null or undefined *)
| Rejected (msg : string).   (* rejection of an external call *)

(** Bodies passed to [res.json] and [res.send]. *)
Inductive Body :=
| Message (text : string)          (* { message: text } *)
| ErrorMessage (error : Err)       (* { message: getErrorMessage(error) } *)
| OrgDoc (org : Org)               (* a full org document *)
| OrgAndUser (org : Org) (user : User)   (* { org, user } *)
| Object (obj : JsObj)             (* a plain object *)
| Null.

(** What a handler does to the outside, in the order it starts it.  A
    call that can be rejected carries the result it got. *)
Inductive Event :=
| SaveUser (user : User) (result : option Err)
| SaveOrg (org : Org) (result : option Err)
| SaveProposal (proposal : Proposal) (result : option Err)
| FindProposals (org : string) (result : option Err)
| FindOrgById (id : string) (result : option Err)
| ExecPopulate (org : string) (result : option Err)
| PopulateAdmins (org : string)
| SendMessages (name : string) (recipients : list UserRef)
               (org : Org) (requestingUser : option User) (result : option Err)
| Respond (status : Z) (body : Body).

Record St := mkSt {
  req_user : option User;            (* req.user *)
  req_org : option Org;              (* req.org *)
  req_profile : option User;         (* req.profile *)
  clock : Z;                         (* what [new Date().getTime()] reads *)
  db_users : gmap string User;
  db_orgs : gmap string Org;
  db_proposals : list Proposal;      (* in the order [find] returns them *)
  outcomes : list (option Err);      (* results of the coming external calls *)
  trace : list Event
}.

Definition with_req_user (v : option User) (s : St) : St :=
  mkSt v (req_org s) (req_profile s) (clock s) (db_users s) (db_orgs s)
       (db_proposals s) (outcomes s) (trace s).
Definition with_req_org (v : option Org) (s : St) : St :=
  mkSt (req_user s) v (req_profile s) (clock s) (db_users s) (db_orgs s)
       (db_proposals s) (outcomes s) (trace s).
Definition with_req_profile (v : option User) (s : St) : St :=
  mkSt (req_user s) (req_org s) v (clock s) (db_users s) (db_orgs s)
       (db_proposals s) (outcomes s) (trace s).
Definition with_db_users (v : gmap string User) (s : St) : St :=
  mkSt (req_user s) (req_org s) (req_profile s) (clock s) v (db_orgs s)
       (db_proposals s) (outcomes s) (trace s).
Definition with_db_orgs (v : gmap string Org) (s : St) : St :=
  mkSt (req_user s) (req_org s) (req_profile s) (clock s) (db_users s) v
       (db_proposals s) (outcomes s) (trace s).
Definition with_db_proposals (v : list Proposal) (s : St) : St :=
  mkSt (req_user s) (req_org s) (req_profile s) (clock s) (db_users s) (db_orgs s)
       v (outcomes s) (trace s).
Definition with_outcomes (v : list (option Err)) (s : St) : St :=
  mkSt (req_user s) (req_org s) (req_profile s) (clock s) (db_users s) (db_orgs s)
       (db_proposals s) v (trace s).
Definition log (e : Event) (s : St) : St :=
  mkSt (req_user s) (req_org s) (req_profile s) (clock s) (db_users s) (db_orgs s)
       (db_proposals s) (outcomes s) (trace s ++ [e]).

(** ** Computations: state plus exceptions *)

Inductive Result (A : Type) :=
| Ok (a : A)
| Throw (e : Err).
Arguments Ok {A} a.
Arguments Throw {A} e.

Definition M (A : Type) : Type := St -> Result A * St.

Definition ret {A} (a : A) : M A := fun s => (Ok a, s).

Definition bind {A B} (m : M A) (k : A -> M B) : M B :=
  fun s =>
    match m s with
    | (Ok a, s1) => k a s1
    | (Throw e, s1) => (Throw e, s1)
    end.

Definition throw {A} (e : Err) : M A := fun s => (Throw e, s).

(** [try { body } catch (error) { handler }]. *)
Definition try_catch {A} (body : M A) (handler : Err -> M A) : M A :=
  fun s =>
    match body s with
    | (Ok a, s1) => (Ok a, s1)
    | (Throw e, s1) => handler e s1
    end.

Declare Scope js_scope.
Delimit Scope js_scope with js.
Notation "x <- m ;; k" := (bind m (fun x => k))
  (at level 100, m at next level, right associativity) : js_scope.
Notation "m ;; k" := (bind m (fun _ => k))
  (at level 100, right associativity) : js_scope.
Local Open Scope js_scope.

Definition gets {A} (f : St -> A) : M A := fun s => (Ok (f s), s).
Definition modify (f : St -> St) : M unit := fun s => (Ok tt, f s).

(** The result of the next external call; a call succeeds when nothing
    else is scheduled for it. *)
Definition await_outcome : M (option Err) :=
  fun s =>
    match outcomes s with
    | [] => (Ok None, s)
    | r :: rest => (Ok r, with_outcomes rest s)
    end.

(** The two user documents a handler can hold. *)
Inductive UserSlot := ReqUser | ReqProfile.

Definition user_at (slot : UserSlot) (s : St) : option User :=
  match slot with
  | ReqUser => req_user s
  | ReqProfile => req_profile s
  end.

Definition with_user_at (slot : UserSlot) (v : option User) : St -> St :=
  match slot with
  | ReqUser => with_req_user v
  | ReqProfile => with_req_profile v
  end.

(** Dereferencing a document variable: null throws. *)
Definition deref {A} (o : option A) : M A :=
  match o with
  | Some a => ret a
  | None => throw TypeError
  end.

Definition the_user (slot : UserSlot) : M User :=
  o <- gets (user_at slot) ;; deref o.
Definition the_org : M Org :=
  o <- gets req_org ;; deref o.
Definition assign_user (slot : UserSlot) (u : User) : M unit :=
  modify (with_user_at slot (Some u)).
Definition assign_org (o : Org) : M unit :=
  modify (with_req_org (Some o)).

(** [res.status(n).send(body)]; [res.json(body)] answers with 200. *)
Definition respond (status : Z) (body : Body) : M unit :=
  modify (log (Respond status body)).
Definition json (body : Body) : M unit := respond 200 body.

(** In-place update of a held document ([doc.field = ...], [doc.arr.push]). *)
Definition update_user (slot : UserSlot) (f : User -> User) : M unit :=
  u <- the_user slot ;; assign_user slot (f u).
Definition update_org (f : Org -> Org) : M unit :=
  o <- the_org ;; assign_org (f o).

(** A document is an object, so it is truthy exactly when it is there. *)
Definition truthy {A} (o : option A) : bool :=
  match o with Some _ => true | None => false end.

(** ** Persistence and notification *)

(** [await user.save()]: resolves to the document itself. *)
Definition save_user (slot : UserSlot) : M User :=
  u <- the_user slot ;;
  r <- await_outcome ;;
  modify (log (SaveUser u r)) ;;
  match r with
  | None => modify (fun s => with_db_users (<[u_id u := u]> (db_users s)) s) ;; ret u
  | Some e => throw e
  end.

(** [await org.save()]. *)
Definition save_org : M Org :=
  o <- the_org ;;
  r <- await_outcome ;;
  modify (log (SaveOrg o r)) ;;
  match r with
  | None => modify (fun s => with_db_orgs (<[o_id o := o]> (db_orgs s)) s) ;; ret o
  | Some e => throw e
  end.

Definition store_proposal (p : Proposal) (l : list Proposal) : list Proposal :=
  map (fun q => if bool_decide (p_id q = p_id p) then p else q) l.

(** [proposal.save()] with the promise dropped: the write is started, and
    a rejection reaches nobody. *)
Definition save_proposal (p : Proposal) : M unit :=
  r <- await_outcome ;;
  modify (log (SaveProposal p r)) ;;
  match r with
  | None => modify (fun s => with_db_proposals (store_proposal p (db_proposals s)) s)
  | Some _ => ret tt
  end.

(** [await ProposalModel.find({ org }).populate('opportunity', ...).exec()]. *)
Definition find_proposals (org : string) : M (list Proposal) :=
  r <- await_outcome ;;
  modify (log (FindProposals org r)) ;;
  match r with
  | None =>
      all <- gets db_proposals ;;
      ret (filter (fun p => p_org p = org) all)
  | Some e => throw e
  end.

(** [await OrgModel.findById(id)]: the stored org or null. *)
Definition findById (id : string) : M (option Org) :=
  r <- await_outcome ;;
  modify (log (FindOrgById id r)) ;;
  match r with
  | None => orgs <- gets db_orgs ;; ret (orgs !! id)
  | Some e => throw e
  end.

(** [await MessagesServerController.sendMessages(name, recipients, ctx)]. *)
Definition sendMessages (name : string) (recipients : list UserRef)
    (org : Org) (requestingUser : option User) : M unit :=
  r <- await_outcome ;;
  modify (log (SendMessages name recipients org requestingUser r)) ;;
  match r with
  | None => ret tt
  | Some e => throw e
  end.

(** [Array.prototype.forEach]. *)
Fixpoint forEach {A} (l : list A) (callback : A -> M unit) : M unit :=
  match l with
  | [] => ret tt
  | x :: rest => callback x ;; forEach rest callback
  end.

(** ** The controller *)

Definition teamCount (p : Proposal) : nat :=
  (length (team (inception (p_phases p)))
   + length (team (proto (p_phases p)))
   + length (team (implementation (p_phases p))))%nat.

(** The callback [removeUserFromProposals] runs on each found proposal.
    It yields the proposal document as the callback leaves it. *)
Definition removeUserFromProposal (user : User) (rightNow : Z)
    (proposal : Proposal) : M Proposal :=
  let deadline := deadline (p_opportunity proposal) in
  let isSprintWithUs :=
    bool_decide (opportunityTypeCd (p_opportunity proposal) = "sprint-with-us") in
  if isSprintWithUs && (deadline - rightNow >? 0) then
    let beforeProposalUserCount := teamCount proposal in
    let proposal :=
      set_inception_team
        (filter (fun member => ref_id member ≠ u_id user)
                (team (inception (p_phases proposal)))) proposal in
    let proposal :=
      set_proto_team
        (filter (fun member => ref_id member ≠ u_id user)
                (team (proto (p_phases proposal)))) proposal in
    let proposal :=
      set_implementation_team
        (filter (fun member => ref_id member ≠ u_id user)
                (team (implementation (p_phases proposal)))) proposal in
    let afterProposalUserCount := teamCount proposal in
    if negb (beforeProposalUserCount =? afterProposalUserCount)%nat then
      let proposal := set_status "Draft" proposal in
      save_proposal proposal ;;
      ret proposal
    else ret proposal
  else ret proposal.

(** [removeUserFromProposals(user, org)]: reads [user.id] and [org._id]
    only. *)
Definition removeUserFromProposals (user : User) (org : Org) : M unit :=
  rightNow <- gets clock ;;
  proposals <- find_proposals (o_id org) ;;
  forEach proposals
    (fun proposal => _ <- removeUserFromProposal user rightNow proposal ;; ret tt).

(** [removeMember(user, org)].  [org] is [req.org] at both call sites,
    which have checked it; [user] is [req.profile] or [req.user]. *)
Definition removeMember (user : UserSlot) : M Org :=
  org <- the_org ;;
  update_user user (fun user =>
    set_orgsAdmin
      (filter (fun adminOrg => oref_id adminOrg ≠ o_id org) (u_orgsAdmin user)) user) ;;
  update_user user (fun user =>
    set_orgsMember
      (filter (fun memberOrg => oref_id memberOrg ≠ o_id org) (u_orgsMember user)) user) ;;
  save_user user ;;
  u <- the_user user ;;
  removeUserFromProposals u org ;;
  update_org (fun org =>
    set_members (filter (fun member => ref_id member ≠ u_id u) (o_members org)) org) ;;
  update_org (fun org =>
    set_admins (filter (fun admin => ref_id admin ≠ u_id u) (o_admins org)) org) ;;
  updatedOrg <- save_org ;;
  ret updatedOrg.

Definition removeUserFromMemberList : M unit :=
  user <- gets req_user ;;
  org <- gets req_org ;;
  if negb (truthy user) || negb (isUserAdmin org user) then
    respond 403 (Message "You are not authorized to edit this organization")
  else
    updatedOrg <- removeMember ReqProfile ;;
    json (OrgDoc updatedOrg).

Definition removeMeFromCompany : M unit :=
  user <- gets req_user ;;
  if negb (truthy user) then
    respond 422 (Message "Valid user not provided")
  else
    org <- gets req_org ;;
    if negb (truthy org) then
      respond 422 (Message "Valid company not provided")
    else
      updatedOrg <- removeMember ReqUser ;;
      json (OrgDoc updatedOrg).

(** [read]: the public fields only, unless the caller passes the admin
    check. *)
Definition read : M unit :=
  user <- gets req_user ;;
  reqOrg <- gets req_org ;;
  if negb (truthy user) || negb (isUserAdmin reqOrg user) then
    let org :=
      pick (orgObject <$> reqOrg)
           ["_id"; "orgImageURL"; "name"; "website"; "capabilities"] in
    json (Object org)
  else
    json (match reqOrg with Some o => OrgDoc o | None => Null end).

Definition joinRequest : M unit :=
  reqUser <- gets req_user ;;
  if negb (truthy reqUser) then
    respond 403 (Message "You must be signed in to join a company")
  else
    reqOrg <- gets req_org ;;
    if negb (truthy reqOrg) || negb (truthy reqUser) then
      respond 422 (Message "Invalid join request")
    else
      org <- the_org ;;
      user <- the_user ReqUser ;;
      if negb (indexOf (map ref_id (o_joinRequests org)) (u_id user) =? -1)
         || negb (indexOf (map ref_id (o_members org)) (u_id user) =? -1)
         || negb (indexOf (map ref_id (o_admins org)) (u_id user) =? -1) then
        respond 422 (Message
          "You already have a pending request or are already a member of this company")
      else
        update_org (fun org => set_joinRequests (push (o_joinRequests org) (userRef user)) org) ;;
        update_user ReqUser (fun user => set_orgsPending (push (u_orgsPending user) (orgRef org)) user) ;;
        try_catch
          (updatedOrg <- save_org ;;
           modify (log (PopulateAdmins (o_id updatedOrg))) ;;
           updatedUser <- save_user ReqUser ;;
           sendMessages "company-join-request" (o_admins updatedOrg)
                        updatedOrg (Some updatedUser) ;;
           json (OrgAndUser updatedOrg updatedUser))
          (fun error => respond 500 (ErrorMessage error)).

Definition acceptRequest : M unit :=
  user <- gets req_user ;;
  reqOrg <- gets req_org ;;
  if negb (truthy user) || negb (isUserAdmin reqOrg user) then
    respond 403 (Message "You are not authorized to add members to this company")
  else
    profile <- gets req_profile ;;
    if negb (truthy reqOrg) || negb (truthy profile) then
      respond 422 (Message "Invalid acceptance request")
    else
      org <- the_org ;;
      requestingMember <- the_user ReqProfile ;;
      if negb (indexOf (map ref_id (o_joinRequests org)) (u_id requestingMember) =? -1)
         && (indexOf (map ref_id (o_members org)) (u_id requestingMember) =? -1) then
        update_org (fun org =>
          set_members (push (o_members org) (userRef requestingMember)) org) ;;
        update_org (fun org =>
          set_joinRequests
            (filter (fun member => ref_id member ≠ u_id requestingMember)
                    (o_joinRequests org)) org) ;;
        update_user ReqProfile (fun requestingMember =>
          set_orgsPending
            (filter (fun pendingOrg => oref_id pendingOrg ≠ o_id org)
                    (u_orgsPending requestingMember)) requestingMember) ;;
        update_user ReqProfile (fun requestingMember =>
          set_orgsMember (push (u_orgsMember requestingMember) (orgRef org))
                         requestingMember) ;;
        org <- the_org ;;
        requestingMember <- the_user ReqProfile ;;
        sendMessages "company-join-request-accepted" [userRef requestingMember] org None ;;
        try_catch
          (updatedOrg <- save_org ;;
           updatedUser <- save_user ReqProfile ;;
           json (OrgAndUser updatedOrg updatedUser))
          (fun error => respond 500 (ErrorMessage error))
      else
        json (OrgDoc org).

Definition declineRequest : M unit :=
  user <- gets req_user ;;
  reqOrg <- gets req_org ;;
  if negb (truthy user) || negb (isUserAdmin reqOrg user) then
    respond 403 (Message "You are not authorized to decline requests for this company")
  else
    profile <- gets req_profile ;;
    if negb (truthy reqOrg) || negb (truthy profile) then
      respond 422 (Message "Invalid decline request")
    else
      requestingMember <- the_user ReqProfile ;;
      update_org (fun org =>
        set_joinRequests
          (filter (fun member => ref_id member ≠ u_id requestingMember)
                  (o_joinRequests org)) org) ;;
      org <- the_org ;;
      update_user ReqProfile (fun requestingMember =>
        set_orgsPending
          (filter (fun pendingOrg => oref_id pendingOrg ≠ o_id org)
                  (u_orgsPending requestingMember)) requestingMember) ;;
      requestingMember <- the_user ReqProfile ;;
      sendMessages "company-join-request-declined" [userRef requestingMember] org None ;;
      try_catch
        (updatedOrg <- save_org ;;
         updatedUser <- save_user ReqProfile ;;
         json (OrgAndUser updatedOrg updatedUser))
        (fun error => respond 500 (ErrorMessage error)).

(** [populateOrg(org)]: [org.populate(...)...execPopulate()] dereferences
    [org] before anything is asked of the store, and resolves to the
    document it was called on. *)
Definition populateOrg (org : option Org) : M (option Org) :=
  o <- deref org ;;
  r <- await_outcome ;;
  modify (log (ExecPopulate (o_id o) r)) ;;
  match r with
  | None => ret (Some o)
  | Some e => throw e
  end.

Definition getOrgById (id : string) : M (option Org) :=
  org <- findById id ;;
  populatedOrg <- populateOrg org ;;
  ret populatedOrg.

(** ** Creation and route parameters *)

Definition set_owner (v : option UserRef) (o : Org) : Org :=
  mkOrg (o_id o) (o_name o) (o_website o) (o_orgImageURL o) (o_capabilities o)
        v (o_admins o) (o_members o) (o_joinRequests o) (o_others o).

(** [await org.save()] on an org document held in a local variable. *)
Definition save_document (o : Org) : M Org :=
  r <- await_outcome ;;
  modify (log (SaveOrg o r)) ;;
  match r with
  | None => modify (fun s => with_db_orgs (<[o_id o := o]> (db_orgs s)) s) ;; ret o
  | Some e => throw e
  end.

(** [addAdminToOrg(user, org)]: [user] is [req.user], [org] the document
    [create] has just built; the document as saved is returned. *)
Definition addAdminToOrg (user : UserSlot) (org : Org) : M Org :=
  u <- the_user user ;;
  let org := set_admins (push (o_admins org) (userRef u)) org in
  u <- the_user user ;;
  let org := set_members (push (o_members org) (userRef u)) org in
  save_document org.

(** [addOrgToUser(user, org)]. *)
Definition addOrgToUser (user : UserSlot) (org : Org) : M User :=
  update_user user (fun user =>
    set_orgsAdmin (push (u_orgsAdmin user) (orgRef org)) user) ;;
  update_user user (fun user =>
    set_orgsMember (push (u_orgsMember user) (orgRef org)) user) ;;
  save_user user.

(** [create]: [body] is the document [new OrgModel(req.body)] builds.
    [org] and [updatedOrg] are one and the same document in the source. *)
Definition create (body : Org) : M unit :=
  let org := body in
  reqUser <- gets req_user ;;
  let org := set_owner (userRef <$> reqUser) org in
  updatedOrg <- addAdminToOrg ReqUser org ;;
  updatedUser <- addOrgToUser ReqUser updatedOrg ;;
  json (OrgAndUser updatedOrg updatedUser).

(** What a route-parameter middleware did with [next]. *)
Inductive Next :=
| NotCalled
| Called                       (* next() *)
| CalledWith (error : Err).    (* next(error) *)

(** [orgByID(req, res, next, id)].  [isValid] is
    [Types.ObjectId.isValid]. *)
Definition orgByID (isValid : string -> bool) (id : string) : M Next :=
  (if negb (isValid id) then respond 400 (Message "Org is invalid") else ret tt) ;;
  try_catch
    (org <- getOrgById id ;;
     if negb (truthy org) then
       respond 200 (Object ∅) ;; ret NotCalled
     else
       modify (with_req_org org) ;; ret Called)
    (fun error => ret (CalledWith error)).

(** [orgByIDSmall(req, res, next, id)]: the lookup and the population of
    the owner are one query.  What Express does with a second answer on
    one response is not modelled; the properties of this handler are
    about well-formed ids, where it sends one answer at most. *)
Definition orgByIDSmall (isValid : string -> bool) (id : string) : M Next :=
  (if negb (isValid id) then respond 400 (Message "Org is invalid") else ret tt) ;;
  try_catch
    (org <- findById id ;;
     if negb (truthy org) then
       respond 200 (Object ∅) ;; ret NotCalled
     else
       modify (with_req_org org) ;; ret Called)
    (fun error => ret (CalledWith error)).

(** * Vocabulary of the properties *)

(** The result the next external call will get. *)
Definition next_outcome (s : St) : option Err :=
  match outcomes s with
  | [] => None
  | r :: _ => r
  end.

(** Every external call still to come succeeds. *)
Definition all_succeed (s : St) : Prop := Forall (fun r => r = None) (outcomes s).

(** The state a run ends in. *)
Definition final {A} (m : M A) (s : St) : St := snd (m s).

(** The event is an attempt to save the org or the user. *)
Definition persists (e : Event) : Prop :=
  match e with
  | SaveOrg _ _ | SaveUser _ _ => True
  | _ => False
  end.

(** The event is the 500 answer of a catch block. *)
Definition persistence_error (e : Event) : Prop :=
  match e with
  | Respond 500 (ErrorMessage _) => True
  | _ => False
  end.

(** In the events [evs] of one run, whatever is a save of the org or the
    user, or the 500 answer of the catch block, comes after a first event
    that is the notification [name] to the requesting user, resolved. *)
Definition notified_first (name : string) (st : St) (evs : list Event) : Prop :=
  forall (i : nat) (ev : Event),
    evs !! i = Some ev ->
    persists ev \/ persistence_error ev ->
    (0 < i)%nat
    /\ exists requestingMember org,
         req_profile st = Some requestingMember
         /\ evs !! 0%nat
            = Some (SendMessages name [userRef requestingMember] org None None).

(** What [declineRequest] leaves in the org and in the profile. *)
Definition declinedOrg (requestingMember : User) (org : Org) : Org :=
  set_joinRequests
    (filter (fun member => ref_id member ≠ u_id requestingMember)
            (o_joinRequests org)) org.

Definition declinedUser (org : Org) (requestingMember : User) : User :=
  set_orgsPending
    (filter (fun pendingOrg => oref_id pendingOrg ≠ o_id org)
            (u_orgsPending requestingMember)) requestingMember.

(** What [joinRequest] leaves in the org and in the user. *)
Definition requestedOrg (user : User) (org : Org) : Org :=
  set_joinRequests (push (o_joinRequests org) (userRef user)) org.

Definition requestingUser (org : Org) (user : User) : User :=
  set_orgsPending (push (u_orgsPending user) (orgRef org)) user.

(** What the effective branch of [acceptRequest] leaves in the org and in
    the profile. *)
Definition acceptedOrg (requestingMember : User) (org : Org) : Org :=
  set_joinRequests
    (filter (fun member => ref_id member ≠ u_id requestingMember)
            (o_joinRequests (set_members (push (o_members org) (userRef requestingMember)) org)))
    (set_members (push (o_members org) (userRef requestingMember)) org).

Definition acceptedUser (org : Org) (requestingMember : User) : User :=
  set_orgsMember
    (push (u_orgsMember
             (set_orgsPending
                (filter (fun pendingOrg => oref_id pendingOrg ≠ o_id org)
                        (u_orgsPending requestingMember)) requestingMember))
          (orgRef org))
    (set_orgsPending
       (filter (fun pendingOrg => oref_id pendingOrg ≠ o_id org)
               (u_orgsPending requestingMember)) requestingMember).

(** The next request on the same org: the route parameters are resolved
    against the store, and [acting] is the signed-in user. *)
Definition next_request (acting : User) (orgId profileId : string) (s : St) : St :=
  with_req_profile (db_users s !! profileId)
    (with_req_org (db_orgs s !! orgId)
      (with_req_user (Some acting) s)).

(** The user is a member of the org and no longer a candidate, on both
    sides of the relation. *)
Definition joined (user : User) (org : Org) (org2 : Org) (user2 : User) : Prop :=
  u_id user ∈ map ref_id (o_members org2)
  /\ (u_id user ∉ map ref_id (o_joinRequests org2))
  /\ o_id org ∈ map oref_id (u_orgsMember user2)
  /\ (o_id org ∉ map oref_id (u_orgsPending user2)).

(** The proposal is of the sprint-with-us type and its deadline is
    strictly after [rightNow]. *)
Definition qualifies (rightNow : Z) (p : Proposal) : Prop :=
  opportunityTypeCd (p_opportunity p) = "sprint-with-us"
  /\ rightNow < deadline (p_opportunity p).

#[local] Instance qualifies_dec rightNow p : Decision (qualifies rightNow p).
Proof. unfold qualifies. apply _. Defined.

(** The proposal with the user's id filtered out of the three teams. *)
Definition withoutUser (user : User) (p : Proposal) : Proposal :=
  let p :=
    set_inception_team
      (filter (fun member => ref_id member ≠ u_id user)
              (team (inception (p_phases p)))) p in
  let p :=
    set_proto_team
      (filter (fun member => ref_id member ≠ u_id user)
              (team (proto (p_phases p)))) p in
  set_implementation_team
    (filter (fun member => ref_id member ≠ u_id user)
            (team (implementation (p_phases p)))) p.

(** The user is on at least one team of the proposal. *)
Definition shrinks (user : User) (p : Proposal) : Prop :=
  (teamCount (withoutUser user p) < teamCount p)%nat.

#[local] Instance shrinks_dec user p : Decision (shrinks user p).
Proof. unfold shrinks. apply _. Defined.

(** What the clean-up is to make of one proposal of the org: nothing
    unless it qualifies; the three teams filtered if it does, and the
    status back to Draft when a team lost someone. *)
Definition cleanedProposal (user : User) (rightNow : Z) (p : Proposal) : Proposal :=
  if decide (qualifies rightNow p) then
    if decide (shrinks user p) then set_status "Draft" (withoutUser user p)
    else withoutUser user p
  else p.

(** The saves the clean-up is to start, proposal by proposal. *)
Definition cleanupSaves (user : User) (rightNow : Z) (ps : list Proposal) : list Event :=
  flat_map
    (fun p =>
       if decide (qualifies rightNow p /\ shrinks user p)
       then [SaveProposal (cleanedProposal user rightNow p) None]
       else [])
    ps.

Definition cleanupStores (user : User) (rightNow : Z) (ps db : list Proposal)
    : list Proposal :=
  foldl
    (fun db p =>
       if decide (qualifies rightNow p /\ shrinks user p)
       then store_proposal (cleanedProposal user rightNow p) db
       else db)
    db ps.

(** What [removeMember] leaves in the user and in the org. *)
Definition removedFromUser (org : Org) (user : User) : User :=
  let user :=
    set_orgsAdmin
      (filter (fun adminOrg => oref_id adminOrg ≠ o_id org) (u_orgsAdmin user)) user in
  set_orgsMember
    (filter (fun memberOrg => oref_id memberOrg ≠ o_id org) (u_orgsMember user)) user.

Definition removedFromOrg (user : User) (org : Org) : Org :=
  let org :=
    set_members (filter (fun member => ref_id member ≠ u_id user) (o_members org)) org in
  set_admins (filter (fun admin => ref_id admin ≠ u_id user) (o_admins org)) org.

(** The state once step 1 is over: the user document updated and its
    save attempted with [result]. *)
Definition afterUserSave (slot : UserSlot) (user' : User) (result : option Err)
    (st : St) : St :=
  with_user_at slot (Some user')
    (mkSt (req_user st) (req_org st) (req_profile st) (clock st)
          (match result with
           | None => <[u_id user' := user']> (db_users st)
           | Some _ => db_users st
           end)
          (db_orgs st) (db_proposals st)
          (drop 1 (outcomes st))
          (trace st ++ [SaveUser user' result])).

(** The store once the proposals of [db0] with the ids [seen] have been
    through the callback. *)
Definition storesAfter (user : User) (rightNow : Z) (db0 : list Proposal)
    (seen : list string) : list Proposal :=
  map (fun q => if decide (p_id q ∈ seen) then cleanedProposal user rightNow q else q)
      db0.

(** What [create] makes of the submitted org and of its creator. *)
Definition createdOrg (user : User) (body : Org) : Org :=
  let org := set_owner (Some (userRef user)) body in
  let org := set_admins (push (o_admins org) (userRef user)) org in
  set_members (push (o_members org) (userRef user)) org.

Definition creatorOf (org : Org) (user : User) : User :=
  let user := set_orgsAdmin (push (u_orgsAdmin user) (orgRef org)) user in
  set_orgsMember (push (u_orgsMember user) (orgRef org)) user.

(** No id is listed twice in a list of the org, and no candidate is
    already a member or an admin. *)
Definition org_wellformed (o : Org) : Prop :=
  NoDup (map ref_id (o_joinRequests o))
  /\ NoDup (map ref_id (o_members o))
  /\ NoDup (map ref_id (o_admins o))
  /\ forall id, id ∈ map ref_id (o_joinRequests o) ->
       (id ∉ map ref_id (o_members o)) /\ (id ∉ map ref_id (o_admins o)).

(** The user lists the org exactly where the org lists the user. *)
Definition mirrored (u : User) (o : Org) : Prop :=
  (u_id u ∈ map ref_id (o_joinRequests o) <-> o_id o ∈ map oref_id (u_orgsPending u))
  /\ (u_id u ∈ map ref_id (o_members o) <-> o_id o ∈ map oref_id (u_orgsMember u))
  /\ (u_id u ∈ map ref_id (o_admins o) <-> o_id o ∈ map oref_id (u_orgsAdmin u)).

(** The property holds of the document, if there is one. *)
Definition if_present {A} (P : A -> Prop) (o : option A) : Prop :=
  match o with
  | Some a => P a
  | None => True
  end.

(** The request documents and the stored users and orgs are the same in
    both states. *)
Definition same_documents (s s' : St) : Prop :=
  req_user s' = req_user s /\ req_org s' = req_org s /\ req_profile s' = req_profile s
  /\ db_users s' = db_users s /\ db_orgs s' = db_orgs s.

(** The user and the org have parted: neither lists the other as member
    or admin any more, while a pending request and the owner are left as
    they were. *)
Definition parted (user : User) (org : Org) (user' : User) (org' : Org) : Prop :=
  (u_id user ∉ map ref_id (o_members org'))
  /\ (u_id user ∉ map ref_id (o_admins org'))
  /\ (o_id org ∉ map oref_id (u_orgsAdmin user'))
  /\ (o_id org ∉ map oref_id (u_orgsMember user'))
  /\ o_joinRequests org' = o_joinRequests org
  /\ u_orgsPending user' = u_orgsPending user
  /\ o_owner org' = o_owner org.

(** The five public fields of an org, with its own values. *)
Definition publicView (o : Org) : gmap string JsVal :=
  <["_id" := VStr (o_id o)]>
  (<["orgImageURL" := VStr (o_orgImageURL o)]>
  (<["name" := VStr (o_name o)]>
  (<["website" := VStr (o_website o)]>
  (<["capabilities" := VStrs (o_capabilities o)]> ∅)))).


(** * Sample data *)

Definition acmeRef : OrgRef := mkOrgRef "5b1f0c0e0000000000000a01" "Acme".

Definition bob : User :=
  mkUser "5b1f0c0e0000000000000b02" "Bob" ["user"] [acmeRef] [acmeRef] [].
Definition carol : User :=
  mkUser "5b1f0c0e0000000000000b03" "Carol" ["user"] [] [acmeRef] [].
Definition dave : User :=
  mkUser "5b1f0c0e0000000000000b04" "Dave" ["user"] [] [] [acmeRef].
Definition erin : User :=
  mkUser "5b1f0c0e0000000000000b05" "Erin" ["user"] [] [] [].

Definition acme : Org :=
  mkOrg "5b1f0c0e0000000000000a01" "Acme" "https://acme.example" "acme.png"
        ["c-agile"] (Some (userRef bob))
        [userRef bob] [userRef bob; userRef carol] [userRef dave]
        {["invitedUsers" := VUsers []]}.

Definition swuOpen : Proposal :=
  mkProposal "p1" "5b1f0c0e0000000000000a01" (mkOpportunity "sprint-with-us" 2000)
             (mkPhases (mkPhase [userRef bob]) (mkPhase [userRef bob; userRef carol])
                       (mkPhase [userRef carol]))
             "Submitted".
Definition swuClosed : Proposal :=
  mkProposal "p2" "5b1f0c0e0000000000000a01" (mkOpportunity "sprint-with-us" 500)
             (mkPhases (mkPhase [userRef carol]) (mkPhase []) (mkPhase []))
             "Submitted".
Definition cwuOpen : Proposal :=
  mkProposal "p3" "5b1f0c0e0000000000000a01" (mkOpportunity "code-with-us" 2000)
             (mkPhases (mkPhase [userRef carol]) (mkPhase []) (mkPhase []))
             "Submitted".
Definition swuBobOnly : Proposal :=
  mkProposal "p4" "5b1f0c0e0000000000000a01" (mkOpportunity "sprint-with-us" 2000)
             (mkPhases (mkPhase [userRef bob]) (mkPhase []) (mkPhase []))
             "Submitted".
Definition swuElsewhere : Proposal :=
  mkProposal "p5" "5b1f0c0e0000000000000a09" (mkOpportunity "sprint-with-us" 2000)
             (mkPhases (mkPhase [userRef carol]) (mkPhase []) (mkPhase []))
             "Submitted".

(** A request at time 1000 on [acme], with the store holding the five
    proposals and the documents of the request. *)
Definition request (user profile : option User) (results : list (option Err)) : St :=
  mkSt user (Some acme) profile 1000
       (list_to_map [(u_id bob, bob); (u_id carol, carol); (u_id dave, dave);
                     (u_id erin, erin)])
       {[o_id acme := acme]}
       [swuOpen; swuClosed; cwuOpen; swuBobOnly; swuElsewhere]
       results [].

(** An org as submitted to [create], before anybody is listed. *)
Definition newco : Org :=
  mkOrg "5b1f0c0e0000000000000a02" "Newco" "https://newco.example" "newco.png"
        [] None [] [] [] ∅.

(** A check of ids for the runs below, standing for [Types.ObjectId.isValid]:
    the ids of the samples are 24 characters long. *)
Definition isValidId (id : string) : bool := Nat.eqb (String.length id) 24.

(** * Proof automation *)

#[local] Arguments isUserAdmin : simpl never.

(** Closes a decidable closed goal by evaluating its decision. *)
Ltac by_evaluation := apply (bool_decide_unpack _); vm_compute; exact I.

(** Names the components of a state and substitutes what the hypotheses
    say about them. *)
Ltac open_state st :=
  destruct st as [ru ro rp now users orgs props outs tr]; simpl in *; subst.

(** Unfolds the plumbing of a handler down to matches on the state. *)
Ltac unfold_handler :=
  cbv beta delta [final bind ret gets modify throw try_catch the_org the_user
    deref update_org update_user assign_org assign_user save_org
    save_user sendMessages await_outcome json respond].

(** Splits on the results the external calls get, one call after the
    other. *)
Ltac split_outcomes :=
  repeat match goal with
         | |- context [match ?l with [] => _ | _ :: _ => _ end] =>
             lazymatch type of l with
             | list (option Err) => destruct l as [|[?|] ?]; simpl
             end
         end.

(** Settles [notified_first] on an explicit list of events. *)
Ltac check_notified_first :=
  intros i ev Hev Hkind;
  repeat (destruct i as [|i]; simpl in Hev;
          [injection Hev as <-; simpl in Hkind;
           try (destruct Hkind as [[]|[]]) |]);
  try discriminate Hev;
  (split; [lia|]); eexists _, _; split; reflexivity.

(** Runs a handler whose three request documents and admin check have
    been split on, along every result of its external calls. *)
Ltac run_all_paths :=
  split_outcomes; rewrite <- ?app_assoc; simpl.

(** Brings a state built by successive updates to a single record. *)
Ltac normal_state :=
  cbv beta iota delta [log with_req_user with_req_org with_req_profile with_user_at
    with_db_users with_db_orgs with_db_proposals with_outcomes
    req_user req_org req_profile clock db_users db_orgs db_proposals outcomes trace];
  rewrite <- ?app_assoc; cbn [app].

(** Discards the runs in which an external call fails although all were
    assumed to succeed. *)
Ltac use_all_succeed :=
  repeat match goal with
         | H : Forall _ (_ :: _) |- _ => inversion H; clear H; subst
         | H : Some _ = None |- _ => discriminate H
         end.

(** * Properties *)

(** ** [indexOf] and membership *)

Lemma indexOfFrom_cases (x : string) (l : list string) (i : Z) :
  0 <= i ->
  (x ∈ l /\ i <= indexOfFrom x l i) \/ ((x ∉ l) /\ indexOfFrom x l i = -1).
Proof.
  revert i. induction l as [|y r IH]; intros i Hi; simpl.
  - right. split; [apply not_elem_of_nil | reflexivity].
  - case_bool_decide as Hy.
    + subst y. left. split; [apply list_elem_of_here | lia].
    + destruct (IH (i + 1)) as [[Hin Hle] | [Hnin Heq]]; [lia | |].
      * left. split; [by apply list_elem_of_further | lia].
      * right. split; [|exact Heq].
        intros Hin. apply elem_of_cons in Hin as [-> | Hin]; [by apply Hy | by apply Hnin].
Qed.

Lemma indexOf_found (l : list string) (x : string) :
  (indexOf l x >=? 0) = true <-> x ∈ l.
Proof.
  unfold indexOf. destruct (indexOfFrom_cases x l 0) as [[Hin Hle] | [Hnin Heq]]; [lia | |].
  - split; [intros _; exact Hin | intros _; apply Z.geb_le; lia].
  - rewrite Heq. split; [intros H; apply Z.geb_le in H; lia | intros H; by apply Hnin in H].
Qed.

Lemma indexOf_absent (l : list string) (x : string) :
  (indexOf l x =? -1) = true <-> x ∉ l.
Proof.
  unfold indexOf. destruct (indexOfFrom_cases x l 0) as [[Hin Hle] | [Hnin Heq]]; [lia | |].
  - split; [intros H; apply Z.eqb_eq in H; lia | intros H; by apply H in Hin].
  - rewrite Heq. split; [intros _; exact Hnin | intros _; apply Z.eqb_refl].
Qed.

Lemma indexOf_present (l : list string) (x : string) :
  negb (indexOf l x =? -1) = true <-> x ∈ l.
Proof.
  rewrite negb_true_iff. split.
  - intros H. destruct (decide (x ∈ l)) as [|Hn]; [done|].
    apply indexOf_absent in Hn. congruence.
  - intros Hin. destruct (indexOf l x =? -1) eqn:E; [|done].
    apply indexOf_absent in E. done.
Qed.

(** ** The admin check *)

(** C3.  For an org O and a user U, [isUserAdmin] answers true exactly
    when U's roles contain ["admin"] or U's id is among the ids of
    O.admins; it answers false as soon as one argument is null; and it is
    a function of its two arguments alone, so evaluating it inside a
    handler leaves the state as it was. *)
Theorem isUserAdmin_iff :
  (forall (O : Org) (U : User),
      isUserAdmin (Some O) (Some U) = true
      <-> "admin" ∈ u_roles U \/ u_id U ∈ map ref_id (o_admins O))
  /\ (forall U : option User, isUserAdmin None U = false)
  /\ (forall O : option Org, isUserAdmin O None = false)
  /\ (forall s : St,
        gets (fun s => isUserAdmin (req_org s) (req_user s)) s
        = (Ok (isUserAdmin (req_org s) (req_user s)), s)).
Proof.
  repeat split.
  - unfold isUserAdmin. intros H.
    destruct (indexOf (u_roles U) "admin" >=? 0) eqn:E1.
    + left. by apply indexOf_found.
    + destruct (indexOf (map ref_id (o_admins O)) (u_id U) >=? 0) eqn:E2; [|done].
      right. by apply indexOf_found.
  - unfold isUserAdmin. intros [H | H].
    + apply indexOf_found in H. by rewrite H.
    + apply indexOf_found in H. rewrite H.
      by destruct (indexOf (u_roles U) "admin" >=? 0).
  - by intros [u|].
Qed.

(** ** The restricted read *)

Lemma pickFrom_lookup (obj : gmap string JsVal) (paths : list string)
    (k : string) (v : JsVal) :
  pickFrom obj paths !! k = Some v <-> k ∈ paths /\ obj !! k = Some v.
Proof.
  induction paths as [|p rest IH]; simpl.
  - rewrite lookup_empty. split; [done | intros [H _]; by apply not_elem_of_nil in H].
  - destruct (obj !! p) as [w|] eqn:Ep.
    + rewrite lookup_insert. case_decide as Hk.
      * subst p. split.
        -- intros [= ->]. split; [apply list_elem_of_here | done].
        -- intros [_ H]. congruence.
      * rewrite IH. rewrite elem_of_cons. split.
        -- intros [Hin Hv]. by split; [right|].
        -- intros [[-> | Hin] Hv]; [congruence | done].
    + rewrite IH. rewrite elem_of_cons. split.
      * intros [Hin Hv]. by split; [right|].
      * intros [[-> | Hin] Hv]; [congruence | done].
Qed.

(** C8.  When the caller is unauthenticated or fails the admin check,
    [read] answers 200 with a plain object whose every field is one of
    [_id], [orgImageURL], [name], [website], [capabilities], carrying the
    org's own value; [admins], [members], [joinRequests] and [owner] are
    not fields of it.  Nothing else happens. *)
Theorem read_restricted (st : St) :
  req_user st = None \/ isUserAdmin (req_org st) (req_user st) = false ->
  exists obj : gmap string JsVal,
    read st = (Ok tt, log (Respond 200 (Object obj)) st)
    /\ (forall k v, obj !! k = Some v ->
          k ∈ ["_id"; "orgImageURL"; "name"; "website"; "capabilities"]
          /\ exists o, req_org st = Some o /\ orgObject o !! k = Some v)
    /\ obj !! "admins" = None
    /\ obj !! "members" = None
    /\ obj !! "joinRequests" = None
    /\ obj !! "owner" = None.
Proof.
  intros Hguard.
  set (paths := ["_id"; "orgImageURL"; "name"; "website"; "capabilities"]).
  exists (pick (orgObject <$> req_org st) paths).
  assert (Hcond : negb (truthy (req_user st))
                  || negb (isUserAdmin (req_org st) (req_user st)) = true).
  { destruct Hguard as [-> | ->]; [done | by rewrite orb_true_r]. }
  assert (Hkeys : forall k v,
             pick (orgObject <$> req_org st) paths !! k = Some v ->
             k ∈ paths /\ exists o, req_org st = Some o /\ orgObject o !! k = Some v).
  { intros k v. destruct (req_org st) as [o|]; intros Hk.
    - apply pickFrom_lookup in Hk as [Hin Hv]. eauto.
    - change (pick (orgObject <$> None) paths) with (∅ : gmap string JsVal) in Hk.
      by rewrite lookup_empty in Hk. }
  assert (Hnot : forall k, k ∉ paths ->
             pick (orgObject <$> req_org st) paths !! k = None).
  { intros k Hk. destruct (_ !! k) as [v|] eqn:E; [|done].
    apply Hkeys in E as [Hin _]. done. }
  split; [|split; [exact Hkeys|]].
  - unfold read, bind, gets, json, respond, modify. by rewrite Hcond.
  - repeat split; apply Hnot; unfold paths; by_evaluation.
Qed.

(** ** Lookup by id *)

(** C10.  [getOrgById] never resolves to null.  When no org is stored
    under the id it throws: the rejection of [findById] if the lookup
    itself is rejected, and otherwise the [TypeError] of [populateOrg]
    dereferencing the null it was handed, before any populate query is
    issued. *)
Theorem getOrgById_never_null (id : string) (st : St) :
  (forall st', getOrgById id st <> (Ok None, st'))
  /\ (db_orgs st !! id = None ->
      exists e st',
        getOrgById id st = (Throw e, st')
        /\ (next_outcome st = None ->
            e = TypeError /\ trace st' = (trace st ++ [FindOrgById id None])%list)).
Proof.
  unfold getOrgById, findById, populateOrg, bind, await_outcome, modify, gets,
    deref, ret, throw, next_outcome.
  open_state st.
  split.
  - intros st'.
    destruct outs as [|[e|] rest]; simpl; try discriminate;
      destruct (orgs !! id) as [o|]; simpl; try discriminate.
    destruct rest as [|[e|] rest']; simpl; discriminate.
  - intros Hnone.
    destruct outs as [|[e|] rest]; simpl; rewrite ?Hnone; simpl;
      eexists _, _; (split; [reflexivity|]); done.
Qed.

(** ** Join requests *)

(** C4.  When the signed-in user's id is already among the ids of
    [org.joinRequests], [org.members] or [org.admins], [joinRequest]
    answers 422 with the conflict message and does nothing else: the
    documents held by the request, the stored collections and the pending
    external results are those of the start, and the log has gained the
    response only. *)
Theorem joinRequest_conflict (st : St) (user : User) (org : Org) :
  req_user st = Some user ->
  req_org st = Some org ->
  u_id user ∈ map ref_id (o_joinRequests org)
  \/ u_id user ∈ map ref_id (o_members org)
  \/ u_id user ∈ map ref_id (o_admins org) ->
  joinRequest st
  = (Ok tt,
     log (Respond 422 (Message
       "You already have a pending request or are already a member of this company"))
       st).
Proof.
  intros Hu Ho Hrel.
  assert (Hcond :
    negb (indexOf (map ref_id (o_joinRequests org)) (u_id user) =? -1)
    || negb (indexOf (map ref_id (o_members org)) (u_id user) =? -1)
    || negb (indexOf (map ref_id (o_admins org)) (u_id user) =? -1) = true).
  { destruct Hrel as [H | [H | H]]; apply indexOf_present in H; rewrite H;
      rewrite ?orb_true_r; reflexivity. }
  open_state st.
  unfold joinRequest, bind, gets, the_org, the_user, deref, ret, respond, modify.
  simpl. rewrite Hcond. reflexivity.
Qed.

(** C5.  With an admin acting, when the requesting user's id is not among
    the ids of [org.joinRequests], or is already among those of
    [org.members], [acceptRequest] answers 200 with the org as it stands
    and does nothing else: no document is changed, nothing is saved and
    no message is sent. *)
Theorem acceptRequest_noop (st : St) (admin requestingMember : User) (org : Org) :
  req_user st = Some admin ->
  req_org st = Some org ->
  req_profile st = Some requestingMember ->
  isUserAdmin (Some org) (Some admin) = true ->
  u_id requestingMember ∉ map ref_id (o_joinRequests org)
  \/ u_id requestingMember ∈ map ref_id (o_members org) ->
  acceptRequest st = (Ok tt, log (Respond 200 (OrgDoc org)) st).
Proof.
  intros Hu Ho Hp Hadmin Hcase.
  assert (Hcond :
    negb (indexOf (map ref_id (o_joinRequests org)) (u_id requestingMember) =? -1)
    && (indexOf (map ref_id (o_members org)) (u_id requestingMember) =? -1) = false).
  { destruct Hcase as [H | H].
    - apply indexOf_absent in H. by rewrite H.
    - apply indexOf_present in H. apply negb_true_iff in H. rewrite H.
      apply andb_false_r. }
  open_state st.
  unfold acceptRequest, bind, gets, the_org, the_user, deref, ret, json, respond, modify.
  simpl. rewrite Hadmin. simpl. rewrite Hcond. reflexivity.
Qed.

(** ** Notification and persistence in accept and decline *)

(** C9.  In [acceptRequest] and in [declineRequest], every attempt to
    save the org or the user, and every 500 answer of the catch block
    around the saves, is preceded by the notification to the requesting
    user, which is the first thing the run did and which resolved.  So in
    every run where a save fails the notification has gone out. *)
Theorem notification_before_persistence (st : St) :
  (exists evs,
      trace (final acceptRequest st) = (trace st ++ evs)%list
      /\ notified_first "company-join-request-accepted" st evs)
  /\ (exists evs,
      trace (final declineRequest st) = (trace st ++ evs)%list
      /\ notified_first "company-join-request-declined" st evs).
Proof.
  open_state st. split.
  - unfold acceptRequest. unfold_handler. simpl.
    destruct ru as [u|], ro as [o|]; simpl.
    all: try destruct (isUserAdmin _ _); simpl.
    all: try destruct rp as [p|]; simpl.
    all: try destruct (negb _ && _); simpl.
    all: run_all_paths.
    all: (eexists; split; [reflexivity|]).
    all: check_notified_first.
  - unfold declineRequest. unfold_handler. simpl.
    destruct ru as [u|], ro as [o|]; simpl.
    all: try destruct (isUserAdmin _ _); simpl.
    all: try destruct rp as [p|]; simpl.
    all: run_all_paths.
    all: (eexists; split; [reflexivity|]).
    all: check_notified_first.
Qed.

(** ** Declining twice *)

Lemma filter_idem {A} (P : A -> Prop) `{forall x, Decision (P x)} (l : list A) :
  filter P (filter P l) = filter P l.
Proof.
  induction l as [|x l IH]; [done|].
  rewrite filter_cons. destruct (decide (P x)) as [Hx|Hx]; [|done].
  rewrite filter_cons. destruct (decide (P x)); [|done]. by rewrite IH.
Qed.

Lemma filter_absent_users (x : string) (l : list UserRef) :
  x ∉ map ref_id l -> filter (fun member => ref_id member ≠ x) l = l.
Proof.
  induction l as [|y l IH]; [done|]. simpl. intros Hx.
  rewrite filter_cons. destruct (decide (ref_id y ≠ x)) as [Hy|Hy].
  - rewrite IH; [done|]. intros Hin. apply Hx. by right.
  - exfalso. apply Hx. destruct (decide (ref_id y = x)) as [->|]; [by left | done].
Qed.

Lemma isUserAdmin_set_joinRequests (v : list UserRef) (o : Org) (u : option User) :
  isUserAdmin (Some (set_joinRequests v o)) u = isUserAdmin (Some o) u.
Proof. reflexivity. Qed.

(** Past its two guards, [declineRequest] filters both documents whatever
    the external calls answer. *)
Lemma declineRequest_documents (st : St) (admin requestingMember : User) (org : Org) :
  req_user st = Some admin ->
  req_org st = Some org ->
  req_profile st = Some requestingMember ->
  isUserAdmin (Some org) (Some admin) = true ->
  req_user (final declineRequest st) = Some admin
  /\ req_org (final declineRequest st) = Some (declinedOrg requestingMember org)
  /\ req_profile (final declineRequest st) = Some (declinedUser org requestingMember).
Proof.
  intros Hu Ho Hp Hadm. open_state st.
  unfold declineRequest. unfold_handler. simpl. rewrite Hadm. simpl.
  run_all_paths; repeat split.
Qed.

(** Past its two guards and with every external call succeeding,
    [declineRequest] notifies, saves the org, saves the user and answers
    200 with both. *)
Lemma declineRequest_success (st : St) (admin requestingMember : User) (org : Org) :
  req_user st = Some admin ->
  req_org st = Some org ->
  req_profile st = Some requestingMember ->
  isUserAdmin (Some org) (Some admin) = true ->
  all_succeed st ->
  let updatedOrg := declinedOrg requestingMember org in
  let updatedUser := declinedUser org requestingMember in
  declineRequest st
  = (Ok tt,
     mkSt (Some admin) (Some updatedOrg) (Some updatedUser) (clock st)
          (<[u_id requestingMember := updatedUser]> (db_users st))
          (<[o_id org := updatedOrg]> (db_orgs st))
          (db_proposals st)
          (drop 3 (outcomes st))
          (trace st ++
           [SendMessages "company-join-request-declined"
              [userRef requestingMember] updatedOrg None None;
            SaveOrg updatedOrg None;
            SaveUser updatedUser None;
            Respond 200 (OrgAndUser updatedOrg updatedUser)])).
Proof.
  intros Hu Ho Hp Hadm Hok. unfold all_succeed in Hok. open_state st.
  unfold declineRequest. unfold_handler. simpl. rewrite Hadm. simpl.
  run_all_paths; use_all_succeed; normal_state; reflexivity.
Qed.

(** Stopped by a guard, [declineRequest] only answers. *)
Lemma declineRequest_refused (st : St) :
  truthy (req_profile st) && isUserAdmin (req_org st) (req_user st) = false ->
  exists status text,
    declineRequest st = (Ok tt, log (Respond status (Message text)) st).
Proof.
  intros Hguard. open_state st.
  unfold declineRequest. unfold_handler. simpl.
  destruct ru as [u|], ro as [o|]; simpl; try (eexists _, _; reflexivity).
  destruct (isUserAdmin (Some o) (Some u)); simpl; try (eexists _, _; reflexivity).
  destruct rp as [p|]; simpl; try (eexists _, _; reflexivity).
  discriminate Hguard.
Qed.

Lemma declinedOrg_idem (requestingMember : User) (org : Org) :
  declinedOrg (declinedUser org requestingMember) (declinedOrg requestingMember org)
  = declinedOrg requestingMember org.
Proof.
  unfold declinedOrg, declinedUser, set_joinRequests, set_orgsPending. simpl.
  by rewrite filter_idem.
Qed.

Lemma declinedUser_idem (requestingMember : User) (org : Org) :
  declinedUser (declinedOrg requestingMember org) (declinedUser org requestingMember)
  = declinedUser org requestingMember.
Proof.
  unfold declinedOrg, declinedUser, set_joinRequests, set_orgsPending. simpl.
  by rewrite filter_idem.
Qed.

Lemma all_succeed_drop (n : nat) (st st' : St) :
  all_succeed st -> outcomes st' = drop n (outcomes st) -> all_succeed st'.
Proof. unfold all_succeed. intros H ->. by apply Forall_drop. Qed.

(** C6.  Declining twice leaves the org and the profile held by the
    request as declining once does, and, when the external calls succeed,
    the stored orgs and users too.  When the requesting user's id is not
    among the ids of [org.joinRequests], the org is left as it was and the
    call, made by an admin, goes through to its 200 answer. *)
Theorem declineRequest_idempotent (st : St) :
  let st1 := final declineRequest st in
  let st2 := final declineRequest st1 in
  (req_org st2 = req_org st1 /\ req_profile st2 = req_profile st1)
  /\ (all_succeed st -> db_orgs st2 = db_orgs st1 /\ db_users st2 = db_users st1)
  /\ (forall admin org requestingMember,
        req_user st = Some admin ->
        req_org st = Some org ->
        req_profile st = Some requestingMember ->
        isUserAdmin (Some org) (Some admin) = true ->
        u_id requestingMember ∉ map ref_id (o_joinRequests org) ->
        req_org st1 = Some org
        /\ (all_succeed st ->
            exists updatedUser,
              fst (declineRequest st) = Ok tt
              /\ trace st1
                 = (trace st ++
                    [SendMessages "company-join-request-declined"
                       [userRef requestingMember] org None None;
                     SaveOrg org None;
                     SaveUser updatedUser None;
                     Respond 200 (OrgAndUser org updatedUser)])%list)).
Proof.
  intros st1 st2.
  destruct (truthy (req_profile st) && isUserAdmin (req_org st) (req_user st))
    eqn:Hguard.
  - (* past the guards *)
    apply andb_true_iff in Hguard as [Hp Hadm].
    destruct (req_profile st) as [p|] eqn:Ep; [|discriminate Hp].
    destruct (req_org st) as [o|] eqn:Eo; [|by destruct (req_user st)].
    destruct (req_user st) as [u|] eqn:Eu; [|discriminate Hadm].
    destruct (declineRequest_documents st u p o Eu Eo Ep Hadm) as (Hu1 & Ho1 & Hp1).
    fold st1 in Hu1, Ho1, Hp1.
    assert (Hadm1 : isUserAdmin (Some (declinedOrg p o)) (Some u) = true)
      by exact Hadm.
    split; [|split].
    + destruct (declineRequest_documents st1 u _ _ Hu1 Ho1 Hp1 Hadm1) as (_ & Ho2 & Hp2).
      fold st2 in Ho2, Hp2.
      by rewrite Ho2, Hp2, Ho1, Hp1, declinedOrg_idem, declinedUser_idem.
    + intros Hok.
      pose proof (declineRequest_success st u p o Eu Eo Ep Hadm Hok) as Hrun1.
      cbv zeta in Hrun1.
      assert (Hst1 : st1 = snd (declineRequest st)) by reflexivity.
      rewrite Hrun1 in Hst1. cbn [snd] in Hst1.
      assert (Hok1 : all_succeed st1).
      { apply (all_succeed_drop 3 st); [exact Hok | by rewrite Hst1]. }
      pose proof (declineRequest_success st1 u _ _ Hu1 Ho1 Hp1 Hadm1 Hok1) as Hrun2.
      cbv zeta in Hrun2.
      assert (Hst2 : st2 = snd (declineRequest st1)) by reflexivity.
      rewrite Hrun2 in Hst2. cbn [snd] in Hst2.
      rewrite Hst2. cbn [db_orgs db_users].
      rewrite declinedOrg_idem, declinedUser_idem.
      rewrite Hst1. cbn [db_orgs db_users].
      change (o_id (declinedOrg p o)) with (o_id o).
      change (u_id (declinedUser o p)) with (u_id p).
      by rewrite !insert_insert_eq.
    + intros admin org rm [= <-] [= <-] [= <-] _ Habsent.
      assert (Hsame : declinedOrg p o = o).
      { unfold declinedOrg. rewrite filter_absent_users by done. by destruct o. }
      split; [by rewrite Ho1, Hsame|].
      intros Hok.
      pose proof (declineRequest_success st u p o Eu Eo Ep Hadm Hok) as Hrun1.
      cbv zeta in Hrun1. rewrite Hsame in Hrun1.
      exists (declinedUser o p). unfold st1, final. by rewrite Hrun1.
  - (* stopped by a guard *)
    destruct (declineRequest_refused st Hguard) as (status & text & Hrun1).
    assert (Hst1 : st1 = log (Respond status (Message text)) st).
    { unfold st1, final. by rewrite Hrun1. }
    assert (Hguard1 : truthy (req_profile st1)
                      && isUserAdmin (req_org st1) (req_user st1) = false).
    { by rewrite Hst1. }
    destruct (declineRequest_refused st1 Hguard1) as (status' & text' & Hrun2).
    assert (Hst2 : st2 = log (Respond status' (Message text')) st1).
    { unfold st2, final. by rewrite Hrun2. }
    split; [by rewrite Hst2|].
    split; [by rewrite Hst2|].
    intros admin org rm Eu Eo Ep Hadm _.
    rewrite Eu, Eo, Ep, Hadm in Hguard. discriminate Hguard.
Qed.

(** ** Request, then accept *)

(** With no relation yet between user and org and every external call
    succeeding, [joinRequest] pushes on both sides, saves the org, saves
    the user, notifies the admins and answers 200 with both. *)
Lemma joinRequest_success (st : St) (user : User) (org : Org) :
  req_user st = Some user ->
  req_org st = Some org ->
  u_id user ∉ map ref_id (o_joinRequests org) ->
  u_id user ∉ map ref_id (o_members org) ->
  u_id user ∉ map ref_id (o_admins org) ->
  all_succeed st ->
  let updatedOrg := requestedOrg user org in
  let updatedUser := requestingUser org user in
  joinRequest st
  = (Ok tt,
     mkSt (Some updatedUser) (Some updatedOrg) (req_profile st) (clock st)
          (<[u_id user := updatedUser]> (db_users st))
          (<[o_id org := updatedOrg]> (db_orgs st))
          (db_proposals st)
          (drop 3 (outcomes st))
          (trace st ++
           [SaveOrg updatedOrg None;
            PopulateAdmins (o_id org);
            SaveUser updatedUser None;
            SendMessages "company-join-request" (o_admins org)
                         updatedOrg (Some updatedUser) None;
            Respond 200 (OrgAndUser updatedOrg updatedUser)])).
Proof.
  intros Hu Ho Hj Hm Ha Hok. unfold all_succeed in Hok.
  apply indexOf_absent in Hj, Hm, Ha.
  open_state st.
  unfold joinRequest. unfold_handler. simpl. rewrite Hj, Hm, Ha. simpl.
  run_all_paths; use_all_succeed; normal_state; reflexivity.
Qed.

(** With an admin acting, a pending request of a non-member and every
    external call succeeding, [acceptRequest] moves the user on both
    sides, notifies the user, saves the org, saves the user and answers
    200 with both. *)
Lemma acceptRequest_success (st : St) (admin requestingMember : User) (org : Org) :
  req_user st = Some admin ->
  req_org st = Some org ->
  req_profile st = Some requestingMember ->
  isUserAdmin (Some org) (Some admin) = true ->
  u_id requestingMember ∈ map ref_id (o_joinRequests org) ->
  u_id requestingMember ∉ map ref_id (o_members org) ->
  all_succeed st ->
  let updatedOrg := acceptedOrg requestingMember org in
  let updatedUser := acceptedUser org requestingMember in
  acceptRequest st
  = (Ok tt,
     mkSt (Some admin) (Some updatedOrg) (Some updatedUser) (clock st)
          (<[u_id requestingMember := updatedUser]> (db_users st))
          (<[o_id org := updatedOrg]> (db_orgs st))
          (db_proposals st)
          (drop 3 (outcomes st))
          (trace st ++
           [SendMessages "company-join-request-accepted"
              [userRef requestingMember] updatedOrg None None;
            SaveOrg updatedOrg None;
            SaveUser updatedUser None;
            Respond 200 (OrgAndUser updatedOrg updatedUser)])).
Proof.
  intros Hu Ho Hp Hadm Hj Hm Hok. unfold all_succeed in Hok.
  apply indexOf_present in Hj. apply indexOf_absent in Hm.
  open_state st.
  unfold acceptRequest. unfold_handler. simpl. rewrite Hadm. simpl.
  rewrite Hj, Hm. simpl.
  run_all_paths; use_all_succeed; normal_state; reflexivity.
Qed.

Lemma filtered_out_users (x : string) (l : list UserRef) :
  x ∉ map ref_id (filter (fun member => ref_id member ≠ x) l).
Proof.
  induction l as [|y l IH]; [apply not_elem_of_nil|].
  rewrite filter_cons. destruct (decide (ref_id y ≠ x)) as [Hy|Hy]; [|exact IH].
  simpl. intros Hin. apply elem_of_cons in Hin as [Heq | Hin]; [by apply Hy | by apply IH].
Qed.

Lemma filtered_out_orgs (x : string) (l : list OrgRef) :
  x ∉ map oref_id (filter (fun pendingOrg => oref_id pendingOrg ≠ x) l).
Proof.
  induction l as [|y l IH]; [apply not_elem_of_nil|].
  rewrite filter_cons. destruct (decide (oref_id y ≠ x)) as [Hy|Hy]; [|exact IH].
  simpl. intros Hin. apply elem_of_cons in Hin as [Heq | Hin]; [by apply Hy | by apply IH].
Qed.

Lemma pushed_is_member {A} (f : A -> string) (l : list A) (y : A) :
  f y ∈ map f (push l y).
Proof.
  unfold push. rewrite map_app. apply elem_of_app. right. simpl. apply list_elem_of_here.
Qed.

(** The documents [joinRequest] leaves, whatever the external calls
    answer. *)
Lemma joinRequest_documents (st : St) (user : User) (org : Org) :
  req_user st = Some user ->
  req_org st = Some org ->
  u_id user ∉ map ref_id (o_joinRequests org) ->
  u_id user ∉ map ref_id (o_members org) ->
  u_id user ∉ map ref_id (o_admins org) ->
  req_user (final joinRequest st) = Some (requestingUser org user)
  /\ req_org (final joinRequest st) = Some (requestedOrg user org).
Proof.
  intros Hu Ho Hj Hm Ha.
  apply indexOf_absent in Hj, Hm, Ha.
  open_state st.
  unfold joinRequest. unfold_handler. simpl. rewrite Hj, Hm, Ha. simpl.
  run_all_paths; split; reflexivity.
Qed.

(** The documents the effective branch of [acceptRequest] leaves,
    whatever the external calls answer. *)
Lemma acceptRequest_documents (st : St) (admin requestingMember : User) (org : Org) :
  req_user st = Some admin ->
  req_org st = Some org ->
  req_profile st = Some requestingMember ->
  isUserAdmin (Some org) (Some admin) = true ->
  u_id requestingMember ∈ map ref_id (o_joinRequests org) ->
  u_id requestingMember ∉ map ref_id (o_members org) ->
  req_org (final acceptRequest st) = Some (acceptedOrg requestingMember org)
  /\ req_profile (final acceptRequest st) = Some (acceptedUser org requestingMember).
Proof.
  intros Hu Ho Hp Hadm Hj Hm.
  apply indexOf_present in Hj. apply indexOf_absent in Hm.
  open_state st.
  unfold acceptRequest. unfold_handler. simpl. rewrite Hadm. simpl.
  rewrite Hj, Hm. simpl.
  run_all_paths; split; reflexivity.
Qed.

Lemma accepted_joined (user : User) (org : Org) :
  joined user org (acceptedOrg (requestingUser org user) (requestedOrg user org))
         (acceptedUser (requestedOrg user org) (requestingUser org user)).
Proof.
  split; [apply (pushed_is_member ref_id (o_members org) (userRef user))|].
  split; [apply (filtered_out_users (u_id user))|].
  split.
  - apply (pushed_is_member oref_id _ (orgRef org)).
  - apply (filtered_out_orgs (o_id org)).
Qed.

(** C7.  A user with no relation to the org asks to join and an admin
    then accepts.  On the documents the first request leaves, whatever
    the external calls answer, the second request leaves an org with the
    user's id among its members and not among its join requests, and a
    user with the org's id among [orgsMember] and not among
    [orgsPending].  When the external calls succeed, the same holds with
    the second request resolving its documents against the store, and
    for the org and the user as stored at the end. *)
Theorem join_then_accept (st : St) (user admin : User) (org : Org) :
  req_user st = Some user ->
  req_org st = Some org ->
  u_id user ∉ map ref_id (o_joinRequests org) ->
  u_id user ∉ map ref_id (o_members org) ->
  u_id user ∉ map ref_id (o_admins org) ->
  isUserAdmin (Some org) (Some admin) = true ->
  let st1 := final joinRequest st in
  (let st2 :=
     final acceptRequest
       (with_req_profile (req_user st1) (with_req_user (Some admin) st1)) in
   exists org2 user2,
     req_org st2 = Some org2
     /\ req_profile st2 = Some user2
     /\ joined user org org2 user2)
  /\ (all_succeed st ->
      let st2 := final acceptRequest (next_request admin (o_id org) (u_id user) st1) in
      exists org2 user2,
        req_org st2 = Some org2
        /\ req_profile st2 = Some user2
        /\ db_orgs st2 !! o_id org = Some org2
        /\ db_users st2 !! u_id user = Some user2
        /\ joined user org org2 user2).
Proof.
  intros Hu Ho Hj Hm Ha Hadm st1.
  set (org1 := requestedOrg user org).
  set (user1 := requestingUser org user).
  assert (Hadm1 : isUserAdmin (Some org1) (Some admin) = true) by exact Hadm.
  assert (Hj1 : u_id user1 ∈ map ref_id (o_joinRequests org1)).
  { apply (pushed_is_member ref_id (o_joinRequests org) (userRef user)). }
  assert (Hm1 : u_id user1 ∉ map ref_id (o_members org1)) by exact Hm.
  split.
  - intros st2.
    destruct (joinRequest_documents st user org Hu Ho Hj Hm Ha) as [Hu1 Ho1].
    fold st1 in Hu1, Ho1.
    set (st1' := with_req_profile (req_user st1) (with_req_user (Some admin) st1)) in *.
    assert (Hu1' : req_user st1' = Some admin) by reflexivity.
    assert (Ho1' : req_org st1' = Some org1) by exact Ho1.
    assert (Hp1' : req_profile st1' = Some user1) by exact Hu1.
    destruct (acceptRequest_documents st1' admin user1 org1 Hu1' Ho1' Hp1' Hadm1 Hj1 Hm1)
      as [Ho2 Hp2].
    exists (acceptedOrg user1 org1), (acceptedUser org1 user1).
    split; [exact Ho2|]. split; [exact Hp2|]. apply accepted_joined.
  - intros Hok st2.
    pose proof (joinRequest_success st user org Hu Ho Hj Hm Ha Hok) as Hrun1.
    cbv zeta in Hrun1. fold org1 user1 in Hrun1.
    assert (Hst1 : st1 = snd (joinRequest st)) by reflexivity.
    rewrite Hrun1 in Hst1. cbn [snd] in Hst1.
    set (st1' := next_request admin (o_id org) (u_id user) st1) in *.
    assert (Hu1 : req_user st1' = Some admin) by reflexivity.
    assert (Ho1 : req_org st1' = Some org1).
    { unfold st1', next_request. rewrite Hst1.
      cbn [with_req_profile with_req_org with_req_user req_org db_orgs].
      apply lookup_insert_eq. }
    assert (Hp1 : req_profile st1' = Some user1).
    { unfold st1', next_request. rewrite Hst1.
      cbn [with_req_profile with_req_org with_req_user req_profile db_users].
      apply lookup_insert_eq. }
    assert (Hok1 : all_succeed st1').
    { apply (all_succeed_drop 3 st); [exact Hok|].
      unfold st1', next_request. by rewrite Hst1. }
    pose proof (acceptRequest_success st1' admin user1 org1 Hu1 Ho1 Hp1 Hadm1 Hj1 Hm1 Hok1)
      as Hrun2.
    cbv zeta in Hrun2.
    assert (Hst2 : st2 = snd (acceptRequest st1')) by reflexivity.
    rewrite Hrun2 in Hst2. cbn [snd] in Hst2.
    exists (acceptedOrg user1 org1), (acceptedUser org1 user1).
    rewrite Hst2. cbn [req_org req_profile db_orgs db_users].
    split; [reflexivity|]. split; [reflexivity|].
    split; [apply lookup_insert_eq|]. split; [apply lookup_insert_eq|].
    apply accepted_joined.
Qed.

(** ** Proposal clean-up *)

Lemma filter_same_length {A} (P : A -> Prop) `{forall x, Decision (P x)} (l : list A) :
  length (filter P l) = length l -> filter P l = l.
Proof.
  induction l as [|x l IH]; [done|].
  rewrite filter_cons. destruct (decide (P x)) as [Hx|Hx]; simpl.
  - intros [= Hlen]. by rewrite IH.
  - intros Hlen. pose proof (length_filter P l). lia.
Qed.

Lemma teamCount_withoutUser_le (user : User) (p : Proposal) :
  (teamCount (withoutUser user p) <= teamCount p)%nat.
Proof.
  unfold teamCount, withoutUser. simpl.
  pose proof (length_filter (fun member => ref_id member ≠ u_id user)
                (team (inception (p_phases p)))).
  pose proof (length_filter (fun member => ref_id member ≠ u_id user)
                (team (proto (p_phases p)))).
  pose proof (length_filter (fun member => ref_id member ≠ u_id user)
                (team (implementation (p_phases p)))).
  lia.
Qed.

Lemma withoutUser_same_count (user : User) (p : Proposal) :
  teamCount (withoutUser user p) = teamCount p -> withoutUser user p = p.
Proof.
  unfold teamCount, withoutUser. simpl. intros Hcount.
  pose proof (length_filter (fun member => ref_id member ≠ u_id user)
                (team (inception (p_phases p)))) as H1.
  pose proof (length_filter (fun member => ref_id member ≠ u_id user)
                (team (proto (p_phases p)))) as H2.
  pose proof (length_filter (fun member => ref_id member ≠ u_id user)
                (team (implementation (p_phases p)))) as H3.
  destruct p as [id org opp [[ti] [tp] [tm]] status]; simpl in *.
  unfold set_implementation_team, set_proto_team, set_inception_team, set_phases.
  simpl.
  rewrite (filter_same_length _ ti) by lia.
  rewrite (filter_same_length _ tp) by lia.
  rewrite (filter_same_length _ tm) by lia.
  reflexivity.
Qed.

(** The dropped save never throws into the caller. *)
Lemma save_proposal_returns (p : Proposal) (st : St) :
  fst (save_proposal p st) = Ok tt.
Proof.
  unfold save_proposal, bind, await_outcome, modify, ret.
  by destruct (outcomes st) as [|[e|] rest].
Qed.

(** The callback, case by case. *)
Lemma removeUserFromProposal_run (user : User) (rightNow : Z) (p : Proposal) (st : St) :
  removeUserFromProposal user rightNow p st
  = if decide (qualifies rightNow p) then
      if decide (teamCount (withoutUser user p) < teamCount p)%nat then
        (Ok (set_status "Draft" (withoutUser user p)),
         final (save_proposal (set_status "Draft" (withoutUser user p))) st)
      else (Ok p, st)
    else (Ok p, st).
Proof.
  unfold removeUserFromProposal, qualifies.
  destruct (decide _) as [[Htype Hdl] | Hnot].
  - rewrite (bool_decide_eq_true_2 _ Htype).
    assert (Hgt : (deadline (p_opportunity p) - rightNow >? 0) = true)
      by (apply Z.gtb_lt; lia).
    rewrite Hgt. cbn [andb].
    change (set_implementation_team _ _) with (withoutUser user p).
    pose proof (teamCount_withoutUser_le user p) as Hle.
    destruct (decide _) as [Hlt | Hge].
    + assert (Hne : (teamCount p =? teamCount (withoutUser user p))%nat = false)
        by (apply Nat.eqb_neq; lia).
      rewrite Hne. cbn [negb]. unfold bind, ret, final.
      pose proof (save_proposal_returns (set_status "Draft" (withoutUser user p)) st) as Hret.
      by destruct (save_proposal _ st) as [[[]|e] s1].
    + assert (Heq : teamCount (withoutUser user p) = teamCount p) by lia.
      rewrite Heq, Nat.eqb_refl. cbn [negb]. unfold ret.
      by rewrite (withoutUser_same_count user p Heq).
  - assert (Hcond : bool_decide (opportunityTypeCd (p_opportunity p) = "sprint-with-us")
                    && (deadline (p_opportunity p) - rightNow >? 0) = false).
    { apply andb_false_iff.
      destruct (decide (opportunityTypeCd (p_opportunity p) = "sprint-with-us")) as [Ht|Ht].
      - right. destruct (_ >? 0) eqn:E; [|done].
        apply Z.gtb_lt in E. exfalso. apply Hnot. split; [done | lia].
      - left. by apply bool_decide_eq_false_2. }
    by rewrite Hcond.
Qed.

Lemma save_proposal_success (q : Proposal) (st : St) :
  all_succeed st ->
  save_proposal q st
  = (Ok tt,
     mkSt (req_user st) (req_org st) (req_profile st) (clock st)
          (db_users st) (db_orgs st)
          (store_proposal q (db_proposals st))
          (drop 1 (outcomes st))
          (trace st ++ [SaveProposal q None])).
Proof.
  unfold all_succeed. intros Hok. open_state st.
  unfold save_proposal, bind, await_outcome, modify, ret.
  destruct outs as [|[e|] rest]; use_all_succeed; reflexivity.
Qed.

Lemma cleanup_callback_success (user : User) (rightNow : Z) (p : Proposal) (st : St) :
  all_succeed st ->
  (_ <- removeUserFromProposal user rightNow p ;; ret tt) st
  = (Ok tt,
     mkSt (req_user st) (req_org st) (req_profile st) (clock st)
          (db_users st) (db_orgs st)
          (cleanupStores user rightNow [p] (db_proposals st))
          (drop (length (cleanupSaves user rightNow [p])) (outcomes st))
          (trace st ++ cleanupSaves user rightNow [p])).
Proof.
  intros Hok. unfold bind at 1. rewrite removeUserFromProposal_run.
  unfold cleanupStores, cleanupSaves, cleanedProposal. cbn [foldl flat_map].
  destruct (decide (qualifies rightNow p /\ shrinks user p)) as [[Hq Hs]|Hno];
    destruct (decide (qualifies rightNow p)) as [Hq'|Hq']; try done;
    try destruct (decide (teamCount (withoutUser user p) < teamCount p)%nat)
      as [Hs'|Hs']; try done;
    try (exfalso; apply Hno; by split).
  1: { rewrite (decide_True (P := shrinks user p)) by done.
       unfold final. rewrite (save_proposal_success _ st Hok). reflexivity. }
  all: unfold ret; cbn [length drop app]; rewrite app_nil_r; by destruct st.
Qed.

Lemma cleanup_loop_success (user : User) (rightNow : Z) (ps : list Proposal) (st : St) :
  all_succeed st ->
  forEach ps
    (fun proposal => _ <- removeUserFromProposal user rightNow proposal ;; ret tt) st
  = (Ok tt,
     mkSt (req_user st) (req_org st) (req_profile st) (clock st)
          (db_users st) (db_orgs st)
          (cleanupStores user rightNow ps (db_proposals st))
          (drop (length (cleanupSaves user rightNow ps)) (outcomes st))
          (trace st ++ cleanupSaves user rightNow ps)).
Proof.
  revert st. induction ps as [|p ps IH]; intros st Hok.
  - cbn [forEach]. unfold ret, cleanupStores, cleanupSaves.
    cbn [foldl flat_map length drop]. rewrite app_nil_r. by destruct st.
  - cbn [forEach]. unfold bind at 1.
    rewrite (cleanup_callback_success user rightNow p st Hok).
    match goal with |- forEach _ _ ?s = _ => set (st1 := s) end.
    assert (Hok1 : all_succeed st1).
    { apply (all_succeed_drop (length (cleanupSaves user rightNow [p])) st);
        [exact Hok | reflexivity]. }
    rewrite (IH st1 Hok1). subst st1.
    cbn [req_user req_org req_profile clock db_users db_orgs db_proposals outcomes trace].
    rewrite drop_drop, <- app_assoc.
    change (p :: ps) with ([p] ++ ps)%list.
    unfold cleanupSaves, cleanupStores.
    rewrite flat_map_app, length_app, foldl_app. reflexivity.
Qed.

Lemma elem_of_map {A B} (f : A -> B) (l : list A) (y : B) :
  y ∈ map f l <-> exists x, f x = y /\ x ∈ l.
Proof.
  rewrite list_elem_of_In, in_map_iff.
  split; intros (x & Hx & Hin); exists x; split; try done; by apply list_elem_of_In.
Qed.

Lemma NoDup_map_eq {A B} (f : A -> B) (l : list A) (x y : A) :
  NoDup (map f l) -> x ∈ l -> y ∈ l -> f x = f y -> x = y.
Proof.
  induction l as [|z l IH]; simpl; intros Hnd Hx Hy Hf.
  - by apply not_elem_of_nil in Hx.
  - apply NoDup_cons in Hnd as [Hz Hnd].
    apply elem_of_cons in Hx as [-> | Hx]; apply elem_of_cons in Hy as [-> | Hy].
    + reflexivity.
    + exfalso. apply Hz. apply elem_of_map. exists y. by split.
    + exfalso. apply Hz. apply elem_of_map. exists x. by split.
    + by apply IH.
Qed.

Lemma NoDup_map_filter {A B} (f : A -> B) (P : A -> Prop) `{forall x, Decision (P x)}
    (l : list A) :
  NoDup (map f l) -> NoDup (map f (filter P l)).
Proof.
  induction l as [|z l IH]; simpl; intros Hnd; [done|].
  apply NoDup_cons in Hnd as [Hz Hnd].
  rewrite filter_cons. destruct (decide (P z)); [|by apply IH].
  simpl. apply NoDup_cons. split; [|by apply IH].
  intros Hin. apply Hz. apply elem_of_map in Hin as (x & Hx & Hin).
  apply elem_of_map. exists x. split; [done|].
  by apply list_elem_of_filter in Hin as [_ ?].
Qed.

Lemma cleanedProposal_id (user : User) (rightNow : Z) (p : Proposal) :
  p_id (cleanedProposal user rightNow p) = p_id p.
Proof. unfold cleanedProposal. by repeat destruct (decide _). Qed.

Lemma cleanedProposal_org (user : User) (rightNow : Z) (p : Proposal) :
  p_org (cleanedProposal user rightNow p) = p_org p.
Proof. unfold cleanedProposal. by repeat destruct (decide _). Qed.

(** A proposal that is not saved is one the clean-up leaves as it was. *)
Lemma cleanedProposal_unchanged (user : User) (rightNow : Z) (p : Proposal) :
  ~ (qualifies rightNow p /\ shrinks user p) -> cleanedProposal user rightNow p = p.
Proof.
  intros Hno. unfold cleanedProposal.
  destruct (decide (qualifies rightNow p)) as [Hq|Hq]; [|done].
  destruct (decide (shrinks user p)) as [Hs|Hs]; [by destruct Hno|].
  apply withoutUser_same_count. unfold shrinks in Hs.
  pose proof (teamCount_withoutUser_le user p). lia.
Qed.

Lemma cleanupStores_cons (user : User) (rightNow : Z) (p : Proposal)
    (ps db : list Proposal) :
  cleanupStores user rightNow (p :: ps) db
  = cleanupStores user rightNow ps (cleanupStores user rightNow [p] db).
Proof. reflexivity. Qed.

Section Stores.
Variables (user : User) (rightNow : Z) (db0 : list Proposal).
Hypothesis unique_ids : NoDup (map p_id db0).

Lemma storesAfter_step (seen : list string) (p : Proposal) :
  p ∈ db0 ->
  p_id p ∉ seen ->
  cleanupStores user rightNow [p] (storesAfter user rightNow db0 seen)
  = storesAfter user rightNow db0 (seen ++ [p_id p]).
Proof.
  intros Hp Hnew. unfold cleanupStores, storesAfter. cbn [foldl].
  destruct (decide (qualifies rightNow p /\ shrinks user p)) as [Hch|Hno].
  - unfold store_proposal. rewrite map_map. apply map_ext_in.
    intros q Hq%list_elem_of_In.
    rewrite cleanedProposal_id.
    assert (Hid : p_id (if decide (p_id q ∈ seen)
                        then cleanedProposal user rightNow q else q) = p_id q).
    { destruct (decide _); [apply cleanedProposal_id | done]. }
    rewrite Hid. case_bool_decide as Heq.
    + assert (q = p) as -> by (by apply (NoDup_map_eq p_id db0)).
      rewrite decide_True; [done|]. apply elem_of_app. right. apply list_elem_of_here.
    + destruct (decide (p_id q ∈ seen)) as [Hs|Hs].
      * rewrite decide_True; [done|]. apply elem_of_app. by left.
      * rewrite decide_False; [done|]. intros Hin.
        apply elem_of_app in Hin as [Hin | Hin]; [done|].
        apply list_elem_of_singleton in Hin. done.
  - apply map_ext_in. intros q Hq%list_elem_of_In.
    destruct (decide (p_id q ∈ seen)) as [Hs|Hs].
    + rewrite decide_True; [done|]. apply elem_of_app. by left.
    + destruct (decide (p_id q = p_id p)) as [Heq|Hne].
      * assert (q = p) as -> by (by apply (NoDup_map_eq p_id db0)).
        rewrite decide_True by (apply elem_of_app; right; apply list_elem_of_here).
        by rewrite cleanedProposal_unchanged.
      * rewrite decide_False; [done|]. intros Hin.
        apply elem_of_app in Hin as [Hin | Hin]; [done|].
        apply list_elem_of_singleton in Hin. done.
Qed.

Lemma storesAfter_all (ps : list Proposal) (seen : list string) :
  (forall p, p ∈ ps -> p ∈ db0) ->
  NoDup (map p_id ps) ->
  (forall p, p ∈ ps -> p_id p ∉ seen) ->
  cleanupStores user rightNow ps (storesAfter user rightNow db0 seen)
  = storesAfter user rightNow db0 (seen ++ map p_id ps).
Proof.
  revert seen. induction ps as [|p ps IH]; intros seen Hsub Hnd Hnew.
  - simpl. by rewrite app_nil_r.
  - rewrite (cleanupStores_cons user rightNow p ps).
    simpl in Hnd. apply NoDup_cons in Hnd as [Hp Hnd].
    rewrite storesAfter_step;
      [| apply Hsub, list_elem_of_here | apply Hnew, list_elem_of_here].
    rewrite IH; [| | done |].
    + simpl. by rewrite <- app_assoc.
    + intros q Hq. apply Hsub. by apply list_elem_of_further.
    + intros q Hq Hin. apply elem_of_app in Hin as [Hin | Hin].
      * apply (Hnew q); [by apply list_elem_of_further | done].
      * apply list_elem_of_singleton in Hin. apply Hp.
        apply elem_of_map. exists q. by split.
Qed.

Lemma cleanupStores_of_org (org : string) :
  cleanupStores user rightNow (filter (fun p => p_org p = org) db0) db0
  = map (fun p => if decide (p_org p = org)
                  then cleanedProposal user rightNow p else p) db0.
Proof.
  assert (Hstart : storesAfter user rightNow db0 [] = db0).
  { unfold storesAfter. rewrite <- (map_id db0) at 2. apply map_ext.
    intros q. rewrite decide_False; [done | apply not_elem_of_nil]. }
  rewrite <- Hstart at 2.
  rewrite storesAfter_all.
  - unfold storesAfter. apply map_ext_in. intros q Hq%list_elem_of_In. simpl.
    destruct (decide (p_org q = org)) as [Ho|Ho].
    + rewrite decide_True; [done|]. apply elem_of_map. exists q.
      split; [done|]. by apply list_elem_of_filter.
    + rewrite decide_False; [done|]. intros Hin.
      apply elem_of_map in Hin as (q' & Hid & Hq').
      apply list_elem_of_filter in Hq' as [Ho' Hq'].
      assert (q' = q) as -> by (by apply (NoDup_map_eq p_id db0)). done.
  - intros p Hp. by apply list_elem_of_filter in Hp as [_ ?].
  - by apply NoDup_map_filter.
  - intros p _. apply not_elem_of_nil.
Qed.
End Stores.

Lemma save_proposal_trace (q : Proposal) (st : St) :
  trace (final (save_proposal q) st)
  = (trace st ++ [SaveProposal q (next_outcome st)])%list.
Proof.
  open_state st. unfold final, save_proposal, bind, await_outcome, modify, ret, next_outcome.
  by destruct outs as [|[e|] rest].
Qed.

Lemma find_proposals_success (org : string) (st : St) :
  all_succeed st ->
  find_proposals org st
  = (Ok (filter (fun p => p_org p = org) (db_proposals st)),
     mkSt (req_user st) (req_org st) (req_profile st) (clock st)
          (db_users st) (db_orgs st) (db_proposals st)
          (drop 1 (outcomes st))
          (trace st ++ [FindProposals org None])).
Proof.
  unfold all_succeed. intros Hok. open_state st.
  unfold find_proposals, bind, await_outcome, modify, gets, ret.
  destruct outs as [|[e|] rest]; use_all_succeed; reflexivity.
Qed.

(** The whole clean-up when every external call succeeds. *)
Lemma removeUserFromProposals_success (user : User) (org : Org) (st : St) :
  all_succeed st ->
  NoDup (map p_id (db_proposals st)) ->
  let found := filter (fun p => p_org p = o_id org) (db_proposals st) in
  let saves := cleanupSaves user (clock st) found in
  removeUserFromProposals user org st
  = (Ok tt,
     mkSt (req_user st) (req_org st) (req_profile st) (clock st)
          (db_users st) (db_orgs st)
          (map (fun p => if decide (p_org p = o_id org)
                         then cleanedProposal user (clock st) p else p)
               (db_proposals st))
          (drop (1 + length saves) (outcomes st))
          (trace st ++ FindProposals (o_id org) None :: saves)).
Proof.
  intros Hok Hnd found saves.
  unfold removeUserFromProposals. unfold bind at 1. unfold gets at 1.
  unfold bind at 1. rewrite (find_proposals_success (o_id org) st Hok).
  fold found.
  match goal with |- forEach _ _ ?s = _ => set (st1 := s) end.
  assert (Hok1 : all_succeed st1).
  { apply (all_succeed_drop 1 st); [exact Hok | reflexivity]. }
  rewrite (cleanup_loop_success user (clock st) found st1 Hok1). subst st1.
  cbn [req_user req_org req_profile clock db_users db_orgs db_proposals outcomes trace].
  fold saves. unfold found at 1.
  rewrite (cleanupStores_of_org user (clock st) (db_proposals st) Hnd (o_id org)).
  rewrite drop_drop, <- app_assoc. reflexivity.
Qed.

(** C2.  The callback run on a found proposal gives it back untouched,
    with nothing started, unless the proposal is of type sprint-with-us
    with its deadline strictly after now.  For such a proposal the three
    teams come out filtered of the user's id; if the three teams together
    got shorter the status is Draft and a save of the proposal has been
    started, and if not the proposal is as it was and nothing has been
    started.  Run over a store with unique ids and with the external
    calls succeeding, the clean-up finds the proposals of the org, starts
    in order the saves of those that qualify and got shorter, and leaves
    every stored proposal of the org cleaned in that way and every other
    stored proposal alone. *)
Theorem removeUserFromProposals_cleanup :
  (forall (user : User) (rightNow : Z) (p : Proposal) (st : St),
      let run := removeUserFromProposal user rightNow p st in
      (~ qualifies rightNow p -> run = (Ok p, st))
      /\ (qualifies rightNow p ->
          exists p',
            fst run = Ok p'
            /\ team (inception (p_phases p'))
               = filter (fun member => ref_id member ≠ u_id user)
                        (team (inception (p_phases p)))
            /\ team (proto (p_phases p'))
               = filter (fun member => ref_id member ≠ u_id user)
                        (team (proto (p_phases p)))
            /\ team (implementation (p_phases p'))
               = filter (fun member => ref_id member ≠ u_id user)
                        (team (implementation (p_phases p)))
            /\ ((teamCount p' < teamCount p)%nat ->
                p_status p' = "Draft"
                /\ trace (snd run)
                   = (trace st ++ [SaveProposal p' (next_outcome st)])%list)
            /\ (~ (teamCount p' < teamCount p)%nat -> p' = p /\ snd run = st)))
  /\ (forall (user : User) (org : Org) (st : St),
        all_succeed st ->
        NoDup (map p_id (db_proposals st)) ->
        let found := filter (fun p => p_org p = o_id org) (db_proposals st) in
        let saves := cleanupSaves user (clock st) found in
        removeUserFromProposals user org st
        = (Ok tt,
           mkSt (req_user st) (req_org st) (req_profile st) (clock st)
                (db_users st) (db_orgs st)
                (map (fun p => if decide (p_org p = o_id org)
                               then cleanedProposal user (clock st) p else p)
                     (db_proposals st))
                (drop (1 + length saves) (outcomes st))
                (trace st ++ FindProposals (o_id org) None :: saves))).
Proof.
  split; [|exact removeUserFromProposals_success].
  intros user rightNow p st run. subst run.
  rewrite removeUserFromProposal_run. split.
  - intros Hno. by rewrite decide_False.
  - intros Hq. rewrite decide_True by done.
    destruct (decide (teamCount (withoutUser user p) < teamCount p)%nat) as [Hs|Hs].
    + exists (set_status "Draft" (withoutUser user p)). cbn [fst snd].
      repeat (split; [reflexivity|]).
      split; [|intros Hge; by destruct Hge].
      intros _. split; [reflexivity | apply save_proposal_trace].
    + assert (Hsame : withoutUser user p = p).
      { apply withoutUser_same_count.
        pose proof (teamCount_withoutUser_le user p). lia. }
      exists p. cbn [fst snd].
      split; [reflexivity|].
      rewrite <- Hsame at 1 3 5.
      repeat (split; [reflexivity|]).
      split; [intros Hlt; lia | done].
Qed.

(** ** Member removal *)

Lemma bind_ok {A B} (m : M A) (k : A -> M B) (s s1 : St) (a : A) :
  m s = (Ok a, s1) -> bind m k s = k a s1.
Proof. unfold bind. by intros ->. Qed.

Lemma bind_throw {A B} (m : M A) (k : A -> M B) (s s1 : St) (e : Err) :
  m s = (Throw e, s1) -> bind m k s = (Throw e, s1).
Proof. unfold bind. by intros ->. Qed.

Lemma the_org_ok (s : St) (o : Org) :
  req_org s = Some o -> the_org s = (Ok o, s).
Proof. unfold the_org, bind, gets, deref, ret. by intros ->. Qed.

Lemma the_user_ok (slot : UserSlot) (s : St) (u : User) :
  user_at slot s = Some u -> the_user slot s = (Ok u, s).
Proof. unfold the_user, bind, gets, deref, ret. by intros ->. Qed.

Lemma update_user_ok (slot : UserSlot) (f : User -> User) (s : St) (u : User) :
  user_at slot s = Some u ->
  update_user slot f s = (Ok tt, with_user_at slot (Some (f u)) s).
Proof.
  intros Hu. unfold update_user. by rewrite (bind_ok _ _ _ _ _ (the_user_ok _ _ _ Hu)).
Qed.

Lemma update_org_ok (f : Org -> Org) (s : St) (o : Org) :
  req_org s = Some o ->
  update_org f s = (Ok tt, with_req_org (Some (f o)) s).
Proof.
  intros Ho. unfold update_org. by rewrite (bind_ok _ _ _ _ _ (the_org_ok _ _ Ho)).
Qed.

Lemma save_user_success (slot : UserSlot) (s : St) (u : User) :
  user_at slot s = Some u ->
  all_succeed s ->
  save_user slot s
  = (Ok u,
     mkSt (req_user s) (req_org s) (req_profile s) (clock s)
          (<[u_id u := u]> (db_users s)) (db_orgs s) (db_proposals s)
          (drop 1 (outcomes s))
          (trace s ++ [SaveUser u None])).
Proof.
  intros Hu Hok. unfold save_user.
  rewrite (bind_ok _ _ _ _ _ (the_user_ok _ _ _ Hu)).
  unfold all_succeed in Hok. clear Hu. open_state s.
  unfold bind, await_outcome, modify, ret, throw.
  destruct outs as [|[e|] rest]; use_all_succeed; reflexivity.
Qed.

Lemma save_user_failure (slot : UserSlot) (s : St) (u : User) (e : Err) :
  user_at slot s = Some u ->
  next_outcome s = Some e ->
  save_user slot s
  = (Throw e,
     mkSt (req_user s) (req_org s) (req_profile s) (clock s)
          (db_users s) (db_orgs s) (db_proposals s)
          (drop 1 (outcomes s))
          (trace s ++ [SaveUser u (Some e)])).
Proof.
  intros Hu Hfail. unfold save_user.
  rewrite (bind_ok _ _ _ _ _ (the_user_ok _ _ _ Hu)).
  unfold next_outcome in Hfail. clear Hu. open_state s.
  unfold bind, await_outcome, modify, ret, throw.
  destruct outs as [|[e'|] rest]; try discriminate Hfail.
  by injection Hfail as ->.
Qed.

Lemma save_org_success (s : St) (o : Org) :
  req_org s = Some o ->
  all_succeed s ->
  save_org s
  = (Ok o,
     mkSt (req_user s) (req_org s) (req_profile s) (clock s)
          (db_users s) (<[o_id o := o]> (db_orgs s)) (db_proposals s)
          (drop 1 (outcomes s))
          (trace s ++ [SaveOrg o None])).
Proof.
  intros Ho Hok. unfold save_org.
  rewrite (bind_ok _ _ _ _ _ (the_org_ok _ _ Ho)).
  unfold all_succeed in Hok. clear Ho. open_state s.
  unfold bind, await_outcome, modify, ret, throw.
  destruct outs as [|[e|] rest]; use_all_succeed; reflexivity.
Qed.

(** C1.  [removeMember] first filters the org out of [user.orgsAdmin] and
    [user.orgsMember] and saves the user.  If that save is rejected the
    rejection is thrown on from there: no proposal has been looked up or
    saved, and the org, held and stored, is as it was.  Otherwise the
    proposal clean-up runs from that state, on the org still as it was,
    and runs to its end; only then is the user filtered out of
    [org.members] and [org.admins], the org saved, and the saved org
    returned.  The log reads: save of the user, lookup of the proposals,
    the saves of the clean-up, save of the org. *)
Theorem removeMember_steps (slot : UserSlot) (st : St) (user : User) (org : Org) :
  user_at slot st = Some user ->
  req_org st = Some org ->
  let user' := removedFromUser org user in
  let org' := removedFromOrg user org in
  (forall e,
      next_outcome st = Some e ->
      removeMember slot st = (Throw e, afterUserSave slot user' (Some e) st)
      /\ req_org (afterUserSave slot user' (Some e) st) = Some org
      /\ db_orgs (afterUserSave slot user' (Some e) st) = db_orgs st
      /\ db_proposals (afterUserSave slot user' (Some e) st) = db_proposals st)
  /\ (all_succeed st ->
      NoDup (map p_id (db_proposals st)) ->
      let st1 := afterUserSave slot user' None st in
      let st2 := final (removeUserFromProposals user' org) st1 in
      removeUserFromProposals user' org st1 = (Ok tt, st2)
      /\ req_org st2 = Some org
      /\ db_orgs st2 = db_orgs st
      /\ removeMember slot st
         = (Ok org',
            mkSt (req_user st2) (Some org') (req_profile st2) (clock st2)
                 (db_users st2) (<[o_id org := org']> (db_orgs st2))
                 (db_proposals st2)
                 (drop 1 (outcomes st2))
                 (trace st2 ++ [SaveOrg org' None]))
      /\ trace st2
         = (trace st
            ++ [SaveUser user' None; FindProposals (o_id org) None]
            ++ cleanupSaves user' (clock st)
                 (filter (fun p => p_org p = o_id org) (db_proposals st)))%list
      /\ db_proposals st2
         = map (fun p => if decide (p_org p = o_id org)
                         then cleanedProposal user' (clock st) p else p)
               (db_proposals st)).
Proof.
  intros Hu Ho user' org'.
  assert (Hstep1 :
      removeMember slot st
      = (_ <- save_user slot ;;
         u <- the_user slot ;;
         removeUserFromProposals u org ;;
         update_org (fun org =>
           set_members (filter (fun member => ref_id member ≠ u_id u) (o_members org)) org) ;;
         update_org (fun org =>
           set_admins (filter (fun admin => ref_id admin ≠ u_id u) (o_admins org)) org) ;;
         updatedOrg <- save_org ;;
         ret updatedOrg) (with_user_at slot (Some user') st)).
  { unfold removeMember.
    rewrite (bind_ok _ _ _ _ _ (the_org_ok _ _ Ho)).
    rewrite (bind_ok _ _ _ _ _ (update_user_ok slot _ _ _ Hu)).
    assert (Hu1 : user_at slot (with_user_at slot
                    (Some (set_orgsAdmin
                       (filter (fun adminOrg => oref_id adminOrg ≠ o_id org)
                               (u_orgsAdmin user)) user)) st)
                  = Some (set_orgsAdmin
                       (filter (fun adminOrg => oref_id adminOrg ≠ o_id org)
                               (u_orgsAdmin user)) user))
      by (by destruct slot).
    rewrite (bind_ok _ _ _ _ _ (update_user_ok slot _ _ _ Hu1)).
    by destruct slot. }
  set (s0 := with_user_at slot (Some user') st) in *.
  assert (Hu0 : user_at slot s0 = Some user') by (by destruct slot).
  split.
  - intros e Hfail.
    assert (Hfail0 : next_outcome s0 = Some e) by (by destruct slot).
    split; [|by destruct slot].
    rewrite Hstep1.
    rewrite (bind_throw _ _ _ _ _ (save_user_failure slot s0 user' e Hu0 Hfail0)).
    by destruct slot.
  - intros Hok Hnd st1 st2.
    assert (Hok0 : all_succeed s0) by (by destruct slot).
    assert (Hst1 : save_user slot s0 = (Ok user', st1)).
    { rewrite (save_user_success slot s0 user' Hu0 Hok0). by destruct slot. }
    assert (Hu1 : user_at slot st1 = Some user') by (by destruct slot).
    assert (Hok1 : all_succeed st1).
    { apply (all_succeed_drop 1 st); [exact Hok | by destruct slot]. }
    assert (Hnd1 : NoDup (map p_id (db_proposals st1))) by (by destruct slot).
    pose proof (removeUserFromProposals_success user' org st1 Hok1 Hnd1) as Hrun2.
    cbv zeta in Hrun2.
    assert (Hst2 : st2 = snd (removeUserFromProposals user' org st1)) by reflexivity.
    rewrite Hrun2 in Hst2. cbn [snd] in Hst2.
    assert (Hrun2' : removeUserFromProposals user' org st1 = (Ok tt, st2)).
    { by rewrite Hrun2, Hst2. }
    assert (Ho2 : req_org st2 = Some org).
    { rewrite Hst2. cbn [req_org]. by destruct slot. }
    assert (Hok2 : all_succeed st2).
    { apply (all_succeed_drop
               (1 + length (cleanupSaves user' (clock st1)
                              (filter (fun p => p_org p = o_id org) (db_proposals st1))))
               st1); [exact Hok1 | by rewrite Hst2]. }
    split; [exact Hrun2'|]. split; [exact Ho2|].
    split; [rewrite Hst2; cbn [db_orgs]; by destruct slot|].
    split; [|split].
    + rewrite Hstep1.
      rewrite (bind_ok _ _ _ _ _ Hst1).
      rewrite (bind_ok _ _ _ _ _ (the_user_ok slot st1 user' Hu1)).
      rewrite (bind_ok _ _ _ _ _ Hrun2').
      rewrite (bind_ok _ _ _ _ _ (update_org_ok _ st2 org Ho2)).
      match goal with |- bind _ _ ?s = _ => set (s3 := s) end.
      assert (Ho3 : req_org s3
                    = Some (set_members
                              (filter (fun member => ref_id member ≠ u_id user')
                                      (o_members org)) org)) by reflexivity.
      rewrite (bind_ok _ _ _ _ _ (update_org_ok _ s3 _ Ho3)).
      match goal with |- bind _ _ ?s = _ => set (s4 := s) end.
      assert (Ho4 : req_org s4 = Some org') by reflexivity.
      assert (Hok4 : all_succeed s4) by exact Hok2.
      rewrite (bind_ok _ _ _ _ _ (save_org_success s4 org' Ho4 Hok4)).
      reflexivity.
    + rewrite Hst2. cbn [trace]. destruct slot; cbn; by rewrite <- app_assoc.
    + rewrite Hst2. cbn [db_proposals]. by destruct slot.
Qed.

(** * Further properties of the controller *)

(** ** Refusals *)

(** The admin check on two documents that are there. *)
Lemma admin_check_passes (o : Org) (u : User) :
  isUserAdmin (Some o) (Some u) = true
  <-> "admin" ∈ u_roles u \/ u_id u ∈ map ref_id (o_admins o).
Proof.
  unfold isUserAdmin. rewrite <- !indexOf_found.
  destruct (indexOf (u_roles u) "admin" >=? 0);
    destruct (indexOf (map ref_id (o_admins o)) (u_id u) >=? 0);
    split; try done; try (by left); try (by right).
  by intros [|].
Qed.

(** X1.  When nobody is signed in or the signed-in user fails the admin
    check, accepting a request, declining a request and removing a member
    each answer 403 with their own message and do nothing else: the
    documents, the store and the pending external results are those of
    the start. *)
Theorem forbidden_changes_nothing (st : St) :
  req_user st = None \/ isUserAdmin (req_org st) (req_user st) = false ->
  acceptRequest st
  = (Ok tt,
     log (Respond 403 (Message "You are not authorized to add members to this company")) st)
  /\ declineRequest st
     = (Ok tt,
        log (Respond 403
               (Message "You are not authorized to decline requests for this company")) st)
  /\ removeUserFromMemberList st
     = (Ok tt,
        log (Respond 403 (Message "You are not authorized to edit this organization")) st).
Proof.
  intros Hguard.
  assert (Hcond : negb (truthy (req_user st))
                  || negb (isUserAdmin (req_org st) (req_user st)) = true).
  { destruct Hguard as [-> | ->]; [done | by rewrite orb_true_r]. }
  unfold acceptRequest, declineRequest, removeUserFromMemberList, bind, gets, respond, modify.
  by rewrite Hcond.
Qed.

(** X2.  With an admin acting and no profile resolved for the request,
    accepting and declining answer 422 and do nothing else, whereas
    removing a member has no such check: it throws a [TypeError] out of
    the handler, with no answer sent and nothing changed. *)
Theorem missing_profile (st : St) (admin : User) :
  req_user st = Some admin ->
  isUserAdmin (req_org st) (Some admin) = true ->
  req_profile st = None ->
  acceptRequest st
  = (Ok tt, log (Respond 422 (Message "Invalid acceptance request")) st)
  /\ declineRequest st
     = (Ok tt, log (Respond 422 (Message "Invalid decline request")) st)
  /\ removeUserFromMemberList st = (Throw TypeError, st).
Proof.
  intros Hu Hadm Hp. open_state st.
  destruct ro as [org|]; [|discriminate Hadm].
  unfold acceptRequest, declineRequest, removeUserFromMemberList, removeMember.
  unfold_handler. simpl. rewrite Hadm. simpl. by repeat split.
Qed.

(** X3.  Leaving a company and asking to join one are open to any
    signed-in user of a resolved org, and refuse anything less with their
    own answer and no other effect: 422 for leaving without a user or
    without an org, 403 for joining without a user, 422 for joining
    without an org. *)
Theorem anonymous_or_orgless_refused (st : St) :
  (req_user st = None ->
   removeMeFromCompany st
   = (Ok tt, log (Respond 422 (Message "Valid user not provided")) st)
   /\ joinRequest st
      = (Ok tt, log (Respond 403 (Message "You must be signed in to join a company")) st))
  /\ (forall user, req_user st = Some user -> req_org st = None ->
      removeMeFromCompany st
      = (Ok tt, log (Respond 422 (Message "Valid company not provided")) st)
      /\ joinRequest st
         = (Ok tt, log (Respond 422 (Message "Invalid join request")) st)).
Proof.
  unfold removeMeFromCompany, joinRequest, bind, gets, respond, modify.
  split.
  - intros Hu. open_state st. by split.
  - intros user Hu Ho. open_state st. by split.
Qed.

(** ** Creation *)


(** X5.  [create] has no guard on the session: when nobody is signed in
    it throws a [TypeError] out of the handler before anything is saved
    or answered, and the state is as it was. *)
Theorem create_without_user (st : St) (body : Org) :
  req_user st = None ->
  create body st = (Throw TypeError, st).
Proof.
  intros Hu. open_state st.
  unfold create, addAdminToOrg. unfold_handler. reflexivity.
Qed.

(** X6.  [create] neither catches a rejected save nor undoes what was
    saved before it.  If the save of the org is rejected, the rejection
    leaves the handler with nothing stored, the creator untouched and no
    answer sent.  If the org is saved and the save of the creator is
    rejected, the rejection leaves the handler with the org stored, naming
    as admin and member a creator whose stored record does not know it,
    and again no answer sent. *)
Theorem create_rejected_save (st : St) (user : User) (body : Org) (e : Err) :
  req_user st = Some user ->
  (next_outcome st = Some e ->
   create body st
   = (Throw e,
      mkSt (Some user) (req_org st) (req_profile st) (clock st)
           (db_users st) (db_orgs st) (db_proposals st)
           (drop 1 (outcomes st))
           (trace st ++ [SaveOrg (createdOrg user body) (Some e)])))
  /\ (forall rest, outcomes st = None :: Some e :: rest ->
      create body st
      = (Throw e,
         mkSt (Some (creatorOf body user)) (req_org st) (req_profile st) (clock st)
              (db_users st)
              (<[o_id body := createdOrg user body]> (db_orgs st))
              (db_proposals st)
              rest
              (trace st ++ [SaveOrg (createdOrg user body) None;
                            SaveUser (creatorOf body user) (Some e)]))).
Proof.
  intros Hu. split.
  - intros Hfail. unfold next_outcome in Hfail. open_state st.
    unfold create, addAdminToOrg, addOrgToUser, save_document. unfold_handler.
    simpl. destruct outs as [|[e'|] rest]; try discriminate Hfail.
    injection Hfail as ->. simpl. normal_state. reflexivity.
  - intros rest Hout. open_state st.
    unfold create, addAdminToOrg, addOrgToUser, save_document. unfold_handler.
    simpl. normal_state. reflexivity.
Qed.

(** ** What the join-request handlers do to the documents *)

(** A run of [joinRequest] either only answers, or is the run of a user
    with no relation yet to the org. *)
Lemma joinRequest_cases (st : St) :
  (exists status text,
      (status = 403 \/ status = 422)
      /\ joinRequest st = (Ok tt, log (Respond status (Message text)) st))
  \/ (exists user org,
        req_user st = Some user /\ req_org st = Some org
        /\ (u_id user ∉ map ref_id (o_joinRequests org))
        /\ (u_id user ∉ map ref_id (o_members org))
        /\ (u_id user ∉ map ref_id (o_admins org))).
Proof.
  destruct (req_user st) as [user|] eqn:Hu; [destruct (req_org st) as [org|] eqn:Ho|].
  - destruct (decide (u_id user ∈ map ref_id (o_joinRequests org))) as [Hj|Hj];
      [|destruct (decide (u_id user ∈ map ref_id (o_members org))) as [Hm|Hm];
        [|destruct (decide (u_id user ∈ map ref_id (o_admins org))) as [Ha|Ha]]].
    4: { right. by exists user, org. }
    all: left; exists 422; eexists; (split; [by right|]); open_state st;
      unfold joinRequest, bind, gets, the_org, the_user, deref, ret, respond, modify;
      simpl.
    + apply indexOf_present in Hj. by rewrite Hj.
    + apply indexOf_present in Hm. rewrite Hm. by rewrite orb_true_r.
    + apply indexOf_present in Ha. rewrite Ha. by rewrite !orb_true_r.
  - left. exists 422. eexists. split; [by right|]. open_state st.
    unfold joinRequest, bind, gets, respond, modify. reflexivity.
  - left. exists 403. eexists. split; [by left|]. open_state st.
    unfold joinRequest, bind, gets, respond, modify. reflexivity.
Qed.

(** A run of [acceptRequest] either only answers, or is the run of an
    admin on a candidate who is not yet a member. *)
Lemma acceptRequest_cases (st : St) :
  (exists status body, acceptRequest st = (Ok tt, log (Respond status body) st))
  \/ (exists admin org requestingMember,
        req_user st = Some admin /\ req_org st = Some org
        /\ req_profile st = Some requestingMember
        /\ isUserAdmin (Some org) (Some admin) = true
        /\ u_id requestingMember ∈ map ref_id (o_joinRequests org)
        /\ (u_id requestingMember ∉ map ref_id (o_members org))).
Proof.
  destruct (req_user st) as [admin|] eqn:Hu.
  2: { left. eexists _, _. open_state st.
       unfold acceptRequest, bind, gets, respond, modify. reflexivity. }
  destruct (isUserAdmin (req_org st) (Some admin)) eqn:Hadm.
  2: { left. eexists _, _. open_state st.
       unfold acceptRequest, bind, gets, respond, modify. simpl.
       rewrite Hadm. reflexivity. }
  destruct (req_org st) as [org|] eqn:Ho; [|discriminate Hadm].
  destruct (req_profile st) as [p|] eqn:Hp.
  2: { left. eexists _, _. open_state st.
       unfold acceptRequest, bind, gets, respond, modify. simpl.
       rewrite Hadm. reflexivity. }
  destruct (decide (u_id p ∈ map ref_id (o_joinRequests org))) as [Hj|Hj];
    [destruct (decide (u_id p ∈ map ref_id (o_members org))) as [Hm|Hm]|].
  2: { right. by exists admin, org, p. }
  all: left; eexists _, _; open_state st;
    unfold acceptRequest, bind, gets, the_org, the_user, deref, ret, json, respond, modify;
    simpl; rewrite Hadm; simpl.
  - apply indexOf_present in Hm. apply negb_true_iff in Hm. rewrite Hm.
    by rewrite andb_false_r.
  - apply indexOf_absent in Hj. by rewrite Hj.
Qed.

(** ** Lists after a push or a filter *)

Lemma elem_of_map_push {A} (f : A -> string) (l : list A) (y : A) (id : string) :
  id ∈ map f (push l y) <-> id ∈ map f l \/ id = f y.
Proof.
  unfold push. rewrite map_app, elem_of_app. simpl.
  rewrite list_elem_of_singleton. reflexivity.
Qed.

Lemma elem_of_map_filter_ne {A} (f : A -> string) (x : string) (l : list A)
    (id : string) :
  id ∈ map f (filter (fun m => f m ≠ x) l) <-> id ∈ map f l /\ id ≠ x.
Proof.
  rewrite !elem_of_map. split.
  - intros (m & <- & Hm). apply list_elem_of_filter in Hm as [Hne Hm].
    split; [by exists m | done].
  - intros [(m & <- & Hm) Hne]. exists m. split; [done|].
    by apply list_elem_of_filter.
Qed.

Lemma NoDup_map_push {A} (f : A -> string) (l : list A) (y : A) :
  NoDup (map f l) -> f y ∉ map f l -> NoDup (map f (push l y)).
Proof.
  intros Hnd Hy. unfold push. rewrite map_app. apply NoDup_app.
  split; [done|]. split; [|apply NoDup_singleton].
  intros id Hid Hin. simpl in Hin. apply list_elem_of_singleton in Hin. by subst.
Qed.

Lemma wellformed_requested (user : User) (org : Org) :
  u_id user ∉ map ref_id (o_joinRequests org) ->
  u_id user ∉ map ref_id (o_members org) ->
  u_id user ∉ map ref_id (o_admins org) ->
  org_wellformed org -> org_wellformed (requestedOrg user org).
Proof.
  intros Hj Hm Ha (Hnj & Hnm & Hna & Hdisj).
  split; [|split; [exact Hnm|split; [exact Hna|]]].
  - by apply (NoDup_map_push ref_id (o_joinRequests org) (userRef user)).
  - intros id Hid.
    apply (elem_of_map_push ref_id (o_joinRequests org) (userRef user)) in Hid
      as [Hid | ->]; [by apply Hdisj | by split].
Qed.

Lemma wellformed_accepted (requestingMember : User) (org : Org) :
  u_id requestingMember ∉ map ref_id (o_members org) ->
  org_wellformed org -> org_wellformed (acceptedOrg requestingMember org).
Proof.
  intros Hm (Hnj & Hnm & Hna & Hdisj).
  split; [|split; [|split; [exact Hna|]]].
  - by apply (NoDup_map_filter ref_id).
  - by apply (NoDup_map_push ref_id (o_members org) (userRef requestingMember)).
  - intros id Hid.
    apply (elem_of_map_filter_ne ref_id) in Hid as [Hid Hne].
    destruct (Hdisj id Hid) as [Him Hia]. split; [|exact Hia].
    intros Hin.
    apply (elem_of_map_push ref_id (o_members org) (userRef requestingMember)) in Hin
      as [Hin | ->]; done.
Qed.

Lemma wellformed_declined (requestingMember : User) (org : Org) :
  org_wellformed org -> org_wellformed (declinedOrg requestingMember org).
Proof.
  intros (Hnj & Hnm & Hna & Hdisj).
  split; [|split; [exact Hnm|split; [exact Hna|]]].
  - by apply (NoDup_map_filter ref_id).
  - intros id Hid. apply (elem_of_map_filter_ne ref_id) in Hid as [Hid _].
    by apply Hdisj.
Qed.

Lemma wellformed_removed (user : User) (org : Org) :
  org_wellformed org -> org_wellformed (removedFromOrg user org).
Proof.
  intros (Hnj & Hnm & Hna & Hdisj).
  split; [exact Hnj|split; [|split]].
  - by apply (NoDup_map_filter ref_id).
  - by apply (NoDup_map_filter ref_id).
  - intros id Hid. destruct (Hdisj id Hid) as [Him Hia].
    split; intros Hin; apply (elem_of_map_filter_ne ref_id) in Hin as [Hin _]; done.
Qed.

Lemma mirrored_requested (user : User) (org : Org) :
  mirrored user org -> mirrored (requestingUser org user) (requestedOrg user org).
Proof.
  intros (Hj & Hm & Ha). split; [|split; [exact Hm | exact Ha]].
  split; intros _.
  - apply (pushed_is_member oref_id (u_orgsPending user) (orgRef org)).
  - apply (pushed_is_member ref_id (o_joinRequests org) (userRef user)).
Qed.

Lemma mirrored_accepted (requestingMember : User) (org : Org) :
  mirrored requestingMember org ->
  mirrored (acceptedUser org requestingMember) (acceptedOrg requestingMember org).
Proof.
  intros (Hj & Hm & Ha). split; [|split; [|exact Ha]].
  - split; intros Hin; exfalso.
    + by apply (filtered_out_users (u_id requestingMember)) in Hin.
    + by apply (filtered_out_orgs (o_id org)) in Hin.
  - split; intros _.
    + apply (pushed_is_member oref_id _ (orgRef org)).
    + apply (pushed_is_member ref_id (o_members org) (userRef requestingMember)).
Qed.

Lemma mirrored_declined (requestingMember : User) (org : Org) :
  mirrored requestingMember org ->
  mirrored (declinedUser org requestingMember) (declinedOrg requestingMember org).
Proof.
  intros (Hj & Hm & Ha). split; [|split; [exact Hm | exact Ha]].
  split; intros Hin; exfalso.
  - by apply (filtered_out_users (u_id requestingMember)) in Hin.
  - by apply (filtered_out_orgs (o_id org)) in Hin.
Qed.

Lemma mirrored_removed (user : User) (org : Org) :
  mirrored user org -> mirrored (removedFromUser org user) (removedFromOrg user org).
Proof.
  intros (Hj & Hm & Ha). split; [exact Hj|split].
  - split; intros Hin; exfalso.
    + by apply (filtered_out_users (u_id user)) in Hin.
    + by apply (filtered_out_orgs (o_id org)) in Hin.
  - split; intros Hin; exfalso.
    + by apply (filtered_out_users (u_id user)) in Hin.
    + by apply (filtered_out_orgs (o_id org)) in Hin.
Qed.

(** ** What the removal does to the documents, in every run *)

Lemma same_documents_refl (s : St) : same_documents s s.
Proof. by repeat split. Qed.

Lemma same_documents_trans (s1 s2 s3 : St) :
  same_documents s1 s2 -> same_documents s2 s3 -> same_documents s1 s3.
Proof.
  intros (A1 & A2 & A3 & A4 & A5) (B1 & B2 & B3 & B4 & B5).
  repeat split; congruence.
Qed.

Lemma save_proposal_documents (p : Proposal) (s : St) :
  same_documents s (final (save_proposal p) s).
Proof.
  open_state s. unfold final, save_proposal, bind, await_outcome, modify, ret.
  destruct outs as [|[e|] rest]; by repeat split.
Qed.

Lemma cleanup_loop_documents (user : User) (rightNow : Z) (ps : list Proposal) (s : St) :
  fst (forEach ps
         (fun proposal => _ <- removeUserFromProposal user rightNow proposal ;; ret tt) s)
  = Ok tt
  /\ same_documents s
       (final (forEach ps
                 (fun proposal =>
                    _ <- removeUserFromProposal user rightNow proposal ;; ret tt)) s).
Proof.
  revert s. induction ps as [|p ps IH]; intros s.
  - split; [reflexivity | apply same_documents_refl].
  - assert (Hstep :
      forEach (p :: ps)
        (fun proposal => _ <- removeUserFromProposal user rightNow proposal ;; ret tt) s
      = let (r, s1) := removeUserFromProposal user rightNow p s in
        match r with
        | Ok _ =>
            forEach ps
              (fun proposal =>
                 _ <- removeUserFromProposal user rightNow proposal ;; ret tt) s1
        | Throw e => (Throw e, s1)
        end).
    { cbn [forEach]. unfold bind, ret.
      by destruct (removeUserFromProposal user rightNow p s) as [[?|?] ?]. }
    unfold final. rewrite Hstep, removeUserFromProposal_run.
    destruct (decide (qualifies rightNow p)) as [Hq|Hq];
      [destruct (decide (teamCount (withoutUser user p) < teamCount p)%nat) as [Hs|Hs]|];
      try apply IH.
    destruct (IH (final (save_proposal (set_status "Draft" (withoutUser user p))) s))
      as [Hok Hsame].
    split; [exact Hok|].
    eapply same_documents_trans; [apply save_proposal_documents | exact Hsame].
Qed.

Lemma find_proposals_cases (org : string) (s : St) :
  (exists s1,
      find_proposals org s
      = (Ok (filter (fun p => p_org p = org) (db_proposals s)), s1)
      /\ same_documents s s1)
  \/ (exists e s1, find_proposals org s = (Throw e, s1) /\ same_documents s s1).
Proof.
  open_state s. unfold find_proposals, bind, await_outcome, modify, gets, ret, throw.
  destruct outs as [|[e|] rest].
  - left. eexists. split; [reflexivity | by repeat split].
  - right. eexists _, _. split; [reflexivity | by repeat split].
  - left. eexists. split; [reflexivity | by repeat split].
Qed.

(** The clean-up either runs to its end or throws the rejection of its
    lookup; in both cases the request documents and the stored users and
    orgs are left alone. *)
Lemma removeUserFromProposals_documents (user : User) (org : Org) (s : St) :
  (fst (removeUserFromProposals user org s) = Ok tt
   \/ exists e, fst (removeUserFromProposals user org s) = Throw e)
  /\ same_documents s (final (removeUserFromProposals user org) s).
Proof.
  assert (Hstep :
    removeUserFromProposals user org s
    = let (r, s1) := find_proposals (o_id org) s in
      match r with
      | Ok proposals =>
          forEach proposals
            (fun proposal =>
               _ <- removeUserFromProposal user (clock s) proposal ;; ret tt) s1
      | Throw e => (Throw e, s1)
      end) by reflexivity.
  unfold final. rewrite Hstep.
  destruct (find_proposals_cases (o_id org) s)
    as [(s1 & -> & Hsame1) | (e & s1 & -> & Hsame1)].
  - destruct (cleanup_loop_documents user (clock s)
                (filter (fun p => p_org p = o_id org) (db_proposals s)) s1)
      as [Hok Hsame].
    split; [by left|]. eapply same_documents_trans; [exact Hsame1 | exact Hsame].
  - split; [right; by exists e | exact Hsame1].
Qed.

Lemma save_user_next (slot : UserSlot) (s : St) (u : User) :
  user_at slot s = Some u ->
  save_user slot s
  = match next_outcome s with
    | None =>
        (Ok u,
         mkSt (req_user s) (req_org s) (req_profile s) (clock s)
              (<[u_id u := u]> (db_users s)) (db_orgs s) (db_proposals s)
              (drop 1 (outcomes s)) (trace s ++ [SaveUser u None]))
    | Some e =>
        (Throw e,
         mkSt (req_user s) (req_org s) (req_profile s) (clock s)
              (db_users s) (db_orgs s) (db_proposals s)
              (drop 1 (outcomes s)) (trace s ++ [SaveUser u (Some e)]))
    end.
Proof.
  intros Hu. unfold save_user.
  rewrite (bind_ok _ _ _ _ _ (the_user_ok _ _ _ Hu)).
  clear Hu. open_state s.
  unfold bind, await_outcome, modify, ret, throw, next_outcome.
  by destruct outs as [|[e|] rest].
Qed.

Lemma save_org_next (s : St) (o : Org) :
  req_org s = Some o ->
  save_org s
  = match next_outcome s with
    | None =>
        (Ok o,
         mkSt (req_user s) (req_org s) (req_profile s) (clock s)
              (db_users s) (<[o_id o := o]> (db_orgs s)) (db_proposals s)
              (drop 1 (outcomes s)) (trace s ++ [SaveOrg o None]))
    | Some e =>
        (Throw e,
         mkSt (req_user s) (req_org s) (req_profile s) (clock s)
              (db_users s) (db_orgs s) (db_proposals s)
              (drop 1 (outcomes s)) (trace s ++ [SaveOrg o (Some e)]))
    end.
Proof.
  intros Ho. unfold save_org.
  rewrite (bind_ok _ _ _ _ _ (the_org_ok _ _ Ho)).
  clear Ho. open_state s.
  unfold bind, await_outcome, modify, ret, throw, next_outcome.
  by destruct outs as [|[e|] rest].
Qed.

(** [removeMember] once its first three statements have run. *)
Lemma removeMember_unfold (slot : UserSlot) (st : St) (user : User) (org : Org) :
  user_at slot st = Some user ->
  req_org st = Some org ->
  removeMember slot st
  = (_ <- save_user slot ;;
     u <- the_user slot ;;
     removeUserFromProposals u org ;;
     update_org (fun org =>
       set_members (filter (fun member => ref_id member ≠ u_id u) (o_members org)) org) ;;
     update_org (fun org =>
       set_admins (filter (fun admin => ref_id admin ≠ u_id u) (o_admins org)) org) ;;
     updatedOrg <- save_org ;;
     ret updatedOrg) (with_user_at slot (Some (removedFromUser org user)) st).
Proof.
  intros Hu Ho. unfold removeMember.
  rewrite (bind_ok _ _ _ _ _ (the_org_ok _ _ Ho)).
  rewrite (bind_ok _ _ _ _ _ (update_user_ok slot _ _ _ Hu)).
  assert (Hu1 : user_at slot (with_user_at slot
                  (Some (set_orgsAdmin
                     (filter (fun adminOrg => oref_id adminOrg ≠ o_id org)
                             (u_orgsAdmin user)) user)) st)
                = Some (set_orgsAdmin
                     (filter (fun adminOrg => oref_id adminOrg ≠ o_id org)
                             (u_orgsAdmin user)) user))
    by (by destruct slot).
  rewrite (bind_ok _ _ _ _ _ (update_user_ok slot _ _ _ Hu1)).
  by destruct slot.
Qed.

(** Without a user or without an org, [removeMember] throws at its first
    statement. *)
Lemma removeMember_null (slot : UserSlot) (st : St) :
  user_at slot st = None \/ req_org st = None ->
  removeMember slot st = (Throw TypeError, st).
Proof.
  intros Hnull. unfold removeMember, update_user, the_user, the_org, bind, gets,
    deref, ret, throw.
  destruct (req_org st) as [org|]; [|done].
  destruct Hnull as [-> | Hnull]; done.
Qed.

(** In every run of [removeMember] on a user and an org, the user ends
    filtered, and the org ends either as it was or filtered. *)
Lemma removeMember_documents (slot : UserSlot) (st : St) (user : User) (org : Org) :
  user_at slot st = Some user ->
  req_org st = Some org ->
  user_at slot (final (removeMember slot) st) = Some (removedFromUser org user)
  /\ (req_org (final (removeMember slot) st) = Some org
      \/ req_org (final (removeMember slot) st) = Some (removedFromOrg user org))
  /\ (forall updatedOrg,
        fst (removeMember slot st) = Ok updatedOrg ->
        updatedOrg = removedFromOrg user org
        /\ req_org (final (removeMember slot) st) = Some (removedFromOrg user org)).
Proof.
  intros Hu Ho.
  assert (Hrun : exists r s',
             removeMember slot st = (r, s')
             /\ user_at slot s' = Some (removedFromUser org user)
             /\ (req_org s' = Some org \/ req_org s' = Some (removedFromOrg user org))
             /\ (forall updatedOrg, r = Ok updatedOrg ->
                   updatedOrg = removedFromOrg user org
                   /\ req_org s' = Some (removedFromOrg user org))).
  2: { destruct Hrun as (r & s' & Hrun & Hfacts). unfold final. by rewrite Hrun. }
  rewrite (removeMember_unfold slot st user org Hu Ho).
  set (user' := removedFromUser org user).
  set (s0 := with_user_at slot (Some user') st).
  assert (Hu0 : user_at slot s0 = Some user') by (by destruct slot).
  assert (Ho0 : req_org s0 = Some org) by (by destruct slot).
  unfold bind at 1. rewrite (save_user_next slot s0 user' Hu0).
  destruct (next_outcome s0) as [e|].
  { eexists _, _. split; [reflexivity|]. split; [by destruct slot|].
    split; [left; exact Ho0 | discriminate]. }
  match goal with |- context [bind _ _ ?s] => set (s1 := s) end.
  assert (Hu1 : user_at slot s1 = Some user') by (by destruct slot).
  assert (Ho1 : req_org s1 = Some org) by exact Ho0.
  rewrite (bind_ok _ _ _ _ _ (the_user_ok slot s1 user' Hu1)).
  destruct (removeUserFromProposals_documents user' org s1)
    as [Hres (Hsu & Hso & Hsp & _ & _)].
  unfold final in Hsu, Hso, Hsp.
  unfold bind at 1.
  destruct (removeUserFromProposals user' org s1) as [r s2]. cbn [fst snd] in *.
  assert (Hu2 : user_at slot s2 = Some user').
  { rewrite <- Hu1. destruct slot; cbn [user_at]; congruence. }
  assert (Ho2 : req_org s2 = Some org) by congruence.
  destruct Hres as [-> | [e ->]].
  2: { eexists _, _. split; [reflexivity|]. split; [exact Hu2|].
       split; [by left | discriminate]. }
  rewrite (bind_ok _ _ _ _ _ (update_org_ok _ s2 org Ho2)).
  match goal with |- context [bind _ _ ?s] => set (s3 := s) end.
  assert (Ho3 : req_org s3
                = Some (set_members
                          (filter (fun member => ref_id member ≠ u_id user')
                                  (o_members org)) org)) by reflexivity.
  rewrite (bind_ok _ _ _ _ _ (update_org_ok _ s3 _ Ho3)).
  match goal with |- context [bind _ _ ?s] => set (s4 := s) end.
  assert (Ho4 : req_org s4 = Some (removedFromOrg user org)) by reflexivity.
  assert (Hu4 : user_at slot s4 = Some user') by (by destruct slot).
  unfold bind at 1. rewrite (save_org_next s4 _ Ho4).
  destruct (next_outcome s4) as [e|].
  - eexists _, _. split; [reflexivity|]. split; [by destruct slot|].
    split; [by right | discriminate].
  - unfold ret. eexists _, _. split; [reflexivity|]. split; [by destruct slot|].
    split; [by right|]. intros updatedOrg [= <-]. by split.
Qed.

(** ** The documents after a join-request handler, in every run *)

Lemma joinRequest_after (st : St) :
  (req_user (final joinRequest st) = req_user st
   /\ req_org (final joinRequest st) = req_org st)
  \/ (exists user org,
        req_user st = Some user /\ req_org st = Some org
        /\ (u_id user ∉ map ref_id (o_joinRequests org))
        /\ (u_id user ∉ map ref_id (o_members org))
        /\ (u_id user ∉ map ref_id (o_admins org))
        /\ req_user (final joinRequest st) = Some (requestingUser org user)
        /\ req_org (final joinRequest st) = Some (requestedOrg user org)).
Proof.
  destruct (joinRequest_cases st)
    as [(status & text & _ & Hrun) | (user & org & Hu & Ho & Hj & Hm & Ha)].
  - left. unfold final. by rewrite Hrun.
  - right. exists user, org.
    destruct (joinRequest_documents st user org Hu Ho Hj Hm Ha) as [Hu' Ho'].
    by repeat split.
Qed.

Lemma acceptRequest_after (st : St) :
  (req_profile (final acceptRequest st) = req_profile st
   /\ req_org (final acceptRequest st) = req_org st)
  \/ (exists requestingMember org,
        req_profile st = Some requestingMember /\ req_org st = Some org
        /\ u_id requestingMember ∈ map ref_id (o_joinRequests org)
        /\ (u_id requestingMember ∉ map ref_id (o_members org))
        /\ req_profile (final acceptRequest st)
           = Some (acceptedUser org requestingMember)
        /\ req_org (final acceptRequest st) = Some (acceptedOrg requestingMember org)).
Proof.
  destruct (acceptRequest_cases st)
    as [(status & body & Hrun) | (admin & org & p & Hu & Ho & Hp & Hadm & Hj & Hm)].
  - left. unfold final. by rewrite Hrun.
  - right. exists p, org.
    destruct (acceptRequest_documents st admin p org Hu Ho Hp Hadm Hj Hm) as [Ho' Hp'].
    by repeat split.
Qed.

Lemma declineRequest_after (st : St) :
  (req_profile (final declineRequest st) = req_profile st
   /\ req_org (final declineRequest st) = req_org st)
  \/ (exists requestingMember org,
        req_profile st = Some requestingMember /\ req_org st = Some org
        /\ req_profile (final declineRequest st)
           = Some (declinedUser org requestingMember)
        /\ req_org (final declineRequest st) = Some (declinedOrg requestingMember org)).
Proof.
  destruct (truthy (req_profile st) && isUserAdmin (req_org st) (req_user st))
    eqn:Hguard.
  - apply andb_true_iff in Hguard as [Hp Hadm].
    destruct (req_profile st) as [p|] eqn:Ep; [|discriminate Hp].
    destruct (req_org st) as [o|] eqn:Eo; [|by destruct (req_user st)].
    destruct (req_user st) as [u|] eqn:Eu; [|discriminate Hadm].
    right. exists p, o.
    destruct (declineRequest_documents st u p o Eu Eo Ep Hadm) as (_ & Ho' & Hp').
    by repeat split.
  - left. destruct (declineRequest_refused st Hguard) as (status & text & Hrun).
    unfold final. by rewrite Hrun.
Qed.

(** ** Invariants of the membership lists *)

(** X7.  In every run of [joinRequest], [acceptRequest], [declineRequest]
    and [removeMember], whatever the external calls answer: if the org
    held by the request lists no id twice among its join requests, its
    members and its admins, and no candidate who is already a member or
    an admin, then so does the org the run leaves. *)
Theorem membership_lists_stay_wellformed (st : St) :
  if_present org_wellformed (req_org st) ->
  if_present org_wellformed (req_org (final joinRequest st))
  /\ if_present org_wellformed (req_org (final acceptRequest st))
  /\ if_present org_wellformed (req_org (final declineRequest st))
  /\ forall slot, if_present org_wellformed (req_org (final (removeMember slot) st)).
Proof.
  intros Hwf. split; [|split; [|split]].
  - destruct (joinRequest_after st)
      as [[_ ->] | (user & org & Hu & Ho & Hj & Hm & Ha & _ & ->)]; [exact Hwf|].
    rewrite Ho in Hwf. by apply wellformed_requested.
  - destruct (acceptRequest_after st)
      as [[_ ->] | (p & org & Hp & Ho & Hj & Hm & _ & ->)]; [exact Hwf|].
    rewrite Ho in Hwf. by apply wellformed_accepted.
  - destruct (declineRequest_after st)
      as [[_ ->] | (p & org & Hp & Ho & _ & ->)]; [exact Hwf|].
    rewrite Ho in Hwf. by apply wellformed_declined.
  - intros slot.
    destruct (user_at slot st) as [user|] eqn:Hu;
      [destruct (req_org st) as [org|] eqn:Ho|].
    + destruct (removeMember_documents slot st user org Hu Ho) as (_ & [-> | ->] & _);
        [exact Hwf | by apply wellformed_removed].
    + unfold final. rewrite removeMember_null by (by right). cbn [snd]. by rewrite Ho.
    + unfold final. rewrite removeMember_null by (by left). exact Hwf.
Qed.

(** X8.  [joinRequest], [acceptRequest] and [declineRequest] change the
    org and the user together before any external call, so in every run a
    user and an org that listed each other consistently (the org among
    the user's pending, member or admin orgs exactly when the user is
    among the org's join requests, members or admins) still do
    afterwards.  [removeMember] keeps that whenever it returns. *)
Theorem both_sides_stay_mirrored (st : St) (o : Org) :
  req_org st = Some o ->
  (forall u, req_user st = Some u -> mirrored u o ->
     exists u' o',
       req_user (final joinRequest st) = Some u'
       /\ req_org (final joinRequest st) = Some o' /\ mirrored u' o')
  /\ (forall p, req_profile st = Some p -> mirrored p o ->
        (exists p' o',
            req_profile (final acceptRequest st) = Some p'
            /\ req_org (final acceptRequest st) = Some o' /\ mirrored p' o')
        /\ (exists p' o',
            req_profile (final declineRequest st) = Some p'
            /\ req_org (final declineRequest st) = Some o' /\ mirrored p' o'))
  /\ (forall slot u updatedOrg,
        user_at slot st = Some u -> mirrored u o ->
        fst (removeMember slot st) = Ok updatedOrg ->
        exists u',
          user_at slot (final (removeMember slot) st) = Some u'
          /\ req_org (final (removeMember slot) st) = Some updatedOrg
          /\ mirrored u' updatedOrg).
Proof.
  intros Ho. split; [|split].
  - intros u Hu Hmir.
    destruct (joinRequest_after st)
      as [[-> ->] | (user & org & Hu' & Ho' & _ & _ & _ & -> & ->)].
    + by exists u, o.
    + rewrite Hu in Hu'. rewrite Ho in Ho'. injection Hu' as <-. injection Ho' as <-.
      eexists _, _. split; [reflexivity|]. split; [reflexivity|].
      by apply mirrored_requested.
  - intros p Hp Hmir. split.
    + destruct (acceptRequest_after st)
        as [[-> ->] | (p' & org & Hp' & Ho' & _ & _ & -> & ->)].
      * by exists p, o.
      * rewrite Hp in Hp'. rewrite Ho in Ho'. injection Hp' as <-. injection Ho' as <-.
        eexists _, _. split; [reflexivity|]. split; [reflexivity|].
        by apply mirrored_accepted.
    + destruct (declineRequest_after st)
        as [[-> ->] | (p' & org & Hp' & Ho' & -> & ->)].
      * by exists p, o.
      * rewrite Hp in Hp'. rewrite Ho in Ho'. injection Hp' as <-. injection Ho' as <-.
        eexists _, _. split; [reflexivity|]. split; [reflexivity|].
        by apply mirrored_declined.
  - intros slot u updatedOrg Hu Hmir Hret.
    destruct (removeMember_documents slot st u o Hu Ho) as (Hu' & _ & Hok).
    destruct (Hok updatedOrg Hret) as [-> Ho'].
    exists (removedFromUser o u). split; [exact Hu'|]. split; [exact Ho'|].
    by apply mirrored_removed.
Qed.

Lemma isUserAdmin_admins (o1 o2 : Org) (u : option User) :
  o_admins o1 = o_admins o2 -> isUserAdmin (Some o1) u = isUserAdmin (Some o2) u.
Proof. unfold isUserAdmin. by intros ->. Qed.

(** X9.  Asking to join, accepting and declining never touch [org.admins]:
    in every run, a user passes the admin check on the org the run leaves
    exactly when that user passed it on the org the run started with.
    Accepting a member in particular grants no admin right. *)
Theorem admin_rights_unchanged (st : St) (u : option User) :
  isUserAdmin (req_org (final joinRequest st)) u = isUserAdmin (req_org st) u
  /\ isUserAdmin (req_org (final acceptRequest st)) u = isUserAdmin (req_org st) u
  /\ isUserAdmin (req_org (final declineRequest st)) u = isUserAdmin (req_org st) u.
Proof.
  split; [|split].
  - destruct (joinRequest_after st)
      as [[_ ->] | (user & org & _ & -> & _ & _ & _ & _ & ->)]; [done|].
    by apply isUserAdmin_admins.
  - destruct (acceptRequest_after st)
      as [[_ ->] | (p & org & _ & -> & _ & _ & _ & ->)]; [done|].
    by apply isUserAdmin_admins.
  - destruct (declineRequest_after st)
      as [[_ ->] | (p & org & _ & -> & _ & ->)]; [done|].
    by apply isUserAdmin_admins.
Qed.

(** ** Order and failure of the external calls *)

(** X10.  In every run of [joinRequest] the admins are notified only once
    the org and the user have both been saved: a notification in the log
    of the run is its fourth entry, sent under the name
    [company-join-request] to the admins of the org as saved, after a
    successful save of that org and a successful save of the requesting
    user; and the run answers 200 only with that pair, after the
    notification has resolved. *)
Theorem joinRequest_notifies_after_saving (st : St) :
  exists evs,
    trace (final joinRequest st) = (trace st ++ evs)%list
    /\ (forall i name recipients o requesting result,
          evs !! i = Some (SendMessages name recipients o requesting result) ->
          i = 3%nat
          /\ name = "company-join-request"
          /\ recipients = o_admins o
          /\ evs !! 0%nat = Some (SaveOrg o None)
          /\ exists u, requesting = Some u /\ evs !! 2%nat = Some (SaveUser u None))
    /\ (forall i body,
          evs !! i = Some (Respond 200 body) ->
          exists o u,
            body = OrgAndUser o u
            /\ evs !! 3%nat
               = Some (SendMessages "company-join-request" (o_admins o) o (Some u) None)).
Proof.
  destruct (joinRequest_cases st)
    as [(status & text & Hstatus & Hrun) | (user & org & Hu & Ho & Hj & Hm & Ha)].
  - exists [Respond status (Message text)]. unfold final. rewrite Hrun.
    split; [reflexivity|]. split.
    + intros [|[|i]] ? ? ? ? ? Hev; discriminate Hev.
    + intros [|[|i]] ? Hev; try discriminate Hev.
      injection Hev as Hs _. lia.
  - apply indexOf_absent in Hj, Hm, Ha. open_state st.
    unfold joinRequest. unfold_handler. simpl. rewrite Hj, Hm, Ha. simpl.
    run_all_paths.
    all: (eexists; split; [reflexivity|]); split.
    all: try (intros i ? ? ? ? ? Hev;
              repeat (destruct i as [|i]; simpl in Hev; try discriminate Hev);
              injection Hev as <- <- <- <- <-;
              repeat split; eexists; split; reflexivity).
    all: intros i ? Hev;
      repeat (destruct i as [|i]; simpl in Hev; try discriminate Hev);
      injection Hev as <-; eexists _, _; split; reflexivity.
Qed.

(** X11.  A rejected call in [joinRequest] is answered 500 and nothing
    done before it is undone.  Rejected at the save of the org: nothing
    is stored.  Rejected at the save of the user: the org is stored with
    the request, the user's stored record is not touched.  Rejected at
    the notification: the org and the user are both stored with the
    request, and the answer is 500 all the same.  In each case the two
    documents held by the request carry the request. *)
Theorem joinRequest_rejected_call (st : St) (user : User) (org : Org) (e : Err) :
  req_user st = Some user ->
  req_org st = Some org ->
  u_id user ∉ map ref_id (o_joinRequests org) ->
  u_id user ∉ map ref_id (o_members org) ->
  u_id user ∉ map ref_id (o_admins org) ->
  let org' := requestedOrg user org in
  let user' := requestingUser org user in
  (forall rest, outcomes st = Some e :: rest ->
     joinRequest st
     = (Ok tt,
        mkSt (Some user') (Some org') (req_profile st) (clock st)
             (db_users st) (db_orgs st) (db_proposals st) rest
             (trace st ++ [SaveOrg org' (Some e); Respond 500 (ErrorMessage e)])))
  /\ (forall rest, outcomes st = None :: Some e :: rest ->
        joinRequest st
        = (Ok tt,
           mkSt (Some user') (Some org') (req_profile st) (clock st)
                (db_users st) (<[o_id org := org']> (db_orgs st)) (db_proposals st) rest
                (trace st ++ [SaveOrg org' None; PopulateAdmins (o_id org);
                              SaveUser user' (Some e); Respond 500 (ErrorMessage e)])))
  /\ (forall rest, outcomes st = None :: None :: Some e :: rest ->
        joinRequest st
        = (Ok tt,
           mkSt (Some user') (Some org') (req_profile st) (clock st)
                (<[u_id user := user']> (db_users st))
                (<[o_id org := org']> (db_orgs st)) (db_proposals st) rest
                (trace st ++ [SaveOrg org' None; PopulateAdmins (o_id org);
                              SaveUser user' None;
                              SendMessages "company-join-request" (o_admins org)
                                           org' (Some user') (Some e);
                              Respond 500 (ErrorMessage e)]))).
Proof.
  intros Hu Ho Hj Hm Ha org' user'. subst org' user'.
  apply indexOf_absent in Hj, Hm, Ha.
  split; [|split]; intros rest Hout; revert Hout; open_state st;
    unfold joinRequest; unfold_handler; simpl; rewrite Hj, Hm, Ha; simpl;
    run_all_paths; intros Hout; simplify_eq; normal_state; reflexivity.
Qed.

(** X12.  In [acceptRequest] and [declineRequest] the notification is
    awaited outside the try block: when it is rejected, the rejection
    leaves the handler with nothing saved and no answer sent, although
    the org and the profile held by the request have already been
    changed. *)
Theorem rejected_notification_is_thrown (st : St) (admin requestingMember : User)
    (org : Org) (e : Err) (rest : list (option Err)) :
  req_user st = Some admin ->
  req_org st = Some org ->
  req_profile st = Some requestingMember ->
  isUserAdmin (Some org) (Some admin) = true ->
  outcomes st = Some e :: rest ->
  declineRequest st
  = (Throw e,
     mkSt (Some admin) (Some (declinedOrg requestingMember org))
          (Some (declinedUser org requestingMember)) (clock st)
          (db_users st) (db_orgs st) (db_proposals st) rest
          (trace st ++
           [SendMessages "company-join-request-declined" [userRef requestingMember]
              (declinedOrg requestingMember org) None (Some e)]))
  /\ (u_id requestingMember ∈ map ref_id (o_joinRequests org) ->
      u_id requestingMember ∉ map ref_id (o_members org) ->
      acceptRequest st
      = (Throw e,
         mkSt (Some admin) (Some (acceptedOrg requestingMember org))
              (Some (acceptedUser org requestingMember)) (clock st)
              (db_users st) (db_orgs st) (db_proposals st) rest
              (trace st ++
               [SendMessages "company-join-request-accepted" [userRef requestingMember]
                  (acceptedOrg requestingMember org) None (Some e)]))).
Proof.
  intros Hu Ho Hp Hadm Hout. split.
  - open_state st. unfold declineRequest. unfold_handler. simpl. rewrite Hadm. simpl.
    normal_state. reflexivity.
  - intros Hj Hm. apply indexOf_present in Hj. apply indexOf_absent in Hm.
    open_state st. unfold acceptRequest. unfold_handler. simpl. rewrite Hadm. simpl.
    rewrite Hj, Hm. simpl. normal_state. reflexivity.
Qed.

(** X13.  Accepting saves the org before the user and undoes nothing:
    when the save of the user is rejected the answer is 500, the org is
    stored with the new member, and the stored users are as they were, so
    the stored member does not list the org. *)
Theorem accept_saves_org_then_fails (st : St) (admin requestingMember : User)
    (org : Org) (e : Err) (rest : list (option Err)) :
  req_user st = Some admin ->
  req_org st = Some org ->
  req_profile st = Some requestingMember ->
  isUserAdmin (Some org) (Some admin) = true ->
  u_id requestingMember ∈ map ref_id (o_joinRequests org) ->
  u_id requestingMember ∉ map ref_id (o_members org) ->
  outcomes st = None :: None :: Some e :: rest ->
  let st' := final acceptRequest st in
  acceptRequest st
  = (Ok tt,
     mkSt (Some admin) (Some (acceptedOrg requestingMember org))
          (Some (acceptedUser org requestingMember)) (clock st)
          (db_users st)
          (<[o_id org := acceptedOrg requestingMember org]> (db_orgs st))
          (db_proposals st) rest
          (trace st ++
           [SendMessages "company-join-request-accepted" [userRef requestingMember]
              (acceptedOrg requestingMember org) None None;
            SaveOrg (acceptedOrg requestingMember org) None;
            SaveUser (acceptedUser org requestingMember) (Some e);
            Respond 500 (ErrorMessage e)]))
  /\ (exists stored,
        db_orgs st' !! o_id org = Some stored
        /\ u_id requestingMember ∈ map ref_id (o_members stored))
  /\ db_users st' = db_users st.
Proof.
  intros Hu Ho Hp Hadm Hj Hm Hout st'.
  assert (Hrun :
    acceptRequest st
    = (Ok tt,
       mkSt (Some admin) (Some (acceptedOrg requestingMember org))
            (Some (acceptedUser org requestingMember)) (clock st)
            (db_users st)
            (<[o_id org := acceptedOrg requestingMember org]> (db_orgs st))
            (db_proposals st) rest
            (trace st ++
             [SendMessages "company-join-request-accepted" [userRef requestingMember]
                (acceptedOrg requestingMember org) None None;
              SaveOrg (acceptedOrg requestingMember org) None;
              SaveUser (acceptedUser org requestingMember) (Some e);
              Respond 500 (ErrorMessage e)]))).
  { apply indexOf_present in Hj. apply indexOf_absent in Hm.
    revert Hout. open_state st.
    unfold acceptRequest. unfold_handler. simpl. rewrite Hadm. simpl.
    rewrite Hj, Hm. simpl.
    run_all_paths; intros Hout; simplify_eq; normal_state; reflexivity. }
  split; [exact Hrun|]. subst st'. unfold final. rewrite Hrun. cbn [snd db_orgs db_users].
  split; [|reflexivity].
  exists (acceptedOrg requestingMember org). split; [apply lookup_insert_eq|].
  apply (pushed_is_member ref_id (o_members org) (userRef requestingMember)).
Qed.

(** ** Removal *)

(** [removeMember] when every external call succeeds. *)
Lemma removeMember_success (slot : UserSlot) (st : St) (user : User) (org : Org) :
  user_at slot st = Some user ->
  req_org st = Some org ->
  all_succeed st ->
  NoDup (map p_id (db_proposals st)) ->
  let user' := removedFromUser org user in
  let org' := removedFromOrg user org in
  let saves :=
    cleanupSaves user' (clock st)
      (filter (fun p => p_org p = o_id org) (db_proposals st)) in
  removeMember slot st
  = (Ok org',
     with_user_at slot (Some user')
       (mkSt (req_user st) (Some org') (req_profile st) (clock st)
             (<[u_id user := user']> (db_users st))
             (<[o_id org := org']> (db_orgs st))
             (map (fun p => if decide (p_org p = o_id org)
                            then cleanedProposal user' (clock st) p else p)
                  (db_proposals st))
             (drop (3 + length saves) (outcomes st))
             (trace st ++ [SaveUser user' None; FindProposals (o_id org) None]
                ++ saves ++ [SaveOrg org' None]))).
Proof.
  intros Hu Ho Hok Hnd user' org' saves.
  rewrite (removeMember_unfold slot st user org Hu Ho). fold user'.
  set (s0 := with_user_at slot (Some user') st).
  assert (Hu0 : user_at slot s0 = Some user') by (by destruct slot).
  assert (Hok0 : all_succeed s0) by (by destruct slot).
  rewrite (bind_ok _ _ _ _ _ (save_user_success slot s0 user' Hu0 Hok0)).
  match goal with |- bind _ _ ?s = _ => set (s1 := s) end.
  assert (Hu1 : user_at slot s1 = Some user') by (by destruct slot).
  assert (Hok1 : all_succeed s1).
  { apply (all_succeed_drop 1 st); [exact Hok | by destruct slot]. }
  assert (Hnd1 : NoDup (map p_id (db_proposals s1))) by (by destruct slot).
  rewrite (bind_ok _ _ _ _ _ (the_user_ok slot s1 user' Hu1)).
  pose proof (removeUserFromProposals_success user' org s1 Hok1 Hnd1) as Hrun2.
  cbv zeta in Hrun2.
  rewrite (bind_ok _ _ _ _ _ Hrun2).
  match goal with |- bind _ _ ?s = _ => set (s2 := s) end.
  assert (Ho2 : req_org s2 = Some org) by (by destruct slot).
  assert (Hok2 : all_succeed s2).
  { apply (all_succeed_drop
             (1 + length (cleanupSaves user' (clock s1)
                            (filter (fun p => p_org p = o_id org) (db_proposals s1))))
             s1); [exact Hok1 | reflexivity]. }
  rewrite (bind_ok _ _ _ _ _ (update_org_ok _ s2 org Ho2)).
  match goal with |- bind _ _ ?s = _ => set (s3 := s) end.
  assert (Ho3 : req_org s3
                = Some (set_members
                          (filter (fun member => ref_id member ≠ u_id user')
                                  (o_members org)) org)) by reflexivity.
  rewrite (bind_ok _ _ _ _ _ (update_org_ok _ s3 _ Ho3)).
  match goal with |- bind _ _ ?s = _ => set (s4 := s) end.
  assert (Ho4 : req_org s4 = Some org') by reflexivity.
  assert (Hok4 : all_succeed s4) by exact Hok2.
  rewrite (bind_ok _ _ _ _ _ (save_org_success s4 org' Ho4 Hok4)).
  unfold ret. f_equal.
  subst s4 s3 s2 s1 s0 saves. clear.
  destruct slot; destruct st as [ru ro rp now users orgs props outs tr];
    normal_state; rewrite !drop_drop;
    (replace (1 + (1 + length (cleanupSaves user' now
                                 (filter (fun p => p_org p = o_id org) props)) + 1))%nat
      with (3 + length (cleanupSaves user' now
                          (filter (fun p => p_org p = o_id org) props)))%nat by lia);
    reflexivity.
Qed.

Lemma removed_parted (user : User) (org : Org) :
  parted user org (removedFromUser org user) (removedFromOrg user org).
Proof.
  split; [apply (filtered_out_users (u_id user))|].
  split; [apply (filtered_out_users (u_id user))|].
  split; [apply (filtered_out_orgs (o_id org))|].
  split; [apply (filtered_out_orgs (o_id org))|].
  by repeat split.
Qed.

(** X14.  Leaving a company asks for no admin right and for no
    membership.  For any signed-in user and any org, when the external
    calls succeed, [removeMeFromCompany] answers 200 with the org, and the
    org and the user, as held and as stored, no longer list each other as
    member or admin; a pending join request and the owner of the org are
    left as they were. *)
Theorem leaving_needs_no_admin_right (st : St) (user : User) (org : Org) :
  req_user st = Some user ->
  req_org st = Some org ->
  all_succeed st ->
  NoDup (map p_id (db_proposals st)) ->
  exists st' user' org',
    removeMeFromCompany st = (Ok tt, st')
    /\ last (trace st') = Some (Respond 200 (OrgDoc org'))
    /\ req_user st' = Some user' /\ req_org st' = Some org'
    /\ db_users st' !! u_id user = Some user'
    /\ db_orgs st' !! o_id org = Some org'
    /\ parted user org user' org'.
Proof.
  intros Hu Ho Hok Hnd.
  pose proof (removeMember_success ReqUser st user org Hu Ho Hok Hnd) as Hrun.
  cbv zeta in Hrun.
  eexists _, (removedFromUser org user), (removedFromOrg user org).
  split.
  { unfold removeMeFromCompany, gets. unfold bind at 1. rewrite Hu. cbn [truthy negb].
    unfold bind at 1. rewrite Ho. cbn [truthy negb].
    rewrite (bind_ok _ _ _ _ _ Hrun). reflexivity. }
  cbn [with_user_at with_req_user log trace req_user req_org db_users db_orgs].
  split; [by rewrite last_snoc|].
  split; [reflexivity|]. split; [reflexivity|].
  split; [apply lookup_insert_eq|]. split; [apply lookup_insert_eq|].
  apply removed_parted.
Qed.

(** X15.  When an admin removes the member resolved as the profile of the
    request and the external calls succeed, [removeUserFromMemberList]
    answers 200 with the org, and the org and that member, as held and as
    stored, no longer list each other as member or admin.  The document
    of the acting admin is not touched. *)
Theorem admin_removes_member (st : St) (admin member : User) (org : Org) :
  req_user st = Some admin ->
  req_org st = Some org ->
  req_profile st = Some member ->
  isUserAdmin (Some org) (Some admin) = true ->
  all_succeed st ->
  NoDup (map p_id (db_proposals st)) ->
  exists st' member' org',
    removeUserFromMemberList st = (Ok tt, st')
    /\ last (trace st') = Some (Respond 200 (OrgDoc org'))
    /\ req_user st' = Some admin
    /\ req_profile st' = Some member' /\ req_org st' = Some org'
    /\ db_users st' !! u_id member = Some member'
    /\ db_orgs st' !! o_id org = Some org'
    /\ parted member org member' org'.
Proof.
  intros Hu Ho Hp Hadm Hok Hnd.
  pose proof (removeMember_success ReqProfile st member org Hp Ho Hok Hnd) as Hrun.
  cbv zeta in Hrun.
  eexists _, (removedFromUser org member), (removedFromOrg member org).
  split.
  { unfold removeUserFromMemberList, gets. unfold bind at 1. unfold bind at 1.
    rewrite Hu, Ho, Hadm. cbn [truthy negb orb].
    rewrite (bind_ok _ _ _ _ _ Hrun). reflexivity. }
  cbn [with_user_at with_req_profile log trace req_user req_profile req_org
       db_users db_orgs].
  split; [by rewrite last_snoc|].
  split; [exact Hu|].
  split; [reflexivity|]. split; [reflexivity|].
  split; [apply lookup_insert_eq|]. split; [apply lookup_insert_eq|].
  apply removed_parted.
Qed.

(** X16.  Removal takes the admin right away: whenever [removeMember]
    returns, the removed user passes the admin check on the returned org
    exactly when holding the platform role [admin].  The owner of the org
    is neither consulted by the check nor changed by the removal, so an
    owner who leaves stays the owner and stops being an admin. *)
Theorem removal_revokes_admin_right (slot : UserSlot) (st : St) (user : User)
    (org updatedOrg : Org) :
  user_at slot st = Some user ->
  req_org st = Some org ->
  fst (removeMember slot st) = Ok updatedOrg ->
  (isUserAdmin (Some updatedOrg) (user_at slot (final (removeMember slot) st)) = true
   <-> "admin" ∈ u_roles user)
  /\ o_owner updatedOrg = o_owner org.
Proof.
  intros Hu Ho Hret.
  destruct (removeMember_documents slot st user org Hu Ho) as (Hu' & _ & Hok).
  destruct (Hok updatedOrg Hret) as [-> _]. rewrite Hu'.
  split; [|reflexivity].
  rewrite admin_check_passes. split.
  - intros [Hrole | Hlisted]; [exact Hrole|].
    by apply (filtered_out_users (u_id user)) in Hlisted.
  - intros Hrole. by left.
Qed.

Lemma removeUserFromProposals_rejected (user : User) (org : Org) (s : St) (e : Err) :
  next_outcome s = Some e ->
  removeUserFromProposals user org s
  = (Throw e,
     mkSt (req_user s) (req_org s) (req_profile s) (clock s)
          (db_users s) (db_orgs s) (db_proposals s)
          (drop 1 (outcomes s))
          (trace s ++ [FindProposals (o_id org) (Some e)])).
Proof.
  unfold next_outcome. intros Hfail. open_state s.
  unfold removeUserFromProposals, find_proposals, bind, gets, await_outcome, modify, throw.
  destruct outs as [|[e'|] rest]; try discriminate Hfail.
  by injection Hfail as ->.
Qed.

(** X17.  The removal is not undone when it is interrupted.  If the user
    is saved and the lookup of the proposals is then rejected,
    [removeMember] throws that rejection: the user is stored without the
    org, while the org, held and stored, is untouched and no proposal has
    been looked at.  [removeMeFromCompany] lets the rejection through
    without an answer. *)
Theorem removal_interrupted_by_lookup (slot : UserSlot) (st : St) (user : User)
    (org : Org) (e : Err) (rest : list (option Err)) :
  user_at slot st = Some user ->
  req_org st = Some org ->
  outcomes st = None :: Some e :: rest ->
  let user' := removedFromUser org user in
  let st' :=
    with_user_at slot (Some user')
      (mkSt (req_user st) (Some org) (req_profile st) (clock st)
            (<[u_id user := user']> (db_users st))
            (db_orgs st) (db_proposals st) rest
            (trace st ++ [SaveUser user' None;
                          FindProposals (o_id org) (Some e)])) in
  removeMember slot st = (Throw e, st')
  /\ (slot = ReqUser -> removeMeFromCompany st = (Throw e, st')).
Proof.
  intros Hu Ho Hout user' st'.
  assert (Hrun : removeMember slot st = (Throw e, st')).
  { rewrite (removeMember_unfold slot st user org Hu Ho). fold user'.
    set (s0 := with_user_at slot (Some user') st).
    assert (Hu0 : user_at slot s0 = Some user') by (by destruct slot).
    assert (Hnext0 : next_outcome s0 = None).
    { unfold next_outcome. replace (outcomes s0) with (outcomes st) by (by destruct slot).
      by rewrite Hout. }
    pose proof (save_user_next slot s0 user' Hu0) as Hsave. rewrite Hnext0 in Hsave.
    rewrite (bind_ok _ _ _ _ _ Hsave).
    match goal with |- bind _ _ ?s = _ => set (s1 := s) end.
    assert (Hu1 : user_at slot s1 = Some user') by (by destruct slot).
    rewrite (bind_ok _ _ _ _ _ (the_user_ok slot s1 user' Hu1)).
    assert (Hnext1 : next_outcome s1 = Some e).
    { unfold next_outcome, s1. cbn [outcomes].
      replace (outcomes s0) with (outcomes st) by (by destruct slot).
      by rewrite Hout. }
    rewrite (bind_throw _ _ _ _ _ (removeUserFromProposals_rejected user' org s1 e Hnext1)).
    f_equal. subst st' s1 s0. revert Hu Ho Hout.
    destruct slot; destruct st as [ru ro rp now users orgs props outs tr];
      cbn [user_at req_org outcomes]; intros Hu Ho Hout; subst;
      normal_state; reflexivity. }
  split; [exact Hrun|].
  intros ->. unfold removeMeFromCompany, gets. unfold bind at 1.
  cbn [user_at] in Hu. rewrite Hu. cbn [truthy negb].
  unfold bind at 1. rewrite Ho. cbn [truthy negb].
  by rewrite (bind_throw _ _ _ _ _ Hrun).
Qed.

(** ** Reading an org *)

Lemma orgObject_public (o : Org) :
  pickFrom (orgObject o) ["_id"; "orgImageURL"; "name"; "website"; "capabilities"]
  = publicView o.
Proof.
  assert (H1 : orgObject o !! "_id" = Some (VStr (o_id o))).
  { unfold orgObject. by rewrite lookup_insert_eq. }
  assert (H2 : orgObject o !! "orgImageURL" = Some (VStr (o_orgImageURL o))).
  { unfold orgObject. rewrite !lookup_insert_ne by done. by rewrite lookup_insert_eq. }
  assert (H3 : orgObject o !! "name" = Some (VStr (o_name o))).
  { unfold orgObject. rewrite !lookup_insert_ne by done. by rewrite lookup_insert_eq. }
  assert (H4 : orgObject o !! "website" = Some (VStr (o_website o))).
  { unfold orgObject. rewrite !lookup_insert_ne by done. by rewrite lookup_insert_eq. }
  assert (H5 : orgObject o !! "capabilities" = Some (VStrs (o_capabilities o))).
  { unfold orgObject. rewrite !lookup_insert_ne by done. by rewrite lookup_insert_eq. }
  cbn [pickFrom]. by rewrite H1, H2, H3, H4, H5.
Qed.

(** X18.  What [read] answers.  To a caller who is not signed in or fails
    the admin check: 200 with exactly the org's own [_id], [orgImageURL],
    [name], [website] and [capabilities], whatever else the document
    holds, or with the empty object when no org was resolved.  To a
    caller who passes the check: 200 with the whole document.  Nothing
    else happens in either case. *)
Theorem read_answers (st : St) :
  (req_user st = None \/ isUserAdmin (req_org st) (req_user st) = false ->
   read st
   = (Ok tt,
      log (Respond 200
             (Object (match req_org st with
                      | Some o => publicView o
                      | None => ∅
                      end))) st))
  /\ (isUserAdmin (req_org st) (req_user st) = true ->
      exists o,
        req_org st = Some o /\ read st = (Ok tt, log (Respond 200 (OrgDoc o)) st)).
Proof.
  split.
  - intros Hguard.
    assert (Hcond : negb (truthy (req_user st))
                    || negb (isUserAdmin (req_org st) (req_user st)) = true).
    { destruct Hguard as [-> | ->]; [done | by rewrite orb_true_r]. }
    unfold read, bind, gets, json, respond, modify. rewrite Hcond.
    destruct (req_org st) as [o|]; [|reflexivity].
    change (pick (orgObject <$> Some o)
              ["_id"; "orgImageURL"; "name"; "website"; "capabilities"])
      with (pickFrom (orgObject o)
              ["_id"; "orgImageURL"; "name"; "website"; "capabilities"]).
    by rewrite orgObject_public.
  - intros Hadm.
    destruct (req_org st) as [o|] eqn:Ho; [|by destruct (req_user st)].
    destruct (req_user st) as [u|] eqn:Hu; [|discriminate Hadm].
    exists o. split; [reflexivity|].
    unfold read, bind, gets, json, respond, modify. rewrite Hu, Ho. cbn [truthy negb orb].
    by rewrite Hadm.
Qed.

(** ** Resolving the org of a route *)


(** X20.  A well-formed id with no org behind it, the lookup itself
    resolving, takes the two route-parameter handlers apart.
    [orgByIDSmall] answers 200 with the empty object and does not call
    [next].  [orgByID] sends no answer: it calls [next] with the
    [TypeError] of the population.  Neither changes [req.org]. *)
Theorem unknown_org_two_ways (isValid : string -> bool) (id : string) (st : St) :
  isValid id = true ->
  db_orgs st !! id = None ->
  next_outcome st = None ->
  (exists s,
      orgByIDSmall isValid id st = (Ok NotCalled, s)
      /\ trace s = (trace st ++ [FindOrgById id None; Respond 200 (Object ∅)])%list
      /\ req_org s = req_org st)
  /\ (exists s,
        orgByID isValid id st = (Ok (CalledWith TypeError), s)
        /\ trace s = (trace st ++ [FindOrgById id None])%list
        /\ req_org s = req_org st).
Proof.
  intros Hvalid Hnone Hnext. unfold next_outcome in Hnext. open_state st.
  unfold orgByIDSmall, orgByID, getOrgById, findById, populateOrg. unfold_handler. simpl.
  rewrite Hvalid. simpl.
  destruct outs as [|[e|] rest]; try discriminate Hnext; simpl; rewrite Hnone; simpl.
  all: rewrite <- ?app_assoc; simpl.
  all: split; eexists; (split; [reflexivity|]); simpl; rewrite <- ?app_assoc;
    split; reflexivity.
Qed.

(** X21.  When an org is stored under the id and the external calls
    succeed, both route-parameter handlers put that org in [req.org] and
    call [next] without answering, the id being well formed;
    [orgByIDSmall] after one query, [orgByID] after the lookup and the
    population. *)
Theorem known_org_is_resolved (isValid : string -> bool) (id : string) (st : St)
    (o : Org) :
  db_orgs st !! id = Some o ->
  isValid id = true ->
  all_succeed st ->
  (exists s,
      orgByIDSmall isValid id st = (Ok Called, s)
      /\ req_org s = Some o
      /\ trace s = (trace st ++ [FindOrgById id None])%list)
  /\ (exists s,
        orgByID isValid id st = (Ok Called, s)
        /\ req_org s = Some o
        /\ trace s
           = (trace st ++ [FindOrgById id None; ExecPopulate (o_id o) None])%list).
Proof.
  unfold all_succeed. intros Hfound Hvalid Hok. open_state st.
  unfold orgByIDSmall, orgByID, getOrgById, findById, populateOrg. unfold_handler. simpl.
  rewrite Hvalid. simpl.
  destruct outs as [|[e|] rest]; use_all_succeed; simpl; rewrite Hfound; simpl.
  all: try (destruct rest as [|[e|] rest]; use_all_succeed; simpl).
  all: rewrite <- ?app_assoc; simpl.
  all: split; eexists; (split; [reflexivity|]); simpl; rewrite <- ?app_assoc;
    split; reflexivity.
Qed.

(** ** The store after the clean-up *)

Lemma withoutUser_idem (user : User) (p : Proposal) :
  withoutUser user (withoutUser user p) = withoutUser user p.
Proof.
  unfold withoutUser, set_implementation_team, set_proto_team, set_inception_team,
    set_phases. simpl. by rewrite !filter_idem.
Qed.

Lemma cleanedProposal_opportunity (user : User) (rightNow : Z) (p : Proposal) :
  p_opportunity (cleanedProposal user rightNow p) = p_opportunity p.
Proof. unfold cleanedProposal. by repeat destruct (decide _). Qed.

Lemma qualifies_cleaned (user : User) (rightNow : Z) (p : Proposal) :
  qualifies rightNow (cleanedProposal user rightNow p) <-> qualifies rightNow p.
Proof. unfold qualifies. by rewrite cleanedProposal_opportunity. Qed.

(** A cleaned proposal that qualifies has its three teams filtered. *)
Lemma cleanedProposal_teams (user : User) (rightNow : Z) (p : Proposal) :
  qualifies rightNow p ->
  p_phases (cleanedProposal user rightNow p) = p_phases (withoutUser user p).
Proof.
  intros Hq. unfold cleanedProposal. rewrite decide_True by done.
  by destruct (decide _).
Qed.

Lemma cleanedProposal_settled (user : User) (rightNow : Z) (p : Proposal) :
  ~ (qualifies rightNow (cleanedProposal user rightNow p)
     /\ shrinks user (cleanedProposal user rightNow p)).
Proof.
  intros [Hq Hs]. apply qualifies_cleaned in Hq.
  unfold shrinks, teamCount in Hs.
  assert (Hph : p_phases (withoutUser user (cleanedProposal user rightNow p))
                = p_phases (withoutUser user p)).
  { unfold withoutUser at 1, set_implementation_team, set_proto_team,
      set_inception_team, set_phases. cbn [p_phases inception proto implementation team].
    rewrite (cleanedProposal_teams user rightNow p Hq).
    unfold withoutUser, set_implementation_team, set_proto_team, set_inception_team,
      set_phases. cbn [p_phases inception proto implementation team].
    by rewrite !filter_idem. }
  rewrite Hph, (cleanedProposal_teams user rightNow p Hq) in Hs. lia.
Qed.

Lemma cleanedProposal_idem (user : User) (rightNow : Z) (p : Proposal) :
  cleanedProposal user rightNow (cleanedProposal user rightNow p)
  = cleanedProposal user rightNow p.
Proof. apply cleanedProposal_unchanged, cleanedProposal_settled. Qed.

Lemma cleanupSaves_none (user : User) (rightNow : Z) (ps : list Proposal) :
  (forall p, p ∈ ps -> ~ (qualifies rightNow p /\ shrinks user p)) ->
  cleanupSaves user rightNow ps = [].
Proof.
  induction ps as [|p ps IH]; intros Hno; [reflexivity|].
  unfold cleanupSaves. cbn [flat_map].
  rewrite decide_False by (apply Hno, list_elem_of_here).
  apply IH. intros q Hq. apply Hno. by apply list_elem_of_further.
Qed.

(** X22.  Once the clean-up has run over a store with unique ids, the
    external calls succeeding, the user is on no team of any stored
    proposal of the org that is of type sprint-with-us with its deadline
    still ahead. *)
Theorem cleanup_takes_user_off_open_proposals (user : User) (org : Org) (st : St)
    (p : Proposal) :
  all_succeed st ->
  NoDup (map p_id (db_proposals st)) ->
  p ∈ db_proposals (final (removeUserFromProposals user org) st) ->
  p_org p = o_id org ->
  qualifies (clock st) p ->
  (u_id user ∉ map ref_id (team (inception (p_phases p))))
  /\ (u_id user ∉ map ref_id (team (proto (p_phases p))))
  /\ (u_id user ∉ map ref_id (team (implementation (p_phases p)))).
Proof.
  intros Hok Hnd Hin Horg Hq.
  unfold final in Hin.
  rewrite (removeUserFromProposals_success user org st Hok Hnd) in Hin.
  cbn [snd db_proposals] in Hin.
  apply elem_of_map in Hin as (p0 & Hp & Hin0).
  destruct (decide (p_org p0 = o_id org)) as [Ho|Ho]; [|congruence].
  subst p. apply qualifies_cleaned in Hq.
  rewrite (cleanedProposal_teams user (clock st) p0 Hq).
  unfold withoutUser, set_implementation_team, set_proto_team, set_inception_team,
    set_phases. cbn [p_phases inception proto implementation team].
  repeat split; apply (filtered_out_users (u_id user)).
Qed.

(** X23.  Cleaning up a second time changes nothing: over a store with
    unique ids and with the external calls succeeding, a second run of
    the clean-up for the same user and org looks the proposals up, starts
    no save, and leaves the stored proposals as the first run left
    them. *)
Theorem cleanup_twice (user : User) (org : Org) (st : St) :
  all_succeed st ->
  NoDup (map p_id (db_proposals st)) ->
  let st1 := final (removeUserFromProposals user org) st in
  let st2 := final (removeUserFromProposals user org) st1 in
  fst (removeUserFromProposals user org st1) = Ok tt
  /\ db_proposals st2 = db_proposals st1
  /\ trace st2 = (trace st1 ++ [FindProposals (o_id org) None])%list.
Proof.
  intros Hok Hnd st1 st2.
  pose proof (removeUserFromProposals_success user org st Hok Hnd) as Hrun1.
  cbv zeta in Hrun1.
  assert (Hst1 : st1 = snd (removeUserFromProposals user org st)) by reflexivity.
  rewrite Hrun1 in Hst1. cbn [snd] in Hst1.
  set (f := fun p => if decide (p_org p = o_id org)
                     then cleanedProposal user (clock st) p else p) in *.
  assert (Hclock : clock st1 = clock st) by (by rewrite Hst1).
  assert (Hdb1 : db_proposals st1 = map f (db_proposals st)) by (by rewrite Hst1).
  assert (Hok1 : all_succeed st1).
  { eapply (all_succeed_drop _ st); [exact Hok | by rewrite Hst1]. }
  assert (Hnd1 : NoDup (map p_id (db_proposals st1))).
  { rewrite Hdb1, map_map.
    replace (map (fun x => p_id (f x)) (db_proposals st)) with (map p_id (db_proposals st));
      [exact Hnd|].
    apply map_ext. intros q. unfold f. destruct (decide _); [|done].
    by rewrite cleanedProposal_id. }
  pose proof (removeUserFromProposals_success user org st1 Hok1 Hnd1) as Hrun2.
  cbv zeta in Hrun2. rewrite Hclock in Hrun2. fold f in Hrun2.
  assert (Hnone : cleanupSaves user (clock st)
                    (filter (fun p => p_org p = o_id org) (db_proposals st1)) = []).
  { apply cleanupSaves_none. intros q Hq.
    apply list_elem_of_filter in Hq as [Hqo Hq].
    rewrite Hdb1 in Hq. apply elem_of_map in Hq as (q0 & <- & _).
    unfold f. destruct (decide _) as [|Hne]; [apply cleanedProposal_settled|].
    unfold f in Hqo. rewrite decide_False in Hqo by done. done. }
  rewrite Hnone in Hrun2.
  assert (Hst2 : st2 = snd (removeUserFromProposals user org st1)) by reflexivity.
  rewrite Hrun2 in Hst2. cbn [snd] in Hst2.
  split; [by rewrite Hrun2|].
  rewrite Hst2. cbn [db_proposals trace]. split; [|reflexivity].
  rewrite Hdb1, map_map. apply map_ext. intros q. unfold f.
  destruct (decide (p_org q = o_id org)) as [Hqo|Hqo].
  - rewrite decide_True by (by rewrite cleanedProposal_org).
    apply cleanedProposal_idem.
  - by rewrite decide_False.
Qed.

(** ** Requests in sequence *)

(** [joinRequest] from a user already listed by the org. *)
Lemma joinRequest_refuses_listed (st : St) (user : User) (org : Org) :
  req_user st = Some user ->
  req_org st = Some org ->
  u_id user ∈ map ref_id (o_joinRequests org)
  \/ u_id user ∈ map ref_id (o_members org)
  \/ u_id user ∈ map ref_id (o_admins org) ->
  joinRequest st
  = (Ok tt,
     log (Respond 422 (Message
       "You already have a pending request or are already a member of this company"))
       st).
Proof.
  intros Hu Ho Hrel.
  assert (Hcond :
    negb (indexOf (map ref_id (o_joinRequests org)) (u_id user) =? -1)
    || negb (indexOf (map ref_id (o_members org)) (u_id user) =? -1)
    || negb (indexOf (map ref_id (o_admins org)) (u_id user) =? -1) = true).
  { destruct Hrel as [H | [H | H]]; apply indexOf_present in H; rewrite H;
      rewrite ?orb_true_r; reflexivity. }
  open_state st.
  unfold joinRequest, bind, gets, the_org, the_user, deref, ret, respond, modify.
  simpl. rewrite Hcond. reflexivity.
Qed.

(** [acceptRequest] by an admin for a profile that is a member already. *)
Lemma acceptRequest_skips_member (st : St) (admin requestingMember : User) (org : Org) :
  req_user st = Some admin ->
  req_org st = Some org ->
  req_profile st = Some requestingMember ->
  isUserAdmin (Some org) (Some admin) = true ->
  u_id requestingMember ∈ map ref_id (o_members org) ->
  acceptRequest st = (Ok tt, log (Respond 200 (OrgDoc org)) st).
Proof.
  intros Hu Ho Hp Hadmin Hm.
  apply indexOf_present in Hm. apply negb_true_iff in Hm.
  open_state st.
  unfold acceptRequest, bind, gets, the_org, the_user, deref, ret, json, respond, modify.
  simpl. rewrite Hadmin. simpl. rewrite Hm, andb_false_r. reflexivity.
Qed.

(** The signed-in user is the same after [acceptRequest] and after
    [declineRequest], in every run. *)
Lemma acting_user_kept (st : St) :
  req_user (final acceptRequest st) = req_user st
  /\ req_user (final declineRequest st) = req_user st.
Proof.
  open_state st. split.
  - unfold acceptRequest. unfold_handler. simpl.
    destruct ru as [u|], ro as [o|]; simpl.
    all: try destruct (isUserAdmin _ _); simpl.
    all: try destruct rp as [p|]; simpl.
    all: try destruct (negb _ && _); simpl.
    all: run_all_paths; reflexivity.
  - unfold declineRequest. unfold_handler. simpl.
    destruct ru as [u|], ro as [o|]; simpl.
    all: try destruct (isUserAdmin _ _); simpl.
    all: try destruct rp as [p|]; simpl.
    all: run_all_paths; reflexivity.
Qed.

(** X24.  Asking twice is refused the second time.  After a first
    [joinRequest] by a user with no relation to the org, whatever the
    external calls answered, a second one on the documents it left
    answers 422 with the conflict message and changes nothing. *)
Theorem join_twice (st : St) (user : User) (org : Org) :
  req_user st = Some user ->
  req_org st = Some org ->
  u_id user ∉ map ref_id (o_joinRequests org) ->
  u_id user ∉ map ref_id (o_members org) ->
  u_id user ∉ map ref_id (o_admins org) ->
  let st1 := final joinRequest st in
  joinRequest st1
  = (Ok tt,
     log (Respond 422 (Message
       "You already have a pending request or are already a member of this company"))
       st1).
Proof.
  intros Hu Ho Hj Hm Ha st1.
  destruct (joinRequest_documents st user org Hu Ho Hj Hm Ha) as [Hu1 Ho1].
  apply (joinRequest_refuses_listed st1 _ _ Hu1 Ho1). left.
  apply (pushed_is_member ref_id (o_joinRequests org) (userRef user)).
Qed.

(** X25.  Accepting twice adds the member once.  After an admin has
    accepted a candidate, whatever the external calls answered, accepting
    the same profile again on the documents left answers 200 with the org
    as it stands and changes nothing: no second entry in the members, no
    save, no second notification. *)
Theorem accept_twice (st : St) (admin requestingMember : User) (org : Org) :
  req_user st = Some admin ->
  req_org st = Some org ->
  req_profile st = Some requestingMember ->
  isUserAdmin (Some org) (Some admin) = true ->
  u_id requestingMember ∈ map ref_id (o_joinRequests org) ->
  u_id requestingMember ∉ map ref_id (o_members org) ->
  let st1 := final acceptRequest st in
  acceptRequest st1
  = (Ok tt, log (Respond 200 (OrgDoc (acceptedOrg requestingMember org))) st1).
Proof.
  intros Hu Ho Hp Hadm Hj Hm st1.
  destruct (acceptRequest_documents st admin requestingMember org Hu Ho Hp Hadm Hj Hm)
    as [Ho1 Hp1].
  destruct (acting_user_kept st) as [Hu1 _]. rewrite Hu in Hu1.
  apply (acceptRequest_skips_member st1 admin _ _ Hu1 Ho1 Hp1).
  - exact Hadm.
  - apply (pushed_is_member ref_id (o_members org) (userRef requestingMember)).
Qed.

(** X26.  A declined candidate may ask again.  After an admin has
    declined a candidate who is neither member nor admin, whatever the
    external calls answered, a [joinRequest] by that candidate on the
    documents left is not refused: it puts the candidate back among the
    join requests of the org, and the org back among the candidate's
    pending orgs. *)
Theorem declined_may_ask_again (st : St) (admin candidate : User) (org : Org) :
  req_user st = Some admin ->
  req_org st = Some org ->
  req_profile st = Some candidate ->
  isUserAdmin (Some org) (Some admin) = true ->
  u_id candidate ∉ map ref_id (o_members org) ->
  u_id candidate ∉ map ref_id (o_admins org) ->
  let st1 := final declineRequest st in
  let st2 := final joinRequest (with_req_user (req_profile st1) st1) in
  exists org2 user2,
    req_org st2 = Some org2 /\ req_user st2 = Some user2
    /\ u_id candidate ∈ map ref_id (o_joinRequests org2)
    /\ o_id org ∈ map oref_id (u_orgsPending user2).
Proof.
  intros Hu Ho Hp Hadm Hm Ha st1 st2.
  destruct (declineRequest_documents st admin candidate org Hu Ho Hp Hadm)
    as (_ & Ho1 & Hp1).
  fold st1 in Ho1, Hp1.
  set (st1' := with_req_user (req_profile st1) st1) in *.
  assert (Hu1' : req_user st1' = Some (declinedUser org candidate)) by exact Hp1.
  assert (Ho1' : req_org st1' = Some (declinedOrg candidate org)) by exact Ho1.
  destruct (joinRequest_documents st1' _ _ Hu1' Ho1') as [Hu2 Ho2].
  - apply (filtered_out_users (u_id candidate)).
  - exact Hm.
  - exact Ha.
  - eexists _, _. split; [exact Ho2|]. split; [exact Hu2|]. split.
    + apply (pushed_is_member ref_id _ (userRef (declinedUser org candidate))).
    + apply (pushed_is_member oref_id _ (orgRef (declinedOrg candidate org))).
Qed.

(** * Worked runs *)

(** Bob, an admin of Acme, removes Carol: her two team entries on the
    open sprint-with-us proposal go, it is back to Draft and is the one
    proposal saved, between the save of Carol and the save of Acme. *)
Example removal_of_carol :
  let st := final removeUserFromMemberList (request (Some bob) (Some carol) []) in
  db_proposals st
  = [mkProposal "p1" "5b1f0c0e0000000000000a01" (mkOpportunity "sprint-with-us" 2000)
       (mkPhases (mkPhase [userRef bob]) (mkPhase [userRef bob]) (mkPhase []))
       "Draft";
     swuClosed; cwuOpen; swuBobOnly; swuElsewhere]
  /\ (o_members <$> req_org st) = Some [userRef bob]
  /\ (u_orgsMember <$> req_profile st) = Some []
  /\ map (fun e => match e with
                   | SaveUser u _ => "user " ++ u_id u
                   | SaveOrg o _ => "org " ++ o_id o
                   | SaveProposal p _ => "proposal " ++ p_id p
                   | FindProposals _ _ => "find proposals"
                   | Respond _ _ => "respond"
                   | _ => "other"
                   end)%string (trace st)
     = ["user 5b1f0c0e0000000000000b03"; "find proposals"; "proposal p1";
        "org 5b1f0c0e0000000000000a01"; "respond"].
Proof. vm_compute. repeat split. Qed.

(** The save of the org is rejected while Bob accepts Dave: the answer is
    500 and Dave has been notified all the same. *)
Example accept_with_failing_save :
  trace (final acceptRequest
           (request (Some bob) (Some dave) [None; Some (Rejected "write failed")]))
  = [SendMessages "company-join-request-accepted" [userRef dave]
       (acceptedOrg dave acme) None None;
     SaveOrg (acceptedOrg dave acme) (Some (Rejected "write failed"));
     Respond 500 (ErrorMessage (Rejected "write failed"))].
Proof. vm_compute. reflexivity. Qed.

(** Carol, a plain member, reads Acme. *)
Example read_by_a_member :
  trace (final read (request (Some carol) None []))
  = [Respond 200 (Object
       (<["_id" := VStr "5b1f0c0e0000000000000a01"]>
        (<["orgImageURL" := VStr "acme.png"]>
        (<["name" := VStr "Acme"]>
        (<["website" := VStr "https://acme.example"]>
        (<["capabilities" := VStrs ["c-agile"]]> ∅))))))].
Proof. vm_compute. reflexivity. Qed.

(** An id with no org behind it. *)
Example lookup_of_unknown_org :
  fst (getOrgById "5b1f0c0e0000000000000fff" (request None None [])) = Throw TypeError.
Proof. vm_compute. reflexivity. Qed.

Lemma removeMember_steps_witness :
  user_at ReqProfile (request (Some bob) (Some carol) []) = Some carol
  /\ req_org (request (Some bob) (Some carol) []) = Some acme
  /\ fst (removeMember ReqProfile (request (Some bob) (Some carol) []))
     = Ok (removedFromOrg carol acme)
  /\ fst (removeMember ReqProfile
            (request (Some bob) (Some carol) [Some (Rejected "write failed")]))
     = Throw (Rejected "write failed").
Proof.
  split; [reflexivity|]. split; [reflexivity|]. split.
  - destruct (removeMember_steps ReqProfile (request (Some bob) (Some carol) [])
                carol acme eq_refl eq_refl) as [_ Hsuccess].
    destruct Hsuccess as (_ & _ & _ & Hrun & _).
    + apply Forall_nil_2.
    + by_evaluation.
    + rewrite Hrun. reflexivity.
  - destruct (removeMember_steps ReqProfile
                (request (Some bob) (Some carol) [Some (Rejected "write failed")])
                carol acme eq_refl eq_refl) as [Hfailure _].
    destruct (Hfailure (Rejected "write failed") eq_refl) as [Hrun _].
    rewrite Hrun. reflexivity.
Defined.

Lemma removeUserFromProposals_cleanup_witness :
  all_succeed (request (Some bob) (Some carol) [])
  /\ NoDup (map p_id (db_proposals (request (Some bob) (Some carol) [])))
  /\ db_proposals (final (removeUserFromProposals carol acme)
                     (request (Some bob) (Some carol) []))
     = map (fun p => if decide (p_org p = o_id acme)
                     then cleanedProposal carol 1000 p else p)
           [swuOpen; swuClosed; cwuOpen; swuBobOnly; swuElsewhere].
Proof.
  assert (Hok : all_succeed (request (Some bob) (Some carol) [])) by apply Forall_nil_2.
  assert (Hnd : NoDup (map p_id (db_proposals (request (Some bob) (Some carol) []))))
    by by_evaluation.
  split; [exact Hok|]. split; [exact Hnd|].
  destruct removeUserFromProposals_cleanup as [_ Hstore].
  unfold final. rewrite (Hstore carol acme _ Hok Hnd). reflexivity.
Defined.

Lemma joinRequest_conflict_witness :
  req_user (request (Some dave) None []) = Some dave
  /\ req_org (request (Some dave) None []) = Some acme
  /\ u_id dave ∈ map ref_id (o_joinRequests acme)
  /\ joinRequest (request (Some dave) None [])
     = (Ok tt,
        log (Respond 422 (Message
          "You already have a pending request or are already a member of this company"))
          (request (Some dave) None [])).
Proof.
  assert (Hin : u_id dave ∈ map ref_id (o_joinRequests acme)) by by_evaluation.
  split; [reflexivity|]. split; [reflexivity|]. split; [exact Hin|].
  apply (joinRequest_conflict (request (Some dave) None []) dave acme eq_refl eq_refl).
  left. exact Hin.
Defined.

Lemma acceptRequest_noop_witness :
  isUserAdmin (Some acme) (Some bob) = true
  /\ (u_id erin ∉ map ref_id (o_joinRequests acme))
  /\ acceptRequest (request (Some bob) (Some erin) [])
     = (Ok tt, log (Respond 200 (OrgDoc acme)) (request (Some bob) (Some erin) [])).
Proof.
  assert (Hout : u_id erin ∉ map ref_id (o_joinRequests acme)) by by_evaluation.
  split; [reflexivity|]. split; [exact Hout|].
  apply (acceptRequest_noop (request (Some bob) (Some erin) []) bob erin acme
           eq_refl eq_refl eq_refl eq_refl).
  left. exact Hout.
Defined.

Lemma declineRequest_idempotent_witness :
  req_profile (final declineRequest
                 (final declineRequest (request (Some bob) (Some dave) [])))
  = req_profile (final declineRequest (request (Some bob) (Some dave) []))
  /\ req_org (final declineRequest (request (Some bob) (Some erin) [])) = Some acme.
Proof.
  destruct (declineRequest_idempotent (request (Some bob) (Some dave) []))
    as [[_ Hprofile] _].
  split; [exact Hprofile|].
  destruct (declineRequest_idempotent (request (Some bob) (Some erin) []))
    as (_ & _ & Habsent).
  apply (Habsent bob acme erin eq_refl eq_refl eq_refl eq_refl).
  by_evaluation.
Defined.

Lemma join_then_accept_witness :
  isUserAdmin (Some acme) (Some bob) = true
  /\ all_succeed (request (Some erin) None [])
  /\ exists org2 user2,
       db_orgs (final acceptRequest
                  (next_request bob (o_id acme) (u_id erin)
                     (final joinRequest (request (Some erin) None []))))
         !! o_id acme = Some org2
       /\ db_users (final acceptRequest
                      (next_request bob (o_id acme) (u_id erin)
                         (final joinRequest (request (Some erin) None []))))
            !! u_id erin = Some user2
       /\ joined erin acme org2 user2.
Proof.
  assert (Hok : all_succeed (request (Some erin) None [])) by apply Forall_nil_2.
  split; [reflexivity|]. split; [exact Hok|].
  assert (Hj : u_id erin ∉ map ref_id (o_joinRequests acme)) by by_evaluation.
  assert (Hm : u_id erin ∉ map ref_id (o_members acme)) by by_evaluation.
  assert (Ha : u_id erin ∉ map ref_id (o_admins acme)) by by_evaluation.
  destruct (join_then_accept (request (Some erin) None []) erin bob acme
              eq_refl eq_refl Hj Hm Ha eq_refl) as [_ Hstore].
  destruct (Hstore Hok) as (org2 & user2 & _ & _ & Horg & Huser & Hjoined).
  exists org2, user2. split; [exact Horg|]. split; [exact Huser | exact Hjoined].
Defined.

Lemma read_restricted_witness :
  isUserAdmin (Some acme) (Some carol) = false
  /\ exists obj : gmap string JsVal,
       read (request (Some carol) None [])
       = (Ok tt, log (Respond 200 (Object obj)) (request (Some carol) None []))
       /\ obj !! "admins" = None /\ obj !! "members" = None
       /\ obj !! "joinRequests" = None /\ obj !! "owner" = None.
Proof.
  split; [reflexivity|].
  destruct (read_restricted (request (Some carol) None []))
    as (obj & Hrun & Hkeys & Ha & Hm & Hj & Ho); [right; reflexivity|].
  exists obj. repeat (split; [assumption|]). assumption.
Defined.

Lemma getOrgById_never_null_witness :
  db_orgs (request None None []) !! "5b1f0c0e0000000000000fff" = None
  /\ exists st', getOrgById "5b1f0c0e0000000000000fff" (request None None [])
                 = (Throw TypeError, st').
Proof.
  assert (Hnone : db_orgs (request None None []) !! "5b1f0c0e0000000000000fff" = None)
    by reflexivity.
  split; [exact Hnone|].
  destruct (getOrgById_never_null "5b1f0c0e0000000000000fff" (request None None []))
    as [_ Hthrows].
  destruct (Hthrows Hnone) as (e & st' & Hrun & Herr).
  destruct (Herr eq_refl) as [-> _]. by exists st'.
Defined.

(** ** Runs of the further properties *)

Lemma acme_wellformed : org_wellformed acme.
Proof.
  unfold org_wellformed. simpl.
  split; [by_evaluation|]. split; [by_evaluation|]. split; [by_evaluation|].
  intros id Hin. apply list_elem_of_singleton in Hin. subst id.
  split; by_evaluation.
Qed.

Lemma forbidden_changes_nothing_witness :
  isUserAdmin (Some acme) (Some carol) = false
  /\ removeUserFromMemberList (request (Some carol) (Some dave) [])
     = (Ok tt,
        log (Respond 403 (Message "You are not authorized to edit this organization"))
            (request (Some carol) (Some dave) [])).
Proof.
  split; [reflexivity|].
  destruct (forbidden_changes_nothing (request (Some carol) (Some dave) []))
    as (_ & _ & Hrun); [right; reflexivity | exact Hrun].
Defined.

Lemma missing_profile_witness :
  isUserAdmin (Some acme) (Some bob) = true
  /\ acceptRequest (request (Some bob) None [])
     = (Ok tt, log (Respond 422 (Message "Invalid acceptance request"))
                   (request (Some bob) None []))
  /\ removeUserFromMemberList (request (Some bob) None [])
     = (Throw TypeError, request (Some bob) None []).
Proof.
  split; [reflexivity|].
  destruct (missing_profile (request (Some bob) None []) bob eq_refl eq_refl eq_refl)
    as (Haccept & _ & Hremove).
  split; [exact Haccept | exact Hremove].
Defined.

Lemma anonymous_or_orgless_refused_witness :
  joinRequest (request None None [])
  = (Ok tt, log (Respond 403 (Message "You must be signed in to join a company"))
                (request None None []))
  /\ removeMeFromCompany (with_req_org None (request (Some erin) None []))
     = (Ok tt, log (Respond 422 (Message "Valid company not provided"))
                   (with_req_org None (request (Some erin) None []))).
Proof.
  split.
  - destruct (anonymous_or_orgless_refused (request None None [])) as [Hanonymous _].
    destruct (Hanonymous eq_refl) as [_ Hrun]. exact Hrun.
  - destruct (anonymous_or_orgless_refused
                (with_req_org None (request (Some erin) None []))) as [_ Horgless].
    destruct (Horgless erin eq_refl eq_refl) as [Hrun _]. exact Hrun.
Defined.


Lemma create_without_user_witness :
  create newco (request None None []) = (Throw TypeError, request None None []).
Proof. exact (create_without_user (request None None []) newco eq_refl). Defined.

Lemma create_rejected_save_witness :
  fst (create newco (request (Some erin) None [None; Some (Rejected "write failed")]))
  = Throw (Rejected "write failed")
  /\ db_orgs (final (create newco)
                (request (Some erin) None [None; Some (Rejected "write failed")]))
       !! o_id newco
     = Some (createdOrg erin newco)
  /\ db_users (final (create newco)
                 (request (Some erin) None [None; Some (Rejected "write failed")]))
       !! u_id erin
     = Some erin.
Proof.
  destruct (create_rejected_save
              (request (Some erin) None [None; Some (Rejected "write failed")])
              erin newco (Rejected "write failed") eq_refl) as [_ Hsecond].
  unfold final. rewrite (Hsecond [] eq_refl).
  split; [reflexivity|]. split; reflexivity.
Defined.

Lemma membership_lists_stay_wellformed_witness :
  if_present org_wellformed (req_org (request (Some bob) (Some dave) []))
  /\ if_present org_wellformed
       (req_org (final acceptRequest (request (Some bob) (Some dave) []))).
Proof.
  assert (Hwf : if_present org_wellformed (req_org (request (Some bob) (Some dave) [])))
    by exact acme_wellformed.
  split; [exact Hwf|].
  destruct (membership_lists_stay_wellformed (request (Some bob) (Some dave) []) Hwf)
    as (_ & Haccept & _).
  exact Haccept.
Defined.

Lemma both_sides_stay_mirrored_witness :
  mirrored dave acme
  /\ exists p' o',
       req_profile (final acceptRequest (request (Some bob) (Some dave) [])) = Some p'
       /\ req_org (final acceptRequest (request (Some bob) (Some dave) [])) = Some o'
       /\ mirrored p' o'.
Proof.
  assert (Hmirror : mirrored dave acme) by (unfold mirrored; by_evaluation).
  split; [exact Hmirror|].
  destruct (both_sides_stay_mirrored (request (Some bob) (Some dave) []) acme eq_refl)
    as (_ & Hprofile & _).
  destruct (Hprofile dave eq_refl Hmirror) as [Haccept _].
  exact Haccept.
Defined.

Lemma joinRequest_rejected_call_witness :
  (u_id erin ∉ map ref_id (o_joinRequests acme))
  /\ fst (joinRequest (request (Some erin) None [None; Some (Rejected "write failed")]))
     = Ok tt
  /\ db_orgs (final joinRequest
                (request (Some erin) None [None; Some (Rejected "write failed")]))
       !! o_id acme
     = Some (requestedOrg erin acme)
  /\ db_users (final joinRequest
                 (request (Some erin) None [None; Some (Rejected "write failed")]))
       !! u_id erin
     = Some erin.
Proof.
  assert (Hj : u_id erin ∉ map ref_id (o_joinRequests acme)) by by_evaluation.
  assert (Hm : u_id erin ∉ map ref_id (o_members acme)) by by_evaluation.
  assert (Ha : u_id erin ∉ map ref_id (o_admins acme)) by by_evaluation.
  split; [exact Hj|].
  destruct (joinRequest_rejected_call
              (request (Some erin) None [None; Some (Rejected "write failed")])
              erin acme (Rejected "write failed") eq_refl eq_refl Hj Hm Ha)
    as (_ & Hsecond & _).
  unfold final. rewrite (Hsecond [] eq_refl).
  split; [reflexivity|]. split; reflexivity.
Defined.

Lemma rejected_notification_is_thrown_witness :
  isUserAdmin (Some acme) (Some bob) = true
  /\ fst (declineRequest (request (Some bob) (Some dave) [Some (Rejected "mail failed")]))
     = Throw (Rejected "mail failed")
  /\ db_orgs (final declineRequest
                (request (Some bob) (Some dave) [Some (Rejected "mail failed")]))
     = db_orgs (request (Some bob) (Some dave) [Some (Rejected "mail failed")]).
Proof.
  split; [reflexivity|].
  destruct (rejected_notification_is_thrown
              (request (Some bob) (Some dave) [Some (Rejected "mail failed")])
              bob dave acme (Rejected "mail failed") []
              eq_refl eq_refl eq_refl eq_refl eq_refl) as [Hdecline _].
  unfold final. rewrite Hdecline. split; reflexivity.
Defined.

Lemma accept_saves_org_then_fails_witness :
  (u_id dave ∈ map ref_id (o_joinRequests acme))
  /\ (exists stored,
        db_orgs (final acceptRequest
                   (request (Some bob) (Some dave)
                      [None; None; Some (Rejected "write failed")]))
          !! o_id acme = Some stored
        /\ u_id dave ∈ map ref_id (o_members stored))
  /\ db_users (final acceptRequest
                 (request (Some bob) (Some dave)
                    [None; None; Some (Rejected "write failed")]))
     = db_users (request (Some bob) (Some dave)
                   [None; None; Some (Rejected "write failed")]).
Proof.
  assert (Hj : u_id dave ∈ map ref_id (o_joinRequests acme)) by by_evaluation.
  assert (Hm : u_id dave ∉ map ref_id (o_members acme)) by by_evaluation.
  split; [exact Hj|].
  destruct (accept_saves_org_then_fails
              (request (Some bob) (Some dave)
                 [None; None; Some (Rejected "write failed")])
              bob dave acme (Rejected "write failed") []
              eq_refl eq_refl eq_refl eq_refl Hj Hm eq_refl)
    as (_ & Hstored & Husers).
  split; [exact Hstored | exact Husers].
Defined.

Lemma leaving_needs_no_admin_right_witness :
  isUserAdmin (Some acme) (Some carol) = false
  /\ exists st' user' org',
       removeMeFromCompany (request (Some carol) None []) = (Ok tt, st')
       /\ db_orgs st' !! o_id acme = Some org'
       /\ parted carol acme user' org'.
Proof.
  split; [reflexivity|].
  destruct (leaving_needs_no_admin_right (request (Some carol) None []) carol acme
              eq_refl eq_refl)
    as (st' & user' & org' & Hrun & _ & _ & _ & _ & Horg & Hparted).
  - apply Forall_nil_2.
  - by_evaluation.
  - exists st', user', org'. split; [exact Hrun|]. split; [exact Horg | exact Hparted].
Defined.

Lemma admin_removes_member_witness :
  isUserAdmin (Some acme) (Some bob) = true
  /\ exists st' member' org',
       removeUserFromMemberList (request (Some bob) (Some carol) []) = (Ok tt, st')
       /\ req_user st' = Some bob
       /\ db_users st' !! u_id carol = Some member'
       /\ parted carol acme member' org'.
Proof.
  split; [reflexivity|].
  destruct (admin_removes_member (request (Some bob) (Some carol) []) bob carol acme
              eq_refl eq_refl eq_refl eq_refl)
    as (st' & member' & org' & Hrun & _ & Hadmin & _ & _ & Huser & _ & Hparted).
  - apply Forall_nil_2.
  - by_evaluation.
  - exists st', member', org'.
    split; [exact Hrun|]. split; [exact Hadmin|]. split; [exact Huser | exact Hparted].
Defined.

Lemma removal_revokes_admin_right_witness :
  isUserAdmin (Some acme) (Some bob) = true
  /\ fst (removeMember ReqUser (request (Some bob) None []))
     = Ok (removedFromOrg bob acme)
  /\ (isUserAdmin (Some (removedFromOrg bob acme))
        (user_at ReqUser (final (removeMember ReqUser) (request (Some bob) None [])))
      = true
      <-> "admin" ∈ u_roles bob)
  /\ o_owner (removedFromOrg bob acme) = Some (userRef bob).
Proof.
  split; [reflexivity|].
  assert (Hrun : fst (removeMember ReqUser (request (Some bob) None []))
                 = Ok (removedFromOrg bob acme)) by (vm_compute; reflexivity).
  split; [exact Hrun|].
  exact (removal_revokes_admin_right ReqUser (request (Some bob) None []) bob acme
           (removedFromOrg bob acme) eq_refl eq_refl Hrun).
Defined.

Lemma removal_interrupted_by_lookup_witness :
  fst (removeMember ReqProfile
         (request (Some bob) (Some carol) [None; Some (Rejected "query failed")]))
  = Throw (Rejected "query failed")
  /\ db_users (final (removeMember ReqProfile)
                 (request (Some bob) (Some carol) [None; Some (Rejected "query failed")]))
       !! u_id carol
     = Some (removedFromUser acme carol)
  /\ db_orgs (final (removeMember ReqProfile)
                (request (Some bob) (Some carol) [None; Some (Rejected "query failed")]))
       !! o_id acme
     = Some acme.
Proof.
  destruct (removal_interrupted_by_lookup ReqProfile
              (request (Some bob) (Some carol) [None; Some (Rejected "query failed")])
              carol acme (Rejected "query failed") [] eq_refl eq_refl eq_refl)
    as [Hrun _].
  unfold final. rewrite Hrun. split; [reflexivity|]. split; reflexivity.
Defined.

Lemma read_answers_witness :
  read (request None None [])
  = (Ok tt, log (Respond 200 (Object (publicView acme))) (request None None []))
  /\ exists o,
       req_org (request (Some bob) None []) = Some o
       /\ read (request (Some bob) None [])
          = (Ok tt, log (Respond 200 (OrgDoc o)) (request (Some bob) None [])).
Proof.
  split.
  - destruct (read_answers (request None None [])) as [Hpublic _].
    apply Hpublic. left. reflexivity.
  - destruct (read_answers (request (Some bob) None [])) as [_ Hadmin].
    apply Hadmin. reflexivity.
Defined.

Lemma unknown_org_two_ways_witness :
  isValidId "5b1f0c0e0000000000000fff" = true
  /\ (exists s,
        orgByIDSmall isValidId "5b1f0c0e0000000000000fff" (request None None [])
        = (Ok NotCalled, s)
        /\ trace s = [FindOrgById "5b1f0c0e0000000000000fff" None;
                      Respond 200 (Object ∅)])
  /\ (exists s,
        orgByID isValidId "5b1f0c0e0000000000000fff" (request None None [])
        = (Ok (CalledWith TypeError), s)
        /\ trace s = [FindOrgById "5b1f0c0e0000000000000fff" None]).
Proof.
  split; [reflexivity|].
  destruct (unknown_org_two_ways isValidId "5b1f0c0e0000000000000fff"
              (request None None []) eq_refl eq_refl eq_refl)
    as [(s1 & Hrun1 & Htrace1 & _) (s2 & Hrun2 & Htrace2 & _)].
  split.
  - exists s1. split; [exact Hrun1 | exact Htrace1].
  - exists s2. split; [exact Hrun2 | exact Htrace2].
Defined.

Lemma known_org_is_resolved_witness :
  isValidId (o_id acme) = true
  /\ exists s,
       orgByID isValidId (o_id acme) (with_req_org None (request None None []))
       = (Ok Called, s)
       /\ req_org s = Some acme.
Proof.
  split; [reflexivity|].
  destruct (known_org_is_resolved isValidId (o_id acme)
              (with_req_org None (request None None [])) acme eq_refl eq_refl)
    as [_ (s & Hrun & Horg & _)].
  - apply Forall_nil_2.
  - exists s. split; [exact Hrun | exact Horg].
Defined.

Lemma cleanup_takes_user_off_open_proposals_witness :
  qualifies 1000 (cleanedProposal carol 1000 swuOpen)
  /\ (u_id carol ∉ map ref_id (team (proto (p_phases (cleanedProposal carol 1000 swuOpen)))))
  /\ (u_id carol
      ∉ map ref_id (team (implementation (p_phases (cleanedProposal carol 1000 swuOpen))))).
Proof.
  assert (Hopen : qualifies 1000 (cleanedProposal carol 1000 swuOpen)) by by_evaluation.
  split; [exact Hopen|].
  destruct (cleanup_takes_user_off_open_proposals carol acme
              (request (Some bob) (Some carol) []) (cleanedProposal carol 1000 swuOpen))
    as (_ & Hproto & Himplementation).
  - apply Forall_nil_2.
  - by_evaluation.
  - vm_compute. apply list_elem_of_here.
  - reflexivity.
  - exact Hopen.
  - split; [exact Hproto | exact Himplementation].
Defined.

Lemma cleanup_twice_witness :
  all_succeed (request (Some bob) (Some carol) [])
  /\ db_proposals
       (final (removeUserFromProposals carol acme)
          (final (removeUserFromProposals carol acme)
             (request (Some bob) (Some carol) [])))
     = db_proposals
         (final (removeUserFromProposals carol acme)
            (request (Some bob) (Some carol) [])).
Proof.
  assert (Hok : all_succeed (request (Some bob) (Some carol) [])) by apply Forall_nil_2.
  split; [exact Hok|].
  destruct (cleanup_twice carol acme (request (Some bob) (Some carol) []) Hok)
    as (_ & Hstore & _).
  - by_evaluation.
  - exact Hstore.
Defined.

Lemma join_twice_witness :
  (u_id erin ∉ map ref_id (o_joinRequests acme))
  /\ fst (joinRequest (final joinRequest (request (Some erin) None []))) = Ok tt
  /\ last (trace (final joinRequest (final joinRequest (request (Some erin) None []))))
     = Some (Respond 422 (Message
         "You already have a pending request or are already a member of this company")).
Proof.
  assert (Hj : u_id erin ∉ map ref_id (o_joinRequests acme)) by by_evaluation.
  assert (Hm : u_id erin ∉ map ref_id (o_members acme)) by by_evaluation.
  assert (Ha : u_id erin ∉ map ref_id (o_admins acme)) by by_evaluation.
  split; [exact Hj|].
  pose proof (join_twice (request (Some erin) None []) erin acme
                eq_refl eq_refl Hj Hm Ha) as Hrun.
  cbv zeta in Hrun. split.
  - rewrite Hrun. reflexivity.
  - unfold final at 1. rewrite Hrun. apply last_snoc.
Defined.

Lemma accept_twice_witness :
  (u_id dave ∈ map ref_id (o_joinRequests acme))
  /\ acceptRequest (final acceptRequest (request (Some bob) (Some dave) []))
     = (Ok tt,
        log (Respond 200 (OrgDoc (acceptedOrg dave acme)))
            (final acceptRequest (request (Some bob) (Some dave) []))).
Proof.
  assert (Hj : u_id dave ∈ map ref_id (o_joinRequests acme)) by by_evaluation.
  assert (Hm : u_id dave ∉ map ref_id (o_members acme)) by by_evaluation.
  split; [exact Hj|].
  exact (accept_twice (request (Some bob) (Some dave) []) bob dave acme
           eq_refl eq_refl eq_refl eq_refl Hj Hm).
Defined.

Lemma declined_may_ask_again_witness :
  isUserAdmin (Some acme) (Some bob) = true
  /\ exists org2 user2,
       req_org (final joinRequest
                  (with_req_user
                     (req_profile (final declineRequest
                                     (request (Some bob) (Some dave) [])))
                     (final declineRequest (request (Some bob) (Some dave) []))))
       = Some org2
       /\ req_user (final joinRequest
                      (with_req_user
                         (req_profile (final declineRequest
                                         (request (Some bob) (Some dave) [])))
                         (final declineRequest (request (Some bob) (Some dave) []))))
          = Some user2
       /\ u_id dave ∈ map ref_id (o_joinRequests org2)
       /\ o_id acme ∈ map oref_id (u_orgsPending user2).
Proof.
  split; [reflexivity|].
  assert (Hm : u_id dave ∉ map ref_id (o_members acme)) by by_evaluation.
  assert (Ha : u_id dave ∉ map ref_id (o_admins acme)) by by_evaluation.
  exact (declined_may_ask_again (request (Some bob) (Some dave) []) bob dave acme
           eq_refl eq_refl eq_refl eq_refl Hm Ha).
Defined.
